(** * Campaign performance report: the metric-aggregation engine

    A shallow embedding of the data-loading and aggregation functions of
    [generate_report_from_data.py] (field parsing, classification,
    [calc_metrics] and the [aggregate_by_*] functions), and the properties
    of them that the specification states.

    Numbers are Python floats, that is IEEE-754 binary64 values: they are
    modelled by Rocq's primitive [float], whose operations are the same
    binary64 operations (round to nearest, ties to even).  Text is modelled
    by [string]; a character outside ASCII stands for its UTF-8 bytes, which
    none of the functions below inspects or alters. *)

From Stdlib Require Import ZArith Lia Bool List String Ascii.
From Stdlib Require Import Floats.
From Stdlib Require Import Permutation Sorted.
From Stdlib Require OrderedTypeEx.
Import ListNotations.

Local Open Scope bool_scope.

(** ** Python floats *)

Module PyFloat.

Local Open Scope float_scope.

(** [x > y] on floats: false as soon as one side is NaN. *)
Definition gt (x y : float) : bool := (y <? x).

(** [x >= y] on floats. *)
Definition ge (x y : float) : bool := (y <=? x).

(** [pd.isna] / [math.isnan] on a float. *)
Definition isna (x : float) : bool := is_nan x.

End PyFloat.

(** ** Python strings *)

Module PyStr.

Local Open Scope string_scope.

(** [c.lower()] on one character: the ASCII capitals are shifted to the
    small letters and every other character stays as it is.  (Python
    also lowers capitals outside ASCII; none of them becomes one of the
    ASCII characters searched for below.) *)
Definition lower_char (c : ascii) : ascii :=
  let n := nat_of_ascii c in
  if (Nat.leb 65 n && Nat.leb n 90)%bool then ascii_of_nat (n + 32) else c.

(** [s.lower()]. *)
Fixpoint lower (s : string) : string :=
  match s with
  | EmptyString => EmptyString
  | String c s' => String (lower_char c) (lower s')
  end.

(** [s.startswith(pat)]. *)
Fixpoint startswith (pat s : string) : bool :=
  match pat, s with
  | EmptyString, _ => true
  | String _ _, EmptyString => false
  | String a pat', String b s' =>
      if Ascii.eqb a b then startswith pat' s' else false
  end.

(** [pat in s]: [pat] occurs in [s] at some position. *)
Fixpoint contains (pat s : string) : bool :=
  startswith pat s ||
  match s with
  | EmptyString => false
  | String _ s' => contains pat s'
  end.

(** [s.replace(c, '')] for a one-character [c]. *)
Fixpoint remove_char (c : ascii) (s : string) : string :=
  match s with
  | EmptyString => EmptyString
  | String a s' =>
      if Ascii.eqb a c then remove_char c s' else String a (remove_char c s')
  end.

(** The character of the double quote. *)
Definition double_quote : ascii := ascii_of_nat 34.

(** The ASCII characters that [str.strip()] removes: tab, line feed,
    vertical tab, form feed, carriage return, the four separators
    0x1c-0x1f and the space. *)
Definition is_space (c : ascii) : bool :=
  let n := nat_of_ascii c in
  (Nat.leb 9 n && Nat.leb n 13) || (Nat.leb 28 n && Nat.leb n 32).

Fixpoint lstrip (s : string) : string :=
  match s with
  | EmptyString => EmptyString
  | String c s' => if is_space c then lstrip s' else s
  end.

Fixpoint rstrip (s : string) : string :=
  match s with
  | EmptyString => EmptyString
  | String c s' =>
      match rstrip s' with
      | EmptyString => if is_space c then EmptyString else String c EmptyString
      | t => String c t
      end
  end.

(** [s.strip()]. *)
Definition strip (s : string) : string := rstrip (lstrip s).

(** The truth value of a string: [if cleaned] holds for a non-empty one. *)
Definition truthy (s : string) : bool :=
  match s with EmptyString => false | String _ _ => true end.

(** String comparison [s1 <= s2], by code points. *)
Definition le (s1 s2 : string) : bool := String.leb s1 s2.

End PyStr.

(** ** Cells of a CSV column

    [pd.read_csv] gives the cells of a column as 64-bit integers, floats
    or text; an empty cell is the float NaN. *)

Inductive Cell :=
| Int (z : Z)
| Float (f : float)
| Str (s : string).

(** The missing cell. *)
Definition NA : Cell := Float nan.

(** [pd.isna(value)] on one cell. *)
Definition isna (value : Cell) : bool :=
  match value with
  | Float f => PyFloat.isna f
  | _ => false
  end.

(** A cell of a text column (a name, a date as written) is text, or is
    missing: [None] is the cell on which [pd.isna] holds. *)
Definition TextCell := option string.

(** ** Field parsing *)

Section FieldNormalizer.

(** Python's [float(s)] on text is the interpreter's own: [None] stands
    for the [ValueError] it raises on text that is not a number. *)
Variable py_float : string -> option float.

(** [float(z)] on an integer: the nearest binary64 value (an integer
    cell holds a 64-bit integer, far inside the range of the floats). *)
Definition float_of_int (z : Z) : float :=
  SF2Prim (binary_normalize prec emax z 0 false).

(** [parse_currency]. *)
Definition parse_currency (value : Cell) : float :=
  if isna value then 0%float
  else
    match value with
    | Int z => float_of_int z
    | Float f => f
    | Str s =>
        let cleaned :=
          PyStr.strip
            (PyStr.remove_char PyStr.double_quote
               (PyStr.remove_char ","
                  (PyStr.remove_char "$" s))) in
        if PyStr.truthy cleaned then
          match py_float cleaned with
          | Some v => v
          | None => 0%float
          end
        else 0%float
    end.

End FieldNormalizer.

(** ** Classification *)

Inductive portfolio_type := JN | Non_JN.

Inductive segment := Branded | Competitor | Non_Branded.

(** The text of the labels, as the columns hold them. *)
Definition portfolio_type_label (p : portfolio_type) : string :=
  match p with
  | JN => "JN"
  | Non_JN => "Non-JN"
  end.

Definition segment_label (s : segment) : string :=
  match s with
  | Branded => "Branded"
  | Competitor => "Competitor"
  | Non_Branded => "Non-Branded"
  end.

(** [classify_portfolio]. *)
Definition classify_portfolio (portfolio_name : TextCell)
  : portfolio_type :=
  match portfolio_name with
  | None => Non_JN
  | Some name =>
      if PyStr.contains "jn" (PyStr.lower name) then JN else Non_JN
  end.

(** [classify_segment]. *)
Definition classify_segment (campaign_name : TextCell) : segment :=
  match campaign_name with
  | None => Non_Branded
  | Some name =>
      let name_lower := PyStr.lower name in
      if PyStr.contains "branded" name_lower then Branded
      else if PyStr.contains " pat " name_lower
              || PyStr.contains "- pat -" name_lower
              || PyStr.contains "_pat_" name_lower
           then Competitor
           else Non_Branded
  end.

(** ** Calendar dates

    The [Date] column holds calendar dates.  A date is its year, month and
    day; the day number, the day of the week and the week of the year are
    computed as Python's [datetime] computes them. *)

Record date := { year : Z; month : Z; day : Z }.

Module Calendar.

Local Open Scope Z_scope.

Definition is_leap (y : Z) : bool :=
  (y mod 4 =? 0) && (negb (y mod 100 =? 0) || (y mod 400 =? 0)).

Definition days_in_month (y m : Z) : Z :=
  match m with
  | 1 => 31 | 2 => if is_leap y then 29 else 28 | 3 => 31 | 4 => 30
  | 5 => 31 | 6 => 30 | 7 => 31 | 8 => 31 | 9 => 30 | 10 => 31
  | 11 => 30 | 12 => 31
  | _ => 0
  end.

(** Days of the year before the first day of month [m]. *)
Definition days_before_month (y m : Z) : Z :=
  let leap := if is_leap y then 1 else 0 in
  match m with
  | 1 => 0 | 2 => 31 | 3 => 59 + leap | 4 => 90 + leap | 5 => 120 + leap
  | 6 => 151 + leap | 7 => 181 + leap | 8 => 212 + leap | 9 => 243 + leap
  | 10 => 273 + leap | 11 => 304 + leap | 12 => 334 + leap
  | _ => 0
  end.

(** Days before January 1st of year [y], counted from year 1. *)
Definition days_before_year (y : Z) : Z :=
  let p := y - 1 in p * 365 + p / 4 - p / 100 + p / 400.

(** [d.toordinal()]: January 1st of year 1 is day 1. *)
Definition toordinal (d : date) : Z :=
  days_before_year (year d) + days_before_month (year d) (month d) + day d.

(** Day of the year, from 0 ([tm_yday]). *)
Definition yday (d : date) : Z :=
  days_before_month (year d) (month d) + day d - 1.

(** Day of the week, Sunday being 0 ([tm_wday]). *)
Definition wday (d : date) : Z := toordinal d mod 7.

(** The week of the year of [%U]: weeks start on Sunday, and the days
    before the first Sunday of the year are in week 0. *)
Definition week_U (d : date) : Z := (yday d + 7 - wday d) / 7.

(** The dates that exist, with a year of four digits (a pandas timestamp
    lies between the years 1677 and 2262). *)
Definition valid_date (d : date) : bool :=
  (1000 <=? year d) && (year d <=? 9999) &&
  (1 <=? month d) && (month d <=? 12) &&
  (1 <=? day d) && (day d <=? days_in_month (year d) (month d)).

(** Chronological comparison. *)
Definition compare (a b : date) : comparison :=
  match year a ?= year b with
  | Eq => match month a ?= month b with
          | Eq => day a ?= day b
          | c => c
          end
  | c => c
  end.

Definition leb (a b : date) : bool :=
  match compare a b with Gt => false | _ => true end.

(** The decimal digit [n] as a character. *)
Definition digit_char (n : Z) : ascii := ascii_of_nat (48 + Z.to_nat n).

(** A number below 100 on two digits, one below 10000 on four. *)
Definition pad2 (n : Z) : string :=
  String (digit_char (n / 10 mod 10)) (String (digit_char (n mod 10)) "").

Definition pad4 (n : Z) : string :=
  String (digit_char (n / 1000 mod 10))
    (String (digit_char (n / 100 mod 10)) (pad2 n)).

(** [%b]: the abbreviated name of the month. *)
Definition month_abbr (m : Z) : string :=
  match m with
  | 1 => "Jan" | 2 => "Feb" | 3 => "Mar" | 4 => "Apr" | 5 => "May"
  | 6 => "Jun" | 7 => "Jul" | 8 => "Aug" | 9 => "Sep" | 10 => "Oct"
  | 11 => "Nov" | 12 => "Dec"
  | _ => ""
  end%string.

(** [d.strftime('%b %Y')]. *)
Definition strftime_b_Y (d : date) : string :=
  (month_abbr (month d) ++ " " ++ pad4 (year d))%string.

(** [d.strftime('%Y-W%U')]. *)
Definition strftime_Y_W_U (d : date) : string :=
  (pad4 (year d) ++ "-W" ++ pad2 (week_U d))%string.

End Calendar.

(** A cell of a datetime column: a date, or [NaT] ([None]). *)
Definition Timestamp := option date.

Definition NaT : Timestamp := None.

(** ** The data frames *)

(** A row of the campaign report as [pd.read_csv] gives it. *)
Record CampaignCsvRow := {
  csv_Date : TextCell;
  csv_Portfolio_name : TextCell;
  csv_Campaign_Name : TextCell;
  csv_Impressions : Cell;
  csv_Clicks : Cell;
  csv_Spend : Cell;
  csv_7_Day_Total_Sales : Cell;
  csv_7_Day_Total_Orders : Cell
}.

(** A row of the campaign data frame that [load_campaign_data] returns
    (the columns [Month] and [Year], which no aggregation reads, are left
    out). *)
Record CampaignRow := {
  Date : Timestamp;
  Portfolio_name : TextCell;
  Campaign_Name : TextCell;
  Spend : float;
  Sales : float;
  Orders : float;
  Impressions : float;
  Clicks : float;
  Portfolio_Type : portfolio_type;
  Segment : segment;
  Month_Label : option string;
  Week : option string
}.

(** A row of the business report as read, and as
    [load_business_data] returns it. *)
Record BusinessCsvRow := {
  bcsv_Date : TextCell;
  bcsv_Ordered_Product_Sales : Cell;
  bcsv_Units_Ordered : Cell;
  bcsv_Sessions_Total : Cell
}.

Record BusinessRow := {
  biz_Date : Timestamp;
  biz_Total_Sales : float;
  biz_Units : float;
  biz_Sessions : float;
  biz_Month_Label : option string;
  biz_Week : option string
}.

(** ** Column and frame operations of pandas *)

Module Pandas.

(** The cells of a column with 0 in place of NaN, as [nansum] fills
    them before it adds them. *)
Definition fill0 (col : list float) : list float :=
  map (fun x => if PyFloat.isna x then 0%float else x) col.

(** The sum that numpy computes on at most 128 values.  Fewer than 8
    values are added one after the other.  Otherwise eight running sums
    start from the first eight values, the next values are added to them
    eight at a time, the eight sums are added two by two, and the values
    left over (fewer than 8) are added one after the other. *)
Fixpoint add_blocks (k : nat) (r a : list float)
  : list float * list float :=
  match k with
  | O => (r, a)
  | S k' =>
      add_blocks k'
        (map (fun p => (fst p + snd p)%float) (combine r (firstn 8 a)))
        (skipn 8 a)
  end.

Definition block_sum (a : list float) : float :=
  let '(r, rest) :=
    add_blocks (List.length a / 8 - 1) (firstn 8 a) (skipn 8 a) in
  match r with
  | [r0; r1; r2; r3; r4; r5; r6; r7] =>
      fold_left (fun res x => (res + x)%float) rest
        (((r0 + r1) + (r2 + r3)) + ((r4 + r5) + (r6 + r7)))%float
  | _ => fold_left (fun res x => (res + x)%float) (r ++ rest) 0%float
  end.

(** numpy's pairwise sum: more than 128 values are split in two parts,
    the first of half the values less what makes it a multiple of 8,
    and the sums of the parts are added.  [depth] bounds the number of
    splits; the length of the list is enough. *)
Fixpoint pairwise_sum (depth : nat) (a : list float) : float :=
  match depth with
  | O => block_sum a
  | S d =>
      let n := List.length a in
      if Nat.leb n 128 then block_sum a
      else
        let n2 := n / 2 - (n / 2) mod 8 in
        (pairwise_sum d (firstn n2 a) + pairwise_sum d (skipn n2 a))%float
  end.

(** [Series.sum()]: the cells that are NaN count as 0, and the cells are
    added by numpy's pairwise sum, from 0 (a sum that is a zero is
    +0). *)
Definition series_sum (col : list float) : float :=
  (0 + pairwise_sum (List.length col) (fill0 col))%float.

(** The sum of a group of [groupby(...).agg('sum')]: the cells that are
    not NaN are added in row order from 0 by Kahan's compensated sum,
    the compensation being put back to 0 when it is NaN. *)
Definition group_sum (col : list float) : float :=
  fst
    (fold_left
       (fun (st : float * float) (val : float) =>
          if PyFloat.isna val then st
          else
            let y := (val - snd st)%float in
            let t := (fst st + y)%float in
            let c := (t - fst st - y)%float in
            (t, if PyFloat.isna c then 0%float else c))
       col (0%float, 0%float)).

(** The smaller of two timestamps, [NaT] being skipped. *)
Definition ts_min (a b : Timestamp) : Timestamp :=
  match a, b with
  | None, _ => b
  | _, None => a
  | Some x, Some y => if Calendar.leb x y then a else b
  end.

(** [Series.min()] on a datetime column: [NaT] cells are skipped, and the
    minimum of no date is [NaT]. *)
Definition series_min (col : list Timestamp) : Timestamp :=
  fold_left ts_min col NaT.

(** The order in which [sort_values] puts cells that may be missing:
    by [le] on the cells that are there, the missing ones last. *)
Definition na_last_le {K : Type} (le : K -> K -> bool) (a b : option K)
  : bool :=
  match a, b with
  | Some x, Some y => le x y
  | _, None => true
  | None, Some _ => false
  end.

Section SortValues.

Context {A K : Type}.
Variable le : K -> K -> bool.
Variable by_ : A -> K.

Fixpoint insert_sorted (x : A) (l : list A) : list A :=
  match l with
  | [] => [x]
  | y :: l' =>
      if le (by_ x) (by_ y) then x :: l else y :: insert_sorted x l'
  end.

(** [df.sort_values(by)]: the rows in ascending order of the key. *)
Definition sort_values (l : list A) : list A :=
  fold_right insert_sorted [] l.

End SortValues.

(** The sorted list of the distinct keys of a column. *)
Fixpoint insert_key (k : string) (ks : list string) : list string :=
  match ks with
  | [] => [k]
  | k' :: ks' =>
      match String.compare k k' with
      | Lt => k :: ks
      | Eq => ks
      | Gt => k' :: insert_key k ks'
      end
  end.

Definition group_keys (col : list (option string)) : list string :=
  fold_right
    (fun c acc => match c with Some k => insert_key k acc | None => acc end)
    [] col.

Definition has_key {A : Type} (by_ : A -> option string) (k : string)
  (r : A) : bool :=
  match by_ r with
  | Some k' => String.eqb k' k
  | None => false
  end.

(** [df.groupby(by)]: one group for each distinct key, the keys in
    ascending order, the rows of a group in the order of the frame; the
    rows whose key is missing are in no group. *)
Definition groupby {A : Type} (by_ : A -> option string) (df : list A)
  : list (string * list A) :=
  map (fun k => (k, filter (has_key by_ k) df)) (group_keys (map by_ df)).

(** The dictionary [{m: i for i, m in enumerate(keys)}], as the function
    that looks a key up: a later entry replaces an earlier one. *)
Definition enumerate_dict (keys : list string) : string -> option nat :=
  fold_left
    (fun d im k => if String.eqb k (snd im) then Some (fst im) else d k)
    (combine (seq 0 (List.length keys)) keys)
    (fun _ => None).

(** [Series.fillna(0)] on one cell. *)
Definition fillna0 (x : float) : float :=
  if PyFloat.isna x then 0%float else x.

(** [Series.clip(lower=0)] on one cell: a cell is kept when it is missing
    or at least 0, and replaced by 0 otherwise. *)
Definition clip_lower0 (x : float) : float :=
  if PyFloat.isna x || PyFloat.ge x 0 then x else 0%float.

(** [left.merge(right, on=key, how='left')]: every row of [left], in
    order, with each row of [right] of the same key, or with [missing]
    when there is none. *)
Definition merge_left {L R : Type} (missing : R)
  (left : list (string * L)) (right : list (string * R))
  : list (string * L * R) :=
  flat_map
    (fun l =>
       match filter (fun r => String.eqb (fst r) (fst l)) right with
       | [] => [(fst l, snd l, missing)]
       | matches => map (fun r => (fst l, snd l, snd r)) matches
       end)
    left.

End Pandas.

(** ** Loading *)

Section Loader.

Variable py_float : string -> option float.

(** The reader of one date as written, which [pd.to_datetime] applies to
    each cell with [format='mixed']: [None] stands for the error it raises
    on text that is not a date. *)
Variable parse_datetime : string -> option date.

(** [pd.to_datetime(column, format='mixed', dayfirst=False)], with the
    default [errors='raise']: a missing cell becomes [NaT], and one cell
    that cannot be read fails the whole conversion. *)
Fixpoint to_datetime (col : list TextCell) : option (list Timestamp) :=
  match col with
  | [] => Some []
  | None :: col' => option_map (cons NaT) (to_datetime col')
  | Some s :: col' =>
      match parse_datetime s with
      | None => None
      | Some d => option_map (cons (Some d)) (to_datetime col')
      end
  end.

(** The columns that [load_campaign_data] adds to one row, once its
    date is read. *)
Definition campaign_row (r : CampaignCsvRow) (d : Timestamp)
  : CampaignRow :=
  {| Date := d;
     Portfolio_name := csv_Portfolio_name r;
     Campaign_Name := csv_Campaign_Name r;
     Spend := parse_currency py_float (csv_Spend r);
     Sales := parse_currency py_float (csv_7_Day_Total_Sales r);
     Orders := parse_currency py_float (csv_7_Day_Total_Orders r);
     Impressions := parse_currency py_float (csv_Impressions r);
     Clicks := parse_currency py_float (csv_Clicks r);
     Portfolio_Type := classify_portfolio (csv_Portfolio_name r);
     Segment := classify_segment (csv_Campaign_Name r);
     Month_Label := option_map Calendar.strftime_b_Y d;
     Week := option_map Calendar.strftime_Y_W_U d |}.

(** [load_campaign_data], on the rows read from the file: [None] is the
    run ended by the error of [pd.to_datetime]. *)
Definition load_campaign_data (csv : list CampaignCsvRow)
  : option (list CampaignRow) :=
  match to_datetime (map csv_Date csv) with
  | None => None
  | Some dates =>
      Some (map (fun rd => campaign_row (fst rd) (snd rd))
              (combine csv dates))
  end.

Definition business_row (r : BusinessCsvRow) (d : Timestamp)
  : BusinessRow :=
  {| biz_Date := d;
     biz_Total_Sales := parse_currency py_float (bcsv_Ordered_Product_Sales r);
     biz_Units := parse_currency py_float (bcsv_Units_Ordered r);
     biz_Sessions := parse_currency py_float (bcsv_Sessions_Total r);
     biz_Month_Label := option_map Calendar.strftime_b_Y d;
     biz_Week := option_map Calendar.strftime_Y_W_U d |}.

(** [load_business_data]. *)
Definition load_business_data (csv : list BusinessCsvRow)
  : option (list BusinessRow) :=
  match to_datetime (map bcsv_Date csv) with
  | None => None
  | Some dates =>
      Some (map (fun rd => business_row (fst rd) (snd rd))
              (combine csv dates))
  end.

End Loader.

(** ** The metric calculator *)

(** The dictionary returned by [calc_metrics]. *)
Record Metrics := {
  m_Spend : float;
  m_Sales : float;
  m_Orders : float;
  m_Clicks : float;
  m_Impressions : float;
  m_ROAS : float;
  m_ACoS : float;
  m_CVR : float;
  m_CPC : float;
  m_CTR : float
}.

(** [calc_metrics]: the five column sums, and the five ratios, each
    guarded by [denominator > 0] with the literal [0] otherwise. *)
Definition calc_metrics (df : list CampaignRow) : Metrics :=
  let spend := Pandas.series_sum (map Spend df) in
  let sales := Pandas.series_sum (map Sales df) in
  let orders := Pandas.series_sum (map Orders df) in
  let clicks := Pandas.series_sum (map Clicks df) in
  let impressions := Pandas.series_sum (map Impressions df) in
  {| m_Spend := spend;
     m_Sales := sales;
     m_Orders := orders;
     m_Clicks := clicks;
     m_Impressions := impressions;
     m_ROAS := if PyFloat.gt spend 0 then sales / spend else 0;
     m_ACoS := if PyFloat.gt sales 0 then spend / sales * 100 else 0;
     m_CVR := if PyFloat.gt clicks 0 then orders / clicks * 100 else 0;
     m_CPC := if PyFloat.gt clicks 0 then spend / clicks else 0;
     m_CTR := if PyFloat.gt impressions 0
              then clicks / impressions * 100 else 0 |}%float.


(** ** Aggregation *)

(** The business columns of a monthly row: the three sums joined from the
    business report, and the two columns computed from them. *)
Record MonthlyBusiness := {
  Total_Sales : float;
  Units : float;
  Sessions : float;
  TACOS : float;
  Organic_Sales : float
}.

(** A row of the frame returned by [aggregate_by_month]; the business
    columns exist only when a business frame was given. *)
Record MonthlyRow := {
  mo_Month_Label : string;
  mo_metrics : Metrics;
  mo_business : option MonthlyBusiness
}.

(** [groupby(by).apply(lambda x: pd.Series(calc_metrics(x))).reset_index()]:
    one row for each group, with the key of the group and its metrics
    (a frame in which no row has a key gives the frame of no row). *)
Definition apply_calc_metrics (by_ : CampaignRow -> option string)
  (df : list CampaignRow) : list (string * Metrics) :=
  map (fun g => (fst g, calc_metrics (snd g))) (Pandas.groupby by_ df).

(** [business_df.groupby('Month_Label').agg(sum)] on the three columns. *)
Definition biz_monthly (business_df : list BusinessRow)
  : list (string * (float * float * float)) :=
  map (fun g =>
         (fst g,
          (Pandas.group_sum (map biz_Total_Sales (snd g)),
           Pandas.group_sum (map biz_Units (snd g)),
           Pandas.group_sum (map biz_Sessions (snd g)))))
    (Pandas.groupby biz_Month_Label business_df).

(** The business columns of one merged row, from the campaign metrics of
    the month and the business sums joined to it. *)
Definition monthly_business (m : Metrics) (b : float * float * float)
  : MonthlyBusiness :=
  let '(total_sales, units, sessions) := b in
  {| Total_Sales := total_sales;
     Units := units;
     Sessions := sessions;
     TACOS := Pandas.fillna0 (m_Spend m / total_sales * 100)%float;
     Organic_Sales := Pandas.clip_lower0 (total_sales - m_Sales m)%float |}.

(** The order of the months: the month labels by the earliest date of
    each, in ascending order ([month_order.index]). *)
Definition month_order (campaign_df : list CampaignRow) : list string :=
  map fst
    (Pandas.sort_values (Pandas.na_last_le Calendar.leb) snd
       (map (fun g => (fst g, Pandas.series_min (map Date (snd g))))
          (Pandas.groupby Month_Label campaign_df))).

(** [aggregate_by_month]. *)
Definition aggregate_by_month (campaign_df : list CampaignRow)
  (business_df : option (list BusinessRow)) : list MonthlyRow :=
  let monthly := apply_calc_metrics Month_Label campaign_df in
  let sort_order := Pandas.enumerate_dict (month_order campaign_df) in
  let monthly :=
    Pandas.sort_values (Pandas.na_last_le Nat.leb)
      (fun row => sort_order (fst row)) monthly in
  match business_df with
  | None =>
      map (fun row =>
             {| mo_Month_Label := fst row;
                mo_metrics := snd row;
                mo_business := None |})
        monthly
  | Some business_df =>
      map (fun row =>
             {| mo_Month_Label := fst (fst row);
                mo_metrics := snd (fst row);
                mo_business :=
                  Some (monthly_business (snd (fst row)) (snd row)) |})
        (Pandas.merge_left (nan, nan, nan) monthly (biz_monthly business_df))
  end.

(** [aggregate_by_week]. *)
Definition aggregate_by_week (campaign_df : list CampaignRow)
  : list (string * Metrics) :=
  Pandas.sort_values PyStr.le fst (apply_calc_metrics Week campaign_df).

(** [aggregate_by_segment]. *)
Definition aggregate_by_segment (campaign_df : list CampaignRow)
  : list (string * Metrics) :=
  apply_calc_metrics (fun r => Some (segment_label (Segment r))) campaign_df.

(** [aggregate_by_portfolio]. *)
Definition aggregate_by_portfolio (campaign_df : list CampaignRow)
  : list (string * Metrics) :=
  apply_calc_metrics (fun r => Some (portfolio_type_label (Portfolio_Type r)))
    campaign_df.

(** ** Overall figures of the report sheets *)

(** Python's [max(a, b)]: the first argument unless the second is
    greater. *)
Definition py_max (a b : float) : float := if PyFloat.gt b a then b else a.

(** The overall TACOS of [create_summary_sheet]. *)
Definition summary_tacos (campaign_df : list CampaignRow)
  (business_df : option (list BusinessRow)) : float :=
  let overall := calc_metrics campaign_df in
  let total_sales :=
    match business_df with
    | Some b => Pandas.series_sum (map biz_Total_Sales b)
    | None => 0%float
    end in
  if PyFloat.gt total_sales 0
  then (m_Spend overall / total_sales * 100)%float else 0%float.

(** The overall organic sales of [create_organic_sheet]. *)
Definition summary_organic_sales (campaign_df : list CampaignRow)
  (business_df : list BusinessRow) : float :=
  let total_sales := Pandas.series_sum (map biz_Total_Sales business_df) in
  let ad_sales := Pandas.series_sum (map Sales campaign_df) in
  py_max 0 (total_sales - ad_sales)%float.

(** ** Readers of plain text

    Two readers on which the loader can be run: the first reads what
    Python's [float] reads on a sign followed by digits, the second what
    [pd.to_datetime] reads on a date written year-month-day.  They stand
    for the two library functions on such text only. *)

Module Plain.

Local Open Scope Z_scope.

Definition digit_of (c : ascii) : option Z :=
  let n := Z.of_nat (nat_of_ascii c) in
  if (48 <=? n) && (n <=? 57) then Some (n - 48) else None.

Fixpoint digits (s : string) (acc : Z) : option Z :=
  match s with
  | EmptyString => Some acc
  | String c s' =>
      match digit_of c with
      | Some d => digits s' (10 * acc + d)
      | None => None
      end
  end.

(** A non-empty run of digits. *)
Definition natural (s : string) : option Z :=
  match s with
  | EmptyString => None
  | _ => digits s 0
  end.

(** [float(s)] on [s] made of digits, with a sign or without. *)
Definition float_of_integer_literal (s : string) : option float :=
  match s with
  | String "-" s' =>
      option_map (fun z => (- float_of_int z)%float) (natural s')
  | String "+" s' => option_map float_of_int (natural s')
  | _ => option_map float_of_int (natural s)
  end.

(** A date written [YYYY-MM-DD]. *)
Definition iso_date (s : string) : option date :=
  match s with
  | String y1 (String y2 (String y3 (String y4 (String "-"
      (String m1 (String m2 (String "-"
         (String d1 (String d2 EmptyString))))))))) =>
      match digits (String y1 (String y2 (String y3 (String y4 ""))))%string 0,
            digits (String m1 (String m2 ""))%string 0,
            digits (String d1 (String d2 ""))%string 0 with
      | Some y, Some m, Some d =>
          let dt := {| year := y; month := m; day := d |} in
          if Calendar.valid_date dt then Some dt else None
      | _, _, _ => None
      end
  | _ => None
  end.

(** The loaders on these readers. *)
Definition load_campaign (csv : list CampaignCsvRow)
  : option (list CampaignRow) :=
  load_campaign_data float_of_integer_literal iso_date csv.

Definition load_business (csv : list BusinessCsvRow)
  : option (list BusinessRow) :=
  load_business_data float_of_integer_literal iso_date csv.

End Plain.

(** ** Sample files *)

Module Sample.

Local Open Scope string_scope.

(** A row of a campaign file whose numeric columns were read as
    numbers. *)
Definition campaign_csv (d campaign : string) (spend sales : float)
  (orders clicks impressions : Z) : CampaignCsvRow :=
  {| csv_Date := Some d;
     csv_Portfolio_name := Some "JN-US-Main";
     csv_Campaign_Name := Some campaign;
     csv_Impressions := Int impressions;
     csv_Clicks := Int clicks;
     csv_Spend := Float spend;
     csv_7_Day_Total_Sales := Float sales;
     csv_7_Day_Total_Orders := Int orders |}.

Definition business_csv (d : string) (total_sales : float)
  (units sessions : Z) : BusinessCsvRow :=
  {| bcsv_Date := Some d;
     bcsv_Ordered_Product_Sales := Float total_sales;
     bcsv_Units_Ordered := Int units;
     bcsv_Sessions_Total := Int sessions |}.

(** The frame loaded from a file (empty when loading fails). *)
Definition campaign_frame (csv : list CampaignCsvRow) : list CampaignRow :=
  match Plain.load_campaign csv with
  | Some df => df
  | None => []
  end.

Definition business_frame (csv : list BusinessCsvRow) : list BusinessRow :=
  match Plain.load_business csv with
  | Some df => df
  | None => []
  end.

(** One day on which a refund makes the spend negative. *)
Definition refund_day : list CampaignRow :=
  campaign_frame [campaign_csv "2024-09-01" "Widget Search" (-2) 4 1 10 100].

(** A row whose counts were typed as amounts: the orders are written
    [$-5] and the clicks [1,234]. *)
Definition typed_counts_csv : list CampaignCsvRow :=
  [{| csv_Date := Some "2024-09-01";
      csv_Portfolio_name := Some "JN-US-Main";
      csv_Campaign_Name := Some "Widget Search";
      csv_Impressions := Int (-7);
      csv_Clicks := Str "1,234";
      csv_Spend := Float 3;
      csv_7_Day_Total_Sales := Float 9;
      csv_7_Day_Total_Orders := Str "$-5" |}].

(** A file of two rows, the second with a date that cannot be read. *)
Definition bad_date_csv : list CampaignCsvRow :=
  [campaign_csv "2024-09-01" "Widget Search" 3 9 1 10 100;
   campaign_csv "not a date" "Widget Search" 5 6 1 10 100].



(** Three months of campaigns, and a business report that has the
    second and the third of them: in December the store sold nothing, in
    January it sold 100 while the campaigns report sales of 150. *)
Definition three_months : list CampaignRow :=
  campaign_frame
    [campaign_csv "2024-12-05" "Acme Branded Exact" 5 20 2 10 100;
     campaign_csv "2025-01-07" "Rival - pat - Exact" 30 150 3 10 100;
     campaign_csv "2024-11-09" "Widget Search" 8 16 1 10 100].

Definition two_months_of_business : list BusinessRow :=
  business_frame
    [business_csv "2024-12-01" 0 0 40;
     business_csv "2025-01-03" 60 6 80;
     business_csv "2025-01-04" 40 4 90].

(** The row of January in the months joined with the business report, and
    its business columns. *)
Definition january : MonthlyRow :=
  nth 2 (aggregate_by_month three_months (Some two_months_of_business))
    {| mo_Month_Label := ""; mo_metrics := calc_metrics [];
       mo_business := None |}.

Definition january_business : MonthlyBusiness :=
  {| Total_Sales := 100; Units := 10; Sessions := 170; TACOS := 30;
     Organic_Sales := 0 |}.

(** A month of campaigns in which the store sold nothing. *)
Definition december_campaigns : list CampaignRow :=
  campaign_frame [campaign_csv "2024-12-05" "Acme Branded Exact" 5 20 2 10 100].

Definition december_business : list BusinessRow :=
  business_frame [business_csv "2024-12-01" 0 0 40].

(** The row of December in the months joined with the business report
    of the month in which the store sold nothing. *)
Definition december : MonthlyRow :=
  nth 0 (aggregate_by_month december_campaigns (Some december_business))
    {| mo_Month_Label := ""; mo_metrics := calc_metrics [];
       mo_business := None |}.

Definition december_columns : MonthlyBusiness :=
  {| Total_Sales := 0; Units := 0; Sessions := 40; TACOS := infinity;
     Organic_Sales := 0 |}.

End Sample.

(** ** The statements of the specification *)

(** A ratio as the specification words it: the quotient, and exactly 0
    when the denominator is 0. *)
Definition ratio_or_zero (denominator quotient value : float) : Prop :=
  if (denominator =? 0)%float then value = 0%float else value = quotient.

(** A ratio as [calc_metrics] guards it: the quotient when the denominator
    is greater than 0, and exactly 0 when it is not, which is the case of
    a denominator that is 0, negative or NaN. *)
Definition guarded_ratio (denominator quotient value : float) : Prop :=
  (PyFloat.gt denominator 0 = true -> value = quotient) /\
  (PyFloat.gt denominator 0 = false -> value = 0%float) /\
  ((denominator =? 0)%float = true -> value = 0%float) /\
  ((denominator <? 0)%float = true -> value = 0%float) /\
  (PyFloat.isna denominator = true -> value = 0%float).

(** [pat] occurs in [s]: [s] is some text, then [pat], then some text. *)
Definition occurs_in (pat s : string) : Prop :=
  exists pre post : string, s = (pre ++ pat ++ post)%string.

(** The capital and the small form of each letter. *)
Definition letters : list (ascii * ascii) :=
  combine (list_ascii_of_string "ABCDEFGHIJKLMNOPQRSTUVWXYZ")
    (list_ascii_of_string "abcdefghijklmnopqrstuvwxyz").

(** Two characters that are the same character, or the capital and the
    small form of one letter. *)
Definition same_letter (a b : ascii) : bool :=
  Ascii.eqb a b
  || existsb (fun l => (Ascii.eqb a (fst l) && Ascii.eqb b (snd l))
                       || (Ascii.eqb a (snd l) && Ascii.eqb b (fst l)))
       letters.

(** Two texts that differ at most by the case of their letters. *)
Fixpoint same_text (s t : string) : bool :=
  match s, t with
  | EmptyString, EmptyString => true
  | String a s', String b t' => same_letter a b && same_text s' t'
  | _, _ => false
  end.

(** [pat] occurs in [name] whatever the case of the letters: a part of
    [name] is [pat] but for the case of its letters. *)
Definition occurs_ignoring_case (pat name : string) : Prop :=
  exists pre mid post : string,
    name = (pre ++ mid ++ post)%string /\ same_text mid pat = true.

(** The delimited marker of a competitor campaign, in one of the three
    forms that the code tests. *)
Definition has_pat_marker (name : string) : Prop :=
  occurs_ignoring_case " pat " name \/
  occurs_ignoring_case "- pat -" name \/
  occurs_ignoring_case "_pat_" name.

(** The marker in the three forms that the specification names: "pat"
    between spaces, between hyphens, or between underscores. *)
Definition claimed_pat_marker (name : string) : Prop :=
  occurs_ignoring_case " pat " name \/
  occurs_ignoring_case "-pat-" name \/
  occurs_ignoring_case "_pat_" name.

(** [classify_segment] without the test of ["- pat -"]. *)
Definition classify_segment_two_tests (campaign_name : TextCell) : segment :=
  match campaign_name with
  | None => Non_Branded
  | Some name =>
      let name_lower := PyStr.lower name in
      if PyStr.contains "branded" name_lower then Branded
      else if PyStr.contains " pat " name_lower
              || PyStr.contains "_pat_" name_lower
           then Competitor
           else Non_Branded
  end.

(** The date cell of a row as [pd.to_datetime] reads it alone. *)
Definition read_date (parse_datetime : string -> option date)
  (cell : TextCell) : option Timestamp :=
  match cell with
  | None => Some NaT
  | Some s => option_map Some (parse_datetime s)
  end.

(** The loading that the specification words: the rows whose date cannot
    be read are left out, and the other rows are loaded. *)
Definition loads_rows_with_readable_dates
  (py_float : string -> option float)
  (parse_datetime : string -> option date)
  (csv : list CampaignCsvRow) : Prop :=
  exists df : list CampaignRow,
    load_campaign_data py_float parse_datetime csv = Some df /\
    load_campaign_data py_float parse_datetime
      (filter (fun r =>
                 match read_date parse_datetime (csv_Date r) with
                 | Some _ => true
                 | None => false
                 end) csv) = Some df.

(** The key of the segment column of a row. *)
Definition by_segment (r : CampaignRow) : option string :=
  Some (segment_label (Segment r)).


(** The exact sum of an integer measure of the rows. *)
Definition exact_total {A : Type} (measure : A -> Z) (rows : list A) : Z :=
  fold_right (fun r acc => (measure r + acc)%Z) 0%Z rows.

(** The earliest date of a bucket: the minimum of the dates of the rows
    of the frame whose key is [k]. *)
Definition bucket_min (df : list CampaignRow)
  (by_ : CampaignRow -> option string) (k : string) : Timestamp :=
  Pandas.series_min (map Date (filter (Pandas.has_key by_ k) df)).

(** The bucket of key [a] is not later than the bucket of key [b]: its
    earliest date is at most the earliest date of [b]. *)
Definition not_later (df : list CampaignRow)
  (by_ : CampaignRow -> option string) (a b : string) : Prop :=
  Pandas.na_last_le Calendar.leb (bucket_min df by_ a) (bucket_min df by_ b)
  = true.

(** The date columns of a row as the loader sets them: a date that
    exists, with the labels of its week and of its month, or no date and
    no label. *)
Definition dated_as_loaded (r : CampaignRow) : Prop :=
  match Date r with
  | Some d =>
      Calendar.valid_date d = true /\
      Week r = Some (Calendar.strftime_Y_W_U d) /\
      Month_Label r = Some (Calendar.strftime_b_Y d)
  | None => Week r = None /\ Month_Label r = None
  end.

(** The strict order of the keys of the groups. *)
Definition key_lt (a b : string) : Prop := String.compare a b = Lt.

(** The rows whose key is one of [keys]. *)
Definition keyed_in {A : Type} (by_ : A -> option string)
  (keys : list string) (r : A) : bool :=
  match by_ r with
  | Some k => existsb (String.eqb k) keys
  | None => false
  end.

(** Two rows in the order of their sort keys. *)
Definition key_le {A K : Type} (le : K -> K -> bool) (by_ : A -> K)
  (a b : A) : Prop :=
  le (by_ a) (by_ b) = true.

(** ** The other figures of the report *)

Section PercentParsing.

Variable py_float : string -> option float.

(** [parse_percent]. *)
Definition parse_percent (value : Cell) : float :=
  if isna value then 0%float
  else
    match value with
    | Int z => float_of_int z
    | Float f => f
    | Str s =>
        let cleaned :=
          PyStr.strip
            (PyStr.remove_char PyStr.double_quote
               (PyStr.remove_char "%" s)) in
        if PyStr.truthy cleaned then
          match py_float cleaned with
          | Some v => v
          | None => 0%float
          end
        else 0%float
    end.

End PercentParsing.

(** The key of the portfolio column of a row. *)
Definition by_portfolio (r : CampaignRow) : option string :=
  Some (portfolio_type_label (Portfolio_Type r)).

(** [df.groupby([by1, by2])]: one group for each pair of keys that some
    row has, the pairs in ascending order (by the first key, then by the
    second), the rows of a group in the order of the frame; a row with a
    missing key is in no group. *)
Definition groupby2 {A : Type} (by1 by2 : A -> option string)
  (df : list A) : list (string * string * list A) :=
  flat_map
    (fun g1 =>
       map (fun g2 => (fst g1, fst g2, snd g2)) (Pandas.groupby by2 (snd g1)))
    (Pandas.groupby by1 df).

(** A row of the frames aggregated by month and by a category: the month,
    the category (a segment or a portfolio type) and the metrics. *)
Record CategoryMonthRow := {
  cm_Month_Label : string;
  cm_category : string;
  cm_metrics : Metrics
}.

Definition apply_calc_metrics2 (by2 : CampaignRow -> option string)
  (df : list CampaignRow) : list CategoryMonthRow :=
  map (fun g =>
         {| cm_Month_Label := fst (fst g);
            cm_category := snd (fst g);
            cm_metrics := calc_metrics (snd g) |})
    (groupby2 Month_Label by2 df).

(** [aggregate_by_portfolio_and_month]. *)
Definition aggregate_by_portfolio_and_month (campaign_df : list CampaignRow)
  : list CategoryMonthRow :=
  apply_calc_metrics2 by_portfolio campaign_df.

(** [aggregate_by_segment_and_month]. *)
Definition aggregate_by_segment_and_month (campaign_df : list CampaignRow)
  : list CategoryMonthRow :=
  apply_calc_metrics2 by_segment campaign_df.

(** The rows of an aggregated frame selected by the mask
    [(frame[category] == c) & (frame['Month_Label'] == month)]. *)
Definition select_cell (frame : list CategoryMonthRow) (c month : string)
  : list CategoryMonthRow :=
  filter (fun r => String.eqb (cm_category r) c
                   && String.eqb (cm_Month_Label r) month) frame.

(** A cell of the spend and sales tables: the sum of the column over the
    selected rows. *)
Definition cell_sum (quantity : Metrics -> float)
  (frame : list CategoryMonthRow) (c month : string) : float :=
  Pandas.series_sum
    (map (fun r => quantity (cm_metrics r)) (select_cell frame c month)).

(** A cell of the ROAS tables: the ROAS of the first selected row, or 0
    when no row is selected. *)
Definition cell_roas (frame : list CategoryMonthRow) (c month : string)
  : float :=
  match select_cell frame c month with
  | d :: _ => m_ROAS (cm_metrics d)
  | [] => 0%float
  end.

(** The three tables of [create_segment_sheet]: a row for each segment,
    with a cell for each month in the order of the months. *)
Definition segments : list string :=
  ["Branded"; "Competitor"; "Non-Branded"]%string.

Definition category_table (cell : list CategoryMonthRow -> string -> string -> float)
  (frame : list CategoryMonthRow) (categories months : list string)
  : list (string * list float) :=
  map (fun c => (c, map (fun month => cell frame c month) months)) categories.

Record SegmentSheet := {
  seg_months : list string;
  seg_spend : list (string * list float);
  seg_sales : list (string * list float);
  seg_roas : list (string * list float)
}.

Definition create_segment_sheet (campaign_df : list CampaignRow)
  : SegmentSheet :=
  let segment_monthly := aggregate_by_segment_and_month campaign_df in
  let months := month_order campaign_df in
  {| seg_months := months;
     seg_spend := category_table (cell_sum m_Spend) segment_monthly
                    segments months;
     seg_sales := category_table (cell_sum m_Sales) segment_monthly
                    segments months;
     seg_roas := category_table cell_roas segment_monthly segments months |}.

(** The tables of [create_portfolio_sheet]: the spend and sales rows end
    with their total, added up month after month from 0. *)
Definition portfolios : list string := ["JN"; "Non-JN"]%string.

Definition with_total (row : string * list float)
  : string * list float * float :=
  (fst row, snd row, fold_left (fun total val => (total + val)%float)
                       (snd row) 0%float).

Record PortfolioSheet := {
  port_months : list string;
  port_spend : list (string * list float * float);
  port_sales : list (string * list float * float);
  port_roas : list (string * list float)
}.

Definition create_portfolio_sheet (campaign_df : list CampaignRow)
  : PortfolioSheet :=
  let portfolio_monthly := aggregate_by_portfolio_and_month campaign_df in
  let months := month_order campaign_df in
  {| port_months := months;
     port_spend := map with_total
                     (category_table (cell_sum m_Spend) portfolio_monthly
                        portfolios months);
     port_sales := map with_total
                     (category_table (cell_sum m_Sales) portfolio_monthly
                        portfolios months);
     port_roas := category_table cell_roas portfolio_monthly portfolios
                    months |}.

(** The change from the previous month of [create_monthly_sheet], in
    percent: 0 when the previous value is not greater than 0. *)
Definition pct_change (curr prev : float) : float :=
  if PyFloat.gt prev 0 then ((curr - prev) / prev * 100)%float else 0%float.

(** The colour of a change. *)
Inductive change_colour := positive_colour | negative_colour.

(** A row of the month-over-month section: the month, and for the spend,
    the sales and the ROAS the cell written ([val/100]) and its colour
    (positive when [val >= 0]). *)
Definition change_cell (val : float) : float * change_colour :=
  ((val / 100)%float,
   if PyFloat.ge val 0 then positive_colour else negative_colour).

Record ChangeRow := {
  chg_Month_Label : string;
  chg_spend : float * change_colour;
  chg_sales : float * change_colour;
  chg_roas : float * change_colour
}.

(** The month-over-month section of [create_monthly_sheet]: a row for
    each index from 1, comparing the row of the index with the row before
    it. *)
Definition month_over_month (monthly_data : list MonthlyRow)
  : list ChangeRow :=
  map (fun pc =>
         let prev := mo_metrics (fst pc) in
         let curr := mo_metrics (snd pc) in
         {| chg_Month_Label := mo_Month_Label (snd pc);
            chg_spend := change_cell (pct_change (m_Spend curr) (m_Spend prev));
            chg_sales := change_cell (pct_change (m_Sales curr) (m_Sales prev));
            chg_roas := change_cell (pct_change (m_ROAS curr) (m_ROAS prev)) |})
    (combine monthly_data (tl monthly_data)).

(** A row of the monthly breakdown of [create_organic_sheet]; a column
    that the frame does not have reads as 0 ([mrow.get(column, 0)]). *)
Record OrganicRow := {
  org_Month_Label : string;
  org_Total_Sales : float;
  org_Ad_Sales : float;
  org_Organic_Sales : float;
  org_ad_pct : float;
  org_org_pct : float;
  org_tacos : float
}.

Definition organic_row (mrow : MonthlyRow) : OrganicRow :=
  let get (column : MonthlyBusiness -> float) :=
    match mo_business mrow with
    | Some b => column b
    | None => 0%float
    end in
  let total := get Total_Sales in
  {| org_Month_Label := mo_Month_Label mrow;
     org_Total_Sales := total;
     org_Ad_Sales := m_Sales (mo_metrics mrow);
     org_Organic_Sales := get Organic_Sales;
     org_ad_pct := if PyFloat.gt total 0
                   then (m_Sales (mo_metrics mrow) / total)%float
                   else 0%float;
     org_org_pct := if PyFloat.gt total 0
                    then (get Organic_Sales / total)%float
                    else 0%float;
     org_tacos := (get TACOS / 100)%float |}.

(** The rows that the loop of the monthly breakdown of
    [create_organic_sheet] writes, one for each row of the frame of the
    months. *)
Definition organic_breakdown (monthly_data : list MonthlyRow)
  : list OrganicRow :=
  map organic_row monthly_data.

(** The frame of the months has the column [Total_Sales]: its rows have
    the business columns. *)
Definition has_total_sales (monthly_data : list MonthlyRow) : bool :=
  forallb
    (fun row => match mo_business row with Some _ => true | None => false end)
    monthly_data.

(** The monthly breakdown of [create_organic_sheet].  Without a business
    frame, or on a frame of the months without the column [Total_Sales],
    the sheet says that the data of the business report are not
    available and has no breakdown ([None]). *)
Definition create_organic_sheet (business_df : option (list BusinessRow))
  (monthly_data : list MonthlyRow) : option (list OrganicRow) :=
  match business_df with
  | None => None
  | Some _ =>
      if has_total_sales monthly_data
      then Some (organic_breakdown monthly_data)
      else None
  end.


Section Main.

Variable py_float : string -> option float.
Variable parse_datetime : string -> option date.


End Main.

(** ** Signs of rounded floats *)

(** A float of the sign [s] that is a number. *)
Definition SF_signed (s : bool) (x : spec_float) : Prop :=
  match x with
  | S754_zero s' | S754_infinity s' | S754_finite s' _ _ => s' = s
  | S754_nan => False
  end.

(** [r] is a number with the sign of the number [x]: a zero stays the
    zero it is, a finite or infinite float gives a zero, a finite float
    or an infinity of its sign. *)
Definition keeps_sign (x r : spec_float) : Prop :=
  match x with
  | S754_zero s => r = S754_zero s
  | S754_infinity s | S754_finite s _ _ => SF_signed s r
  | S754_nan => True
  end.

(** A month whose spend, sales and ROAS are finite, and a row of changes
    none of whose cells is NaN. *)
Definition finite_month (row : MonthlyRow) : Prop :=
  is_finite (m_Spend (mo_metrics row)) = true /\
  is_finite (m_Sales (mo_metrics row)) = true /\
  is_finite (m_ROAS (mo_metrics row)) = true.

Definition number_changes (c : ChangeRow) : Prop :=
  PyFloat.isna (fst (chg_spend c)) = false /\
  PyFloat.isna (fst (chg_sales c)) = false /\
  PyFloat.isna (fst (chg_roas c)) = false.

(** ** Rows, cells and files of the other sheets *)

(** A row that has a date, and a row that has a month label. *)
Definition has_date (r : CampaignRow) : bool :=
  match Date r with Some _ => true | None => false end.

Definition has_month (r : CampaignRow) : bool :=
  match Month_Label r with Some _ => true | None => false end.

(** A row of the campaign file whose date cell is written. *)
Definition written_date (r : CampaignCsvRow) : bool :=
  match csv_Date r with Some _ => true | None => false end.

(** A column of dates as written has a date that cannot be read. *)
Definition unreadable_date (parse_datetime : string -> option date)
  (col : list TextCell) : Prop :=
  exists s, In (Some s) col /\ parse_datetime s = None.

(** The text that [parse_currency] gives to [float], and the one that
    [parse_percent] gives. *)
Definition cleaned_currency (s : string) : string :=
  PyStr.strip
    (PyStr.remove_char PyStr.double_quote
       (PyStr.remove_char "," (PyStr.remove_char "$" s))).

Definition cleaned_percent (s : string) : string :=
  PyStr.strip
    (PyStr.remove_char PyStr.double_quote (PyStr.remove_char "%" s)).

(** The rows of the frame of the month [month] and of the category [c]. *)
Definition month_category_rows (by2 : CampaignRow -> option string)
  (df : list CampaignRow) (c month : string) : list CampaignRow :=
  filter (Pandas.has_key by2 c) (filter (Pandas.has_key Month_Label month) df).

(** [cell] is the sum of the one value [x]: 0 when [x] is NaN, and
    otherwise a float that compares equal to [x]. *)
Definition summed_value (cell x : float) : Prop :=
  if PyFloat.isna x then cell = 0%float else (cell =? x)%float = true.

(** The three cells of a category and a month, from the rows of the frame
    of that category and that month: zeros when there is no such row, and
    otherwise the spend, the sales and the ROAS of these rows. *)
Definition cells_of_rows (frame : list CategoryMonthRow) (c month : string)
  (rows : list CampaignRow) : Prop :=
  match rows with
  | [] =>
      cell_sum m_Spend frame c month = 0%float /\
      cell_sum m_Sales frame c month = 0%float /\
      cell_roas frame c month = 0%float
  | _ =>
      summed_value (cell_sum m_Spend frame c month)
        (m_Spend (calc_metrics rows)) /\
      summed_value (cell_sum m_Sales frame c month)
        (m_Sales (calc_metrics rows)) /\
      cell_roas frame c month = m_ROAS (calc_metrics rows)
  end.

(** No row of the frame is of the category [c]. *)
Definition rows_without (by2 : CampaignRow -> option string)
  (df : list CampaignRow) (c : string) : Prop :=
  forall r, In r df -> by2 r <> Some c.

(** A file of two rows, the second with an empty date cell. *)
Definition undated_csv : list CampaignCsvRow :=
  [Sample.campaign_csv "2024-11-03" "Widget Search" 3 9 1 10 100;
   {| csv_Date := None;
      csv_Portfolio_name := Some "JN-US-Main"%string;
      csv_Campaign_Name := Some "Widget Search"%string;
      csv_Impressions := Int 100;
      csv_Clicks := Int 10;
      csv_Spend := Float 5;
      csv_7_Day_Total_Sales := Float 6;
      csv_7_Day_Total_Orders := Int 1 |}].

Definition undated_frame : list CampaignRow :=
  Sample.campaign_frame undated_csv.



(** [reset_index()]: the rows with their positions as index labels. *)
Definition reset_index {A : Type} (rows : list A) : list (nat * A) :=
  combine (seq 0 (List.length rows)) rows.

(** [aggregate_by_month] with the index labels of the frame that it
    returns: [sort_values] leaves its label to each row, and [merge]
    numbers the rows anew. *)
Definition aggregate_by_month_index (campaign_df : list CampaignRow)
  (business_df : option (list BusinessRow)) : list (nat * MonthlyRow) :=
  let monthly := reset_index (apply_calc_metrics Month_Label campaign_df) in
  let sort_order := Pandas.enumerate_dict (month_order campaign_df) in
  let monthly :=
    Pandas.sort_values (Pandas.na_last_le Nat.leb)
      (fun row => sort_order (fst (snd row))) monthly in
  match business_df with
  | None =>
      map (fun row =>
             (fst row,
              {| mo_Month_Label := fst (snd row);
                 mo_metrics := snd (snd row);
                 mo_business := None |}))
        monthly
  | Some business_df =>
      reset_index
        (map (fun row =>
                {| mo_Month_Label := fst (fst row);
                   mo_metrics := snd (fst row);
                   mo_business :=
                     Some (monthly_business (snd (fst row)) (snd row)) |})
           (Pandas.merge_left (nan, nan, nan) (map snd monthly)
              (biz_monthly business_df)))
  end.

(** [aggregate_by_week] with the index labels of its frame. *)
Definition aggregate_by_week_index (campaign_df : list CampaignRow)
  : list (nat * (string * Metrics)) :=
  Pandas.sort_values PyStr.le (fun row => fst (snd row))
    (reset_index (apply_calc_metrics Week campaign_df)).

(** The data rows of [create_monthly_sheet] and of [create_weekly_sheet]:
    the row of the frame with the index label [idx] is written in the row
    [idx + 4] of the sheet. *)
Definition sheet_rows {A : Type} (data : list (nat * A)) : list (nat * A) :=
  map (fun row => (fst row + 4, snd row)) data.

(** Column 1 of the data rows of [create_monthly_sheet]: the sheet row
    and the month label written in it. *)
Definition monthly_sheet_labels (data : list (nat * MonthlyRow))
  : list (nat * string) :=
  map (fun row => (fst row, mo_Month_Label (snd row))) (sheet_rows data).

(** The later of two timestamps, [NaT] being skipped. *)
Definition ts_max (a b : Timestamp) : Timestamp :=
  match a, b with
  | None, _ => b
  | _, None => a
  | Some x, Some y => if Calendar.leb x y then b else a
  end.

(** [Series.max()] on a datetime column. *)
Definition series_max (col : list Timestamp) : Timestamp :=
  fold_left ts_max col NaT.

(** [d.strftime('%b %d, %Y')]. *)
Definition strftime_b_d_Y (d : date) : string :=
  (Calendar.month_abbr (month d) ++ " " ++ Calendar.pad2 (day d) ++ ", "
   ++ Calendar.pad4 (year d))%string.

(** The line of the date range of [create_summary_sheet]; [None] is the
    error of [strftime] on [NaT], which ends the run. *)
Definition summary_date_range (campaign_df : list CampaignRow)
  : option string :=
  match Pandas.series_min (map Date campaign_df) with
  | None => None
  | Some date_min =>
      match series_max (map Date campaign_df) with
      | None => None
      | Some date_max =>
          Some ("Date Range: " ++ strftime_b_d_Y date_min ++ " - "
                ++ strftime_b_d_Y date_max)%string
      end
  end.

(** The cells that the loop over the metrics of [create_summary_sheet]
    writes, in the order of the writes: the row and the column of the
    sheet, and the text.  The state of the loop is the row. *)
Definition write_metrics {A : Type} (metrics : list (A * A))
  : list (nat * nat * A) :=
  snd (fold_left
         (fun (st : nat * list (nat * nat * A)) (im : nat * (A * A)) =>
            let i := fst im in
            let col := (i mod 3) * 2 + 1 in
            let row :=
              if (0 <? i) && (i mod 3 =? 0) then fst st + 2 else fst st in
            (row,
             snd st ++ [(row, col, fst (snd im));
                        (row + 1, col, snd (snd im))]))
         (combine (seq 0 (List.length metrics)) metrics) (6, [])).

(** The two cells of the metric of index [i]. *)
Definition metric_cells {A : Type} (im : nat * (A * A))
  : list (nat * nat * A) :=
  let i := fst im in
  [(6 + 2 * (i / 3), 2 * (i mod 3) + 1, fst (snd im));
   (7 + 2 * (i / 3), 2 * (i mod 3) + 1, snd (snd im))].

(** The rank of a cell of the grid: twice the index of its metric for a
    label, and one more for a value. *)
Definition cell_rank (cell : nat * nat) : nat :=
  let row := fst cell - 6 in
  row mod 2 + 2 * (3 * (row / 2) + (snd cell - 1) / 2).

(** * Properties *)

(** ** Comparisons of floats *)

Section FloatFacts.

Local Open Scope float_scope.

Lemma SFcompare_refl (x : spec_float) :
  SFcompare x x = match x with S754_nan => None | _ => Some Eq end.
Proof.
  destruct x as [[|]|[|]| |[|] m e]; simpl; try reflexivity;
    rewrite Z.compare_refl, Pos.compare_cont_refl; reflexivity.
Qed.

Lemma is_nan_Prim2SF (x : float) :
  is_nan x = match Prim2SF x with S754_nan => true | _ => false end.
Proof.
  unfold is_nan. rewrite FloatAxioms.eqb_spec. unfold SFeqb.
  rewrite SFcompare_refl. destruct (Prim2SF x); reflexivity.
Qed.

Lemma Prim2SF_inj (x y : float) : Prim2SF x = Prim2SF y -> x = y.
Proof.
  intros H. rewrite <- (SF2Prim_Prim2SF x), <- (SF2Prim_Prim2SF y).
  now rewrite H.
Qed.

(** Adding a float to +0 gives the float, a zero being written +0. *)
Lemma zero_add_SF (x : float) :
  Prim2SF (0 + x)
  = match Prim2SF x with
    | S754_zero _ => S754_zero false
    | s => s
    end.
Proof.
  rewrite FloatAxioms.add_spec. change (Prim2SF 0) with (S754_zero false).
  destruct (Prim2SF x) as [[|]|[|]| |[|] m e]; reflexivity.
Qed.



End FloatFacts.

(** Case analysis on the kind of a float (zero, infinite, NaN, finite)
    in a goal about its comparisons with 0. *)
Ltac float_cases x :=
  unfold PyFloat.gt, PyFloat.ge, PyFloat.isna in *;
  rewrite ?is_nan_Prim2SF, ?FloatAxioms.ltb_spec, ?FloatAxioms.leb_spec,
    ?FloatAxioms.eqb_spec in *;
  change (Prim2SF 0) with (S754_zero false) in *;
  destruct (Prim2SF x) as [[|]|[|]| |[|] ? ?]; simpl in *;
  try reflexivity; try discriminate; try congruence.

Section FloatOrder.

Local Open Scope float_scope.

Lemma zero_not_positive x : (x =? 0) = true -> PyFloat.gt x 0 = false.
Proof. intros H. float_cases x. Qed.

Lemma nan_not_positive x : PyFloat.isna x = true -> PyFloat.gt x 0 = false.
Proof. intros H. float_cases x. Qed.

Lemma negative_not_positive x : (x <? 0) = true -> PyFloat.gt x 0 = false.
Proof. intros H. float_cases x. Qed.

Lemma negative_not_nan x : (x <? 0) = true -> PyFloat.isna x = false.
Proof. intros H. float_cases x. Qed.

Lemma clip_lower0_not_negative x : (Pandas.clip_lower0 x <? 0) = false.
Proof.
  unfold Pandas.clip_lower0.
  destruct (PyFloat.isna x || PyFloat.ge x 0) eqn:E; [| reflexivity].
  apply orb_true_iff in E. destruct E as [E|E]; float_cases x.
Qed.

Lemma clip_lower0_is_max x :
  PyFloat.isna x = false -> (Pandas.clip_lower0 x =? py_max 0 x) = true.
Proof.
  intros N. unfold Pandas.clip_lower0, py_max.
  destruct (PyFloat.isna x || PyFloat.ge x 0) eqn:E,
           (PyFloat.gt x 0) eqn:G; try reflexivity.
  all: try (apply orb_true_iff in E; destruct E as [E|E]).
  all: try (apply orb_false_iff in E; destruct E as [E1 E2]).
  all: float_cases x.
  all: unfold SFeqb; rewrite SFcompare_refl; reflexivity.
Qed.

Lemma guarded_ratio_intro (d q : float) :
  guarded_ratio d q (if PyFloat.gt d 0 then q else 0).
Proof.
  unfold guarded_ratio. repeat split; intros H.
  - rewrite H. reflexivity.
  - rewrite H. reflexivity.
  - rewrite (zero_not_positive _ H). reflexivity.
  - rewrite (negative_not_positive _ H). reflexivity.
  - rewrite (nan_not_positive _ H). reflexivity.
Qed.

End FloatOrder.

(** ** The metric calculator *)

(** C1, as [calc_metrics] computes it.  For every frame, the five raw
    quantities of the result are the column sums, and each of ROAS, ACoS,
    CVR, CPC and CTR is its quotient (sales/spend, spend/sales*100,
    orders/clicks*100, spend/clicks, clicks/impressions*100) when the
    denominator is greater than 0, and exactly 0 when the denominator is
    not greater than 0: when it is 0, when it is negative and when it is
    NaN. *)
Theorem calc_metrics_guarded_ratios (df : list CampaignRow) :
  let m := calc_metrics df in
  (m_Spend m = Pandas.series_sum (map Spend df) /\
   m_Sales m = Pandas.series_sum (map Sales df) /\
   m_Orders m = Pandas.series_sum (map Orders df) /\
   m_Clicks m = Pandas.series_sum (map Clicks df) /\
   m_Impressions m = Pandas.series_sum (map Impressions df)) /\
  guarded_ratio (m_Spend m) (m_Sales m / m_Spend m)%float (m_ROAS m) /\
  guarded_ratio (m_Sales m) (m_Spend m / m_Sales m * 100)%float (m_ACoS m) /\
  guarded_ratio (m_Clicks m) (m_Orders m / m_Clicks m * 100)%float (m_CVR m) /\
  guarded_ratio (m_Clicks m) (m_Spend m / m_Clicks m)%float (m_CPC m) /\
  guarded_ratio (m_Impressions m)
    (m_Clicks m / m_Impressions m * 100)%float (m_CTR m).
Proof.
  cbv zeta. unfold calc_metrics; cbn [m_Spend m_Sales m_Orders m_Clicks
    m_Impressions m_ROAS m_ACoS m_CVR m_CPC m_CTR].
  split; [repeat split |].
  repeat split; apply guarded_ratio_intro.
Qed.

(** C1, as the specification words it, fails on a negative spend: on the
    day of the refund the spend is -2 and the sales are 4, so the
    denominator is not 0 and sales/spend is -2, while the ROAS returned
    is 0. *)
Lemma calc_metrics_refund_day :
  let m := calc_metrics Sample.refund_day in
  m_Spend m = (-2)%float /\ m_Sales m = 4%float /\ m_ROAS m = 0%float /\
  ~ ratio_or_zero (m_Spend m) (m_Sales m / m_Spend m)%float (m_ROAS m).
Proof.
  cbv zeta. repeat split; try (vm_compute; reflexivity).
  unfold ratio_or_zero. vm_compute. intros H.
  apply (f_equal (fun x => (x <? 0)%float)) in H. vm_compute in H.
  discriminate.
Qed.


(** ** Text *)

Section StringFacts.

Local Open Scope string_scope.

Lemma append_nil_r (s : string) : s ++ "" = s.
Proof. induction s as [|c s IH]; simpl; [reflexivity | now rewrite IH]. Qed.

Lemma append_assoc (a b c : string) : (a ++ b) ++ c = a ++ (b ++ c).
Proof. induction a as [|x a IH]; simpl; [reflexivity | now rewrite IH]. Qed.

Lemma lower_app (a b : string) :
  PyStr.lower (a ++ b) = PyStr.lower a ++ PyStr.lower b.
Proof. induction a as [|x a IH]; simpl; [reflexivity | now rewrite IH]. Qed.

(** A lowered text that splits in two is the lowering of a text that
    splits in the same place. *)
Lemma lower_app_inv (a b s : string) :
  PyStr.lower s = a ++ b ->
  exists x y, s = x ++ y /\ PyStr.lower x = a /\ PyStr.lower y = b.
Proof.
  revert s. induction a as [|c a IH]; intros s H.
  - exists "", s. auto.
  - destruct s as [|d s]; simpl in H; [discriminate |].
    injection H as Hc Hs. destruct (IH s Hs) as (x & y & -> & Hx & Hy).
    exists (String d x), y. simpl. rewrite Hc, Hx. auto.
Qed.

Lemma startswith_spec (pat s : string) :
  PyStr.startswith pat s = true <-> exists post, s = pat ++ post.
Proof.
  revert s. induction pat as [|a pat IH]; intros s; simpl.
  - split; [intros _; exists s; reflexivity | reflexivity].
  - destruct s as [|b s].
    + split; [discriminate | intros [post H]; discriminate].
    + destruct (Ascii.eqb_spec a b) as [->|Hne].
      * rewrite IH. split; intros [post H]; exists post.
        -- now rewrite H.
        -- now injection H.
      * split; [discriminate |].
        intros [post H]. injection H as H1 H2. congruence.
Qed.

Lemma contains_spec (pat s : string) :
  PyStr.contains pat s = true <-> occurs_in pat s.
Proof.
  unfold occurs_in. induction s as [|c s IH]; simpl.
  - rewrite orb_false_r, startswith_spec. split.
    + intros [post H]. exists "", post. exact H.
    + intros (pre & post & H). destruct pre; [exists post; exact H |].
      discriminate.
  - rewrite orb_true_iff, startswith_spec, IH. split.
    + intros [[post H] | (pre & post & H)].
      * exists "", post. exact H.
      * exists (String c pre), post. simpl. now rewrite H.
    + intros (pre & post & H). destruct pre as [|d pre].
      * left. exists post. exact H.
      * right. simpl in H. injection H as _ H. exists pre, post. exact H.
Qed.

(** Every character is one of the 256. *)
Lemma all_ascii_In (c : ascii) : In c (map ascii_of_nat (seq 0 256)).
Proof.
  rewrite <- (ascii_nat_embedding c). apply in_map, in_seq.
  pose proof (nat_ascii_bounded c). lia.
Qed.

Lemma forall_ascii2 (P : ascii -> ascii -> bool) :
  forallb (fun a => forallb (P a) (map ascii_of_nat (seq 0 256)))
    (map ascii_of_nat (seq 0 256)) = true ->
  forall a b, P a b = true.
Proof.
  intros H a b. rewrite forallb_forall in H.
  specialize (H a (all_ascii_In a)). rewrite forallb_forall in H.
  exact (H b (all_ascii_In b)).
Qed.

(** Lowering a character gives the small character [p] exactly when the
    character is [p] or its capital. *)
Lemma lower_char_same_letter (c p : ascii) :
  PyStr.lower_char p = p ->
  (PyStr.lower_char c = p <-> same_letter c p = true).
Proof.
  intros Hp.
  pose proof (forall_ascii2
                (fun c p =>
                   implb (Ascii.eqb (PyStr.lower_char p) p)
                     (Bool.eqb (Ascii.eqb (PyStr.lower_char c) p)
                        (same_letter c p)))) as H.
  specialize (H ltac:(vm_compute; reflexivity) c p). cbv beta in H.
  apply (proj2 (Ascii.eqb_eq _ _)) in Hp. rewrite Hp in H. simpl in H.
  apply eqb_prop in H. rewrite <- H. symmetry. apply Ascii.eqb_eq.
Qed.

(** Two characters that are the same letter are lowered to the same
    character. *)
Lemma same_letter_lower_char (a b : ascii) :
  same_letter a b = true -> PyStr.lower_char a = PyStr.lower_char b.
Proof.
  intros Hs.
  pose proof (forall_ascii2
                (fun a b =>
                   implb (same_letter a b)
                     (Ascii.eqb (PyStr.lower_char a) (PyStr.lower_char b))))
    as H.
  specialize (H ltac:(vm_compute; reflexivity) a b). cbv beta in H.
  rewrite Hs in H. simpl in H. now apply Ascii.eqb_eq.
Qed.

Lemma same_text_lower (mid pat : string) :
  PyStr.lower pat = pat ->
  (PyStr.lower mid = pat <-> same_text mid pat = true).
Proof.
  revert pat. induction mid as [|c mid IH]; intros [|p pat] Hp; simpl;
    try (split; intros; [reflexivity || discriminate
                        | reflexivity || discriminate]).
  simpl in Hp. injection Hp as Hc Hpat.
  rewrite andb_true_iff, <- (IH pat Hpat),
    <- (lower_char_same_letter c p Hc).
  split.
  - intros H. injection H as H1 H2. auto.
  - intros [-> ->]. reflexivity.
Qed.

(** Two texts that differ at most by the case of their letters are the
    same once lowered. *)
Lemma same_text_lower_eq (a b : string) :
  same_text a b = true -> PyStr.lower a = PyStr.lower b.
Proof.
  revert b. induction a as [|x a IH]; intros [|y b]; simpl;
    try reflexivity; try discriminate.
  rewrite andb_true_iff. intros [Hx Hab].
  now rewrite (same_letter_lower_char x y Hx), (IH b Hab).
Qed.

(** The search of a text written in small letters in a lowered name
    finds it exactly when it occurs in the name whatever the case. *)
Lemma contains_lower_spec (pat name : string) :
  PyStr.lower pat = pat ->
  (PyStr.contains pat (PyStr.lower name) = true <->
   occurs_ignoring_case pat name).
Proof.
  intros Hp. rewrite contains_spec. unfold occurs_in, occurs_ignoring_case.
  split.
  - intros (pre & post & H).
    destruct (lower_app_inv _ _ _ H) as (x & y & -> & Hx & Hy).
    destruct (lower_app_inv _ _ _ Hy) as (mid & z & -> & Hmid & Hz).
    exists x, mid, z. split; [reflexivity |].
    now apply same_text_lower.
  - intros (pre & mid & post & -> & Hmid).
    apply (same_text_lower mid pat Hp) in Hmid.
    exists (PyStr.lower pre), (PyStr.lower post).
    now rewrite !lower_app, Hmid.
Qed.

(** A text in which ["- pat -"] occurs is one in which [" pat "] occurs. *)
Lemma hyphen_pat_has_space_pat (s : string) :
  PyStr.contains "- pat -" s = true -> PyStr.contains " pat " s = true.
Proof.
  rewrite !contains_spec. intros (pre & post & ->).
  exists (pre ++ "-"), ("-" ++ post).
  rewrite append_assoc. simpl. reflexivity.
Qed.

End StringFacts.

(** ** Classification *)

(** C5, as the classifier behaves.  [classify_segment] is defined on
    every campaign name: a missing name and the empty name are
    Non-Branded; a name in which "branded" occurs, whatever the case of
    its letters, is Branded, also when a "pat" marker occurs in it; a
    name without "branded" in which " pat ", "- pat -" (a hyphen, a
    space, "pat", a space, a hyphen) or "_pat_" occurs, whatever the
    case, is Competitor; every other name is Non-Branded. *)
Theorem classify_segment_rules :
  classify_segment None = Non_Branded /\
  classify_segment (Some ""%string) = Non_Branded /\
  forall name : string,
    (occurs_ignoring_case "branded" name ->
     classify_segment (Some name) = Branded) /\
    (~ occurs_ignoring_case "branded" name -> has_pat_marker name ->
     classify_segment (Some name) = Competitor) /\
    (~ occurs_ignoring_case "branded" name -> ~ has_pat_marker name ->
     classify_segment (Some name) = Non_Branded).
Proof.
  split; [reflexivity |]. split; [reflexivity |].
  intros name. unfold has_pat_marker, classify_segment.
  rewrite <- !contains_lower_spec by reflexivity.
  destruct (PyStr.contains "branded" (PyStr.lower name));
    destruct (PyStr.contains " pat " (PyStr.lower name));
    destruct (PyStr.contains "- pat -" (PyStr.lower name));
    destruct (PyStr.contains "_pat_" (PyStr.lower name));
    simpl; repeat split; intros; try reflexivity; try congruence;
    try tauto; try (exfalso; intuition congruence).
Qed.

(** C5 on names written in capitals: "BRANDED" occurs in the first,
    which is Branded though " PAT " occurs in it too; " PAT " occurs in
    the second, which is Competitor; neither occurs in the third, which
    is Non-Branded. *)
Lemma classify_segment_rules_sample :
  occurs_ignoring_case "branded" "ACME BRANDED PAT X" /\
  classify_segment (Some "ACME BRANDED PAT X"%string) = Branded /\
  ~ occurs_ignoring_case "branded" "Generic PAT Campaign" /\
  has_pat_marker "Generic PAT Campaign" /\
  classify_segment (Some "Generic PAT Campaign"%string) = Competitor /\
  ~ has_pat_marker "WIDGET Search" /\
  classify_segment (Some "WIDGET Search"%string) = Non_Branded.
Proof.
  assert (B : occurs_ignoring_case "branded" "ACME BRANDED PAT X").
  { exists "ACME "%string, "BRANDED"%string, " PAT X"%string.
    split; reflexivity. }
  assert (N : ~ occurs_ignoring_case "branded" "Generic PAT Campaign").
  { intros H. apply contains_lower_spec in H; [| reflexivity].
    vm_compute in H. discriminate. }
  assert (P : has_pat_marker "Generic PAT Campaign").
  { left. exists "Generic"%string, " PAT "%string, "Campaign"%string.
    split; reflexivity. }
  assert (W : ~ occurs_ignoring_case "branded" "WIDGET Search").
  { intros H. apply contains_lower_spec in H; [| reflexivity].
    vm_compute in H. discriminate. }
  assert (M : ~ has_pat_marker "WIDGET Search").
  { intros [H | [H | H]]; apply contains_lower_spec in H;
      try reflexivity; vm_compute in H; discriminate. }
  destruct classify_segment_rules as (_ & _ & R).
  destruct (R "ACME BRANDED PAT X"%string) as (R1 & _ & _).
  destruct (R "Generic PAT Campaign"%string) as (_ & R2 & _).
  destruct (R "WIDGET Search"%string) as (_ & _ & R3).
  split; [exact B |]. split; [exact (R1 B) |]. split; [exact N |].
  split; [exact P |]. split; [exact (R2 N P) |]. split; [exact M |].
  exact (R3 W M).
Defined.

(** C5, as the specification words it, fails on "pat" between hyphens
    without spaces: in "Generic-pat-campaign" the marker occurs in the
    form hyphen-pat-hyphen and "branded" does not occur, and the name is
    Non-Branded, not Competitor. *)
Lemma classify_segment_hyphen_pat_sample :
  claimed_pat_marker "Generic-pat-campaign" /\
  ~ occurs_ignoring_case "branded" "Generic-pat-campaign" /\
  classify_segment (Some "Generic-pat-campaign"%string) = Non_Branded /\
  classify_segment (Some "Generic-pat-campaign"%string) <> Competitor.
Proof.
  split; [| split; [| split]].
  - right. left. exists "Generic"%string, "-pat-"%string, "campaign"%string.
    split; reflexivity.
  - intros H. apply contains_lower_spec in H; [| reflexivity].
    vm_compute in H. discriminate.
  - reflexivity.
  - discriminate.
Qed.

(** The names that the specification classifies, and one with "pat"
    between hyphens without spaces, which is none of the three marked
    forms. *)
Example classify_segment_examples :
  classify_segment (Some "Brand X - branded - pat campaign"%string) = Branded /\
  classify_segment (Some "Generic - pat - campaign"%string) = Competitor /\
  classify_segment (Some "Generic PAT campaign"%string) = Competitor /\
  classify_segment (Some "generic_pat_campaign"%string) = Competitor /\
  classify_segment (Some "Widget Search"%string) = Non_Branded /\
  classify_segment (Some "Generic-pat-campaign"%string) = Non_Branded /\
  classify_portfolio (Some "JN-US-Main"%string) = JN /\
  classify_portfolio (Some ""%string) = Non_JN.
Proof. repeat split. Qed.

(** C9.  On every campaign name [classify_segment] returns what it returns
    without the test of "- pat -": a lowered name in which "- pat -" occurs
    is one in which " pat " occurs, so the second test adds no name. *)
Theorem classify_segment_hyphen_test_redundant (campaign_name : TextCell) :
  classify_segment campaign_name = classify_segment_two_tests campaign_name.
Proof.
  destruct campaign_name as [name|]; [| reflexivity].
  unfold classify_segment, classify_segment_two_tests.
  destruct (PyStr.contains "branded" (PyStr.lower name)); [reflexivity |].
  destruct (PyStr.contains "- pat -" (PyStr.lower name)) eqn:H.
  - rewrite (hyphen_pat_has_space_pat _ H). reflexivity.
  - rewrite orb_false_r. reflexivity.
Qed.

(** ** Field parsing *)

(** C10.  [parse_currency] has no test of the sign: a negative number is
    returned as it is (a float unchanged, an integer as its float), and
    text is returned as [float] reads it once [$], commas and quotes are
    removed, so [$-5] is what [float] reads in [-5] and [1,234] what it
    reads in [1234].  The loader parses the three counts (orders,
    impressions, clicks) with this same function, and loading does not
    depend on them: the values reach the frame as they are parsed. *)
Theorem parse_currency_no_sign_check (py_float : string -> option float) :
  (forall x : float, (x <? 0)%float = true ->
     parse_currency py_float (Float x) = x) /\
  (forall z : Z, parse_currency py_float (Int z) = float_of_int z) /\
  (forall v : float, py_float "-5"%string = Some v ->
     parse_currency py_float (Str "$-5") = v) /\
  (forall v : float, py_float "1234"%string = Some v ->
     parse_currency py_float (Str "1,234") = v) /\
  (forall (r : CampaignCsvRow) (d : Timestamp),
     let row := campaign_row py_float r d in
     Orders row = parse_currency py_float (csv_7_Day_Total_Orders r) /\
     Impressions row = parse_currency py_float (csv_Impressions r) /\
     Clicks row = parse_currency py_float (csv_Clicks r) /\
     Spend row = parse_currency py_float (csv_Spend r)) /\
  (forall (parse_datetime : string -> option date)
          (csv : list CampaignCsvRow) (dates : list Timestamp),
     to_datetime parse_datetime (map csv_Date csv) = Some dates ->
     load_campaign_data py_float parse_datetime csv =
     Some (map (fun rd => campaign_row py_float (fst rd) (snd rd))
             (combine csv dates))).
Proof.
  split; [| split; [| split; [| split; [| split]]]].
  - intros x Hx. unfold parse_currency, isna.
    rewrite (negative_not_nan x Hx). reflexivity.
  - intros z. reflexivity.
  - intros v Hv. unfold parse_currency. cbn [isna].
    match goal with
    | |- context [PyStr.strip ?t] =>
        change (PyStr.strip t) with "-5"%string
    end.
    rewrite Hv. reflexivity.
  - intros v Hv. unfold parse_currency. cbn [isna].
    match goal with
    | |- context [PyStr.strip ?t] =>
        change (PyStr.strip t) with "1234"%string
    end.
    rewrite Hv. reflexivity.
  - intros r d. cbv zeta. repeat split.
  - intros parse_datetime csv dates H. unfold load_campaign_data.
    rewrite H. reflexivity.
Qed.

(** C10 on the sample file: the negative number, the negative amount and
    the amount with a comma are parsed to -7, -5 and 1234, and these are
    the sums that [calc_metrics] returns for the loaded frame. *)
Lemma parse_currency_no_sign_check_sample :
  ((-5 <? 0)%float = true /\
   parse_currency Plain.float_of_integer_literal (Float (-5)) = (-5)%float) /\
  parse_currency Plain.float_of_integer_literal (Int (-7)) = (-7)%float /\
  parse_currency Plain.float_of_integer_literal (Str "$-5") = (-5)%float /\
  parse_currency Plain.float_of_integer_literal (Str "1,234") = 1234%float /\
  let m := calc_metrics (Sample.campaign_frame Sample.typed_counts_csv) in
  m_Orders m = (-5)%float /\ m_Impressions m = (-7)%float /\
  m_Clicks m = 1234%float.
Proof.
  pose proof (parse_currency_no_sign_check Plain.float_of_integer_literal)
    as (Hneg & Hint & Hm5 & H1234 & _).
  split; [split; [reflexivity | apply Hneg; reflexivity] |].
  split; [rewrite Hint; reflexivity |].
  split; [apply Hm5; reflexivity |].
  split; [apply H1234; reflexivity |].
  cbv zeta. repeat split; vm_compute; reflexivity.
Defined.

(** ** Loading *)

Section LoadingFacts.

Variable py_float : string -> option float.
Variable parse_datetime : string -> option date.

Lemma to_datetime_spec (col : list TextCell) :
  match to_datetime parse_datetime col with
  | Some dates =>
      Forall2 (fun c d => read_date parse_datetime c = Some d) col dates
  | None => exists s, In (Some s) col /\ parse_datetime s = None
  end.
Proof.
  induction col as [|c col IH]; simpl.
  - constructor.
  - destruct c as [s|].
    + destruct (parse_datetime s) as [d|] eqn:Hs.
      * destruct (to_datetime parse_datetime col) as [dates|]; simpl.
        -- constructor; [simpl; now rewrite Hs | exact IH].
        -- destruct IH as (s' & Hin & Hs'). exists s'. auto.
      * exists s. auto.
    + destruct (to_datetime parse_datetime col) as [dates|]; simpl.
      * constructor; [reflexivity | exact IH].
      * destruct IH as (s' & Hin & Hs'). exists s'. auto.
Qed.

Lemma combine_read_dates (csv : list CampaignCsvRow)
  (dates : list Timestamp) :
  Forall2 (fun c d => read_date parse_datetime c = Some d)
    (map csv_Date csv) dates ->
  map (fun rd => campaign_row py_float (fst rd) (snd rd)) (combine csv dates)
  = map (fun r =>
           campaign_row py_float r
             (match read_date parse_datetime (csv_Date r) with
              | Some d => d
              | None => NaT
              end)) csv.
Proof.
  revert dates. induction csv as [|r csv IH]; intros dates H; simpl.
  - reflexivity.
  - inversion H as [|c d col ds Hd Hrest]; subst. simpl.
    rewrite Hd. f_equal. apply IH. exact Hrest.
Qed.

End LoadingFacts.

(** C4, as the loader behaves.  [pd.to_datetime] is called with its
    default [errors='raise'], so loading ends with its error exactly when
    the date of some row is written and cannot be read: no frame is
    returned then, no row is left out on its own and nothing is counted.
    When every written date can be read, every row of the file is loaded
    (a row with no date gets the date NaT). *)
Theorem load_campaign_data_raises_on_bad_date
  (py_float : string -> option float)
  (parse_datetime : string -> option date)
  (csv : list CampaignCsvRow) :
  match load_campaign_data py_float parse_datetime csv with
  | None =>
      exists r s, In r csv /\ csv_Date r = Some s /\ parse_datetime s = None
  | Some df =>
      (forall r s, In r csv -> csv_Date r = Some s ->
                   parse_datetime s <> None) /\
      List.length df = List.length csv /\
      df = map (fun r =>
                  campaign_row py_float r
                    (match read_date parse_datetime (csv_Date r) with
                     | Some d => d
                     | None => NaT
                     end)) csv
  end.
Proof.
  unfold load_campaign_data.
  pose proof (to_datetime_spec parse_datetime (map csv_Date csv)) as H.
  destruct (to_datetime parse_datetime (map csv_Date csv)) as [dates|].
  - split; [| split].
    + intros r s Hin Hs Hnone.
      assert (Hc : In (csv_Date r) (map csv_Date csv)) by now apply in_map.
      revert Hc. clear Hin. revert H. generalize (map csv_Date csv).
      intros col H. induction H as [|c d col ds Hd Hrest IH]; simpl.
      * tauto.
      * intros [-> | Hc]; [| now apply IH].
        rewrite Hs in Hd. simpl in Hd. rewrite Hnone in Hd. discriminate.
    + rewrite length_map, length_combine.
      apply Forall2_length in H. rewrite length_map in H. lia.
    + now apply combine_read_dates.
  - destruct H as (s & Hin & Hs). apply in_map_iff in Hin.
    destruct Hin as (r & Hr & Hin). exists r, s. auto.
Qed.

(** C4, as the specification words it, fails on the sample file: its
    first row has a date that is read and its second row has none, and
    loading returns no frame, where the specification has the first row
    loaded and the second left out. *)
Lemma load_campaign_data_bad_date_sample :
  Plain.load_campaign Sample.bad_date_csv = None /\
  ~ loads_rows_with_readable_dates Plain.float_of_integer_literal
      Plain.iso_date Sample.bad_date_csv.
Proof.
  assert (H : Plain.load_campaign Sample.bad_date_csv = None)
    by (vm_compute; reflexivity).
  split; [exact H |].
  intros (df & Hdf & _). unfold Plain.load_campaign in H.
  rewrite H in Hdf. discriminate.
Qed.

(** ** Grouping *)

Section GroupFacts.

Lemma key_lt_trans (a b c : string) : key_lt a b -> key_lt b c -> key_lt a c.
Proof.
  unfold key_lt. intros H1 H2.
  apply OrderedTypeEx.String_as_OT.cmp_lt.
  apply OrderedTypeEx.String_as_OT.cmp_lt in H1, H2.
  exact (OrderedTypeEx.String_as_OT.lt_trans _ _ _ H1 H2).
Qed.

Lemma key_compare_refl (a : string) : String.compare a a = Eq.
Proof. now apply OrderedTypeEx.String_as_OT.cmp_eq. Qed.

Lemma key_compare_gt (a b : string) :
  String.compare a b = Gt -> key_lt b a.
Proof.
  unfold key_lt. intros H. rewrite String.compare_antisym, H. reflexivity.
Qed.

Lemma insert_key_In (k k0 : string) (ks : list string) :
  In k (Pandas.insert_key k0 ks) <-> k = k0 \/ In k ks.
Proof.
  induction ks as [|k' ks IH]; simpl.
  - intuition.
  - destruct (String.compare k0 k') eqn:E; simpl.
    + apply String.compare_eq_iff in E. subst k'. intuition.
    + intuition.
    + rewrite IH. intuition.
Qed.

Lemma group_keys_In (k : string) (col : list (option string)) :
  In k (Pandas.group_keys col) <-> In (Some k) col.
Proof.
  induction col as [|c col IH]; simpl.
  - tauto.
  - destruct c as [k0|].
    + rewrite insert_key_In, IH. split.
      * intros [-> | H]; auto.
      * intros [H | H]; [injection H as ->; auto | auto].
    + rewrite IH. split; [auto | intros [H | H]; [discriminate | auto]].
Qed.

Lemma insert_key_sorted (k : string) (ks : list string) :
  StronglySorted key_lt ks -> StronglySorted key_lt (Pandas.insert_key k ks).
Proof.
  induction ks as [|k' ks IH]; simpl; intros H.
  - repeat constructor.
  - inversion H as [|? ? Hs Hall]; subst.
    destruct (String.compare k k') eqn:E.
    + exact H.
    + constructor; [exact H |]. constructor; [exact E |].
      eapply Forall_impl; [| exact Hall].
      intros c Hc. exact (key_lt_trans _ _ _ E Hc).
    + constructor; [now apply IH |].
      apply Forall_forall. intros c Hc. apply insert_key_In in Hc.
      destruct Hc as [-> | Hc].
      * now apply key_compare_gt.
      * rewrite Forall_forall in Hall. now apply Hall.
Qed.

Lemma group_keys_sorted (col : list (option string)) :
  StronglySorted key_lt (Pandas.group_keys col).
Proof.
  induction col as [|c col IH]; simpl.
  - constructor.
  - destruct c; [now apply insert_key_sorted | exact IH].
Qed.

Lemma sorted_keys_NoDup (ks : list string) :
  StronglySorted key_lt ks -> NoDup ks.
Proof.
  induction 1 as [|k ks Hs IH Hall]; constructor; [| exact IH].
  intros Hin. rewrite Forall_forall in Hall. specialize (Hall _ Hin).
  unfold key_lt in Hall. rewrite key_compare_refl in Hall. discriminate.
Qed.

Lemma group_keys_NoDup (col : list (option string)) :
  NoDup (Pandas.group_keys col).
Proof. apply sorted_keys_NoDup, group_keys_sorted. Qed.

Context {A : Type}.
Variable by_ : A -> option string.

Lemma filter_disjoint_app (p q : A -> bool) (l : list A) :
  (forall r, p r = true -> q r = false) ->
  Permutation (filter p l ++ filter q l) (filter (fun r => p r || q r) l).
Proof.
  intros D. induction l as [|r l IH]; simpl; [constructor |].
  destruct (p r) eqn:P; simpl.
  - rewrite (D r P). now constructor.
  - destruct (q r); simpl; [| exact IH].
    apply Permutation_sym, Permutation_cons_app, Permutation_sym, IH.
Qed.

Lemma groups_partition_keyed (keys : list string) (df : list A) :
  NoDup keys ->
  Permutation
    (flat_map (fun k => filter (Pandas.has_key by_ k) df) keys)
    (filter (keyed_in by_ keys) df).
Proof.
  induction 1 as [|k keys Hk Hnd IH]; simpl.
  - unfold keyed_in. simpl.
    induction df as [|r df IHdf]; simpl; [constructor |].
    destruct (by_ r); exact IHdf.
  - eapply Permutation_trans.
    + apply Permutation_app_head, IH.
    + eapply Permutation_trans.
      * apply filter_disjoint_app.
        intros r Hr. unfold Pandas.has_key, keyed_in in *.
        destruct (by_ r) as [k'|]; [| reflexivity].
        apply String.eqb_eq in Hr. subst k'.
        destruct (existsb (String.eqb k) keys) eqn:E; [| reflexivity].
        apply existsb_exists in E. destruct E as (x & Hx & Hxk).
        apply String.eqb_eq in Hxk. subst x. contradiction.
      * assert (E : forall r,
                  Pandas.has_key by_ k r || keyed_in by_ keys r
                  = keyed_in by_ (k :: keys) r).
        { intros r. unfold Pandas.has_key, keyed_in.
          destruct (by_ r); reflexivity. }
        rewrite (filter_ext _ _ E). apply Permutation_refl.
Qed.

(** The groups of [groupby] hold each row that has a key once, and no
    other row. *)
Lemma groupby_partition (df : list A) :
  Permutation
    (List.concat (map snd (Pandas.groupby by_ df)))
    (filter (fun r => match by_ r with Some _ => true | None => false end) df).
Proof.
  unfold Pandas.groupby. rewrite map_map. simpl.
  rewrite <- flat_map_concat_map.
  eapply Permutation_trans.
  - apply groups_partition_keyed, group_keys_NoDup.
  - assert (E : forall r, In r df ->
                keyed_in by_ (Pandas.group_keys (map by_ df)) r
                = match by_ r with Some _ => true | None => false end).
    { intros r Hr. unfold keyed_in. destruct (by_ r) as [k|] eqn:Hk.
      - apply existsb_exists. exists k. split; [| apply String.eqb_refl].
        apply group_keys_In. rewrite <- Hk. now apply in_map.
      - reflexivity. }
    rewrite (filter_ext_in _ _ _ E). apply Permutation_refl.
Qed.

Lemma groupby_rows (df : list A) (g : string * list A) :
  In g (Pandas.groupby by_ df) ->
  snd g = filter (Pandas.has_key by_ (fst g)) df /\
  In (Some (fst g)) (map by_ df).
Proof.
  unfold Pandas.groupby. intros H. apply in_map_iff in H.
  destruct H as (k & <- & Hk). simpl. split; [reflexivity |].
  now apply group_keys_In.
Qed.

End GroupFacts.

(** ** Exact totals *)

Section ExactTotals.

Context {A : Type}.
Variable measure : A -> Z.

Lemma exact_total_app (l l' : list A) :
  exact_total measure (l ++ l')
  = (exact_total measure l + exact_total measure l')%Z.
Proof. induction l as [|r l IH]; simpl; [reflexivity | lia]. Qed.

Lemma exact_total_perm (l l' : list A) :
  Permutation l l' -> exact_total measure l = exact_total measure l'.
Proof. induction 1; simpl; lia. Qed.

Lemma exact_total_groups {K : Type} (groups : list (K * list A)) :
  exact_total (fun g => exact_total measure (snd g)) groups
  = exact_total measure (List.concat (map snd groups)).
Proof.
  induction groups as [|g groups IH]; simpl; [reflexivity |].
  rewrite exact_total_app. lia.
Qed.

End ExactTotals.

(** ** Aggregation by segment *)





(** ** Sorting *)

Section SortFacts.

Context {A K : Type}.
Variable le : K -> K -> bool.
Variable by_ : A -> K.

Lemma insert_sorted_perm (x : A) (l : list A) :
  Permutation (Pandas.insert_sorted le by_ x l) (x :: l).
Proof.
  induction l as [|y l IH]; simpl; [apply Permutation_refl |].
  destruct (le (by_ x) (by_ y)); [apply Permutation_refl |].
  eapply Permutation_trans; [apply perm_skip, IH | apply perm_swap].
Qed.

Lemma sort_values_perm (l : list A) :
  Permutation (Pandas.sort_values le by_ l) l.
Proof.
  induction l as [|x l IH]; simpl; [constructor |].
  eapply Permutation_trans; [apply insert_sorted_perm | now constructor].
Qed.

Hypothesis le_total : forall a b, le a b = true \/ le b a = true.
Hypothesis le_trans :
  forall a b c, le a b = true -> le b c = true -> le a c = true.

Lemma insert_sorted_sorted (x : A) (l : list A) :
  StronglySorted (key_le le by_) l ->
  StronglySorted (key_le le by_) (Pandas.insert_sorted le by_ x l).
Proof.
  induction l as [|y l IH]; simpl; intros H.
  - repeat constructor.
  - inversion H as [|? ? Hs Hall]; subst.
    destruct (le (by_ x) (by_ y)) eqn:E.
    + constructor; [exact H |]. constructor; [exact E |].
      eapply Forall_impl; [| exact Hall].
      intros z Hz. exact (le_trans _ _ _ E Hz).
    + constructor; [now apply IH |].
      apply Forall_forall. intros z Hz.
      apply (Permutation_in _ (insert_sorted_perm x l)) in Hz.
      destruct Hz as [<- | Hz].
      * destruct (le_total (by_ x) (by_ y)) as [F | F]; [congruence | exact F].
      * rewrite Forall_forall in Hall. now apply Hall.
Qed.

Lemma sort_values_sorted (l : list A) :
  StronglySorted (key_le le by_) (Pandas.sort_values le by_ l).
Proof.
  induction l as [|x l IH]; simpl; [constructor |].
  now apply insert_sorted_sorted.
Qed.

End SortFacts.

Lemma StronglySorted_nth {A : Type} (R : A -> A -> Prop) (l : list A) :
  StronglySorted R l ->
  forall i j a b, i < j -> nth_error l i = Some a -> nth_error l j = Some b ->
  R a b.
Proof.
  induction 1 as [|x l Hs IH Hall]; intros i j a b Hij Hi Hj.
  - destruct i; discriminate.
  - destruct j as [|j]; [lia |]. simpl in Hj. destruct i as [|i]; simpl in Hi.
    + injection Hi as <-. rewrite Forall_forall in Hall.
      apply Hall. eapply nth_error_In; eauto.
    + eapply IH; [| eauto | eauto]. lia.
Qed.

Lemma combine_app_same_length {X Y : Type} (l1 l2 : list X) (l1' l2' : list Y) :
  List.length l1 = List.length l1' ->
  combine (l1 ++ l2) (l1' ++ l2') = combine l1 l1' ++ combine l2 l2'.
Proof.
  revert l1'. induction l1 as [|x l1 IH]; intros [|y l1'] H; simpl in *;
    try discriminate; [reflexivity |].
  f_equal. apply IH. lia.
Qed.

Lemma enumerate_dict_snoc (keys : list string) (x k : string) :
  Pandas.enumerate_dict (keys ++ [x]) k
  = if String.eqb k x then Some (List.length keys)
    else Pandas.enumerate_dict keys k.
Proof.
  unfold Pandas.enumerate_dict.
  rewrite length_app. simpl. rewrite seq_app. simpl.
  rewrite combine_app_same_length by (now rewrite length_seq).
  rewrite fold_left_app. simpl. reflexivity.
Qed.

Lemma enumerate_dict_spec (keys : list string) (k : string) :
  match Pandas.enumerate_dict keys k with
  | Some i => nth_error keys i = Some k
  | None => ~ In k keys
  end.
Proof.
  induction keys as [|x keys IH] using rev_ind.
  - simpl. tauto.
  - rewrite enumerate_dict_snoc. destruct (String.eqb_spec k x) as [->|Hne].
    + rewrite nth_error_app2 by lia. rewrite Nat.sub_diag. reflexivity.
    + destruct (Pandas.enumerate_dict keys k) as [i|].
      * rewrite nth_error_app1; [exact IH |].
        apply nth_error_Some. congruence.
      * rewrite in_app_iff. simpl. intuition congruence.
Qed.

(** ** The order of dates *)

Section CalendarOrder.

Local Open Scope Z_scope.

Lemma calendar_leb_spec (a b : date) :
  Calendar.leb a b = true <->
  year a < year b \/
  (year a = year b /\
   (month a < month b \/ (month a = month b /\ day a <= day b))).
Proof.
  unfold Calendar.leb, Calendar.compare.
  destruct (Z.compare_spec (year a) (year b));
    destruct (Z.compare_spec (month a) (month b));
    destruct (Z.compare_spec (day a) (day b));
    split; intros; try discriminate; try reflexivity; try lia.
Qed.

Lemma calendar_leb_total (a b : date) :
  Calendar.leb a b = true \/ Calendar.leb b a = true.
Proof. rewrite !calendar_leb_spec. lia. Qed.

Lemma calendar_leb_trans (a b c : date) :
  Calendar.leb a b = true -> Calendar.leb b c = true ->
  Calendar.leb a c = true.
Proof. rewrite !calendar_leb_spec. lia. Qed.

Lemma calendar_leb_refl (a : date) : Calendar.leb a a = true.
Proof. rewrite calendar_leb_spec. lia. Qed.

End CalendarOrder.

Section NaLast.

Context {K : Type}.
Variable le : K -> K -> bool.
Hypothesis le_total : forall a b, le a b = true \/ le b a = true.
Hypothesis le_trans :
  forall a b c, le a b = true -> le b c = true -> le a c = true.

Lemma na_last_le_total (a b : option K) :
  Pandas.na_last_le le a b = true \/ Pandas.na_last_le le b a = true.
Proof. destruct a, b; simpl; auto. Qed.

Lemma na_last_le_trans (a b c : option K) :
  Pandas.na_last_le le a b = true -> Pandas.na_last_le le b c = true ->
  Pandas.na_last_le le a c = true.
Proof. destruct a, b, c; simpl; eauto; discriminate. Qed.

Lemma na_last_le_refl (a : option K) : Pandas.na_last_le le a a = true.
Proof. destruct a; simpl; [| reflexivity]. destruct (le_total k k); auto. Qed.

End NaLast.

Lemma nat_leb_total (a b : nat) : Nat.leb a b = true \/ Nat.leb b a = true.
Proof. rewrite !Nat.leb_le. lia. Qed.

Lemma nat_leb_trans (a b c : nat) :
  Nat.leb a b = true -> Nat.leb b c = true -> Nat.leb a c = true.
Proof. rewrite !Nat.leb_le. lia. Qed.

(** ** Aggregation by month *)

Section MonthOrder.

Variable df : list CampaignRow.

Lemma month_order_perm :
  Permutation (month_order df) (Pandas.group_keys (map Month_Label df)).
Proof.
  unfold month_order.
  eapply Permutation_trans.
  - apply Permutation_map, sort_values_perm.
  - unfold Pandas.groupby. rewrite !map_map. simpl. rewrite map_id.
    apply Permutation_refl.
Qed.

Lemma month_order_sorted :
  StronglySorted (not_later df Month_Label) (month_order df).
Proof.
  unfold month_order.
  set (mins := map (fun g => (fst g, Pandas.series_min (map Date (snd g))))
                 (Pandas.groupby Month_Label df)).
  assert (Hmin : forall p : string * option date,
            In p mins -> snd p = bucket_min df Month_Label (fst p)).
  { intros p Hp. unfold mins in Hp. apply in_map_iff in Hp.
    destruct Hp as (g & <- & Hg). simpl.
    apply groupby_rows in Hg. destruct Hg as [-> _]. reflexivity. }
  pose proof (sort_values_sorted (Pandas.na_last_le Calendar.leb) snd
                (na_last_le_total _ calendar_leb_total)
                (na_last_le_trans _ calendar_leb_trans) mins) as Hs.
  assert (Hin : forall p, In p (Pandas.sort_values (Pandas.na_last_le Calendar.leb) snd mins) -> In p mins).
  { intros p. apply Permutation_in, sort_values_perm. }
  revert Hs Hin.
  generalize (Pandas.sort_values (Pandas.na_last_le Calendar.leb) snd mins).
  intros l Hs. induction Hs as [|p l Hs IH Hall]; intros Hin; simpl.
  - constructor.
  - constructor.
    + apply IH. intros q Hq. apply Hin. now right.
    + rewrite Forall_map. rewrite Forall_forall in *. intros q Hq.
      specialize (Hall q Hq). unfold key_le in Hall. unfold not_later.
      rewrite <- (Hmin p), <- (Hmin q); auto.
      * apply Hin. now right.
      * apply Hin. now left.
Qed.

Lemma monthly_labels_sorted :
  StronglySorted (not_later df Month_Label)
    (map mo_Month_Label (aggregate_by_month df None)).
Proof.
  unfold aggregate_by_month. rewrite map_map. simpl.
  set (sort_order := Pandas.enumerate_dict (month_order df)).
  set (monthly := apply_calc_metrics Month_Label df).
  pose proof (sort_values_sorted (Pandas.na_last_le Nat.leb)
                (fun row : string * Metrics => sort_order (fst row))
                (na_last_le_total _ nat_leb_total)
                (na_last_le_trans _ nat_leb_trans) monthly) as Hs.
  assert (Hin : forall row,
            In row (Pandas.sort_values (Pandas.na_last_le Nat.leb)
                      (fun row : string * Metrics => sort_order (fst row)) monthly) ->
            In (fst row) (month_order df)).
  { intros row Hrow.
    apply (Permutation_in _ (sort_values_perm _ _ monthly)) in Hrow.
    apply (Permutation_in _ (Permutation_sym month_order_perm)).
    unfold monthly, apply_calc_metrics in Hrow. apply in_map_iff in Hrow.
    destruct Hrow as (g & <- & Hg). simpl.
    unfold Pandas.groupby in Hg. apply in_map_iff in Hg.
    destruct Hg as (k & <- & Hk). exact Hk. }
  revert Hs Hin.
  generalize (Pandas.sort_values (Pandas.na_last_le Nat.leb)
                (fun row : string * Metrics => sort_order (fst row)) monthly).
  intros l Hs. induction Hs as [|p l Hs IH Hall]; intros Hin; simpl.
  - constructor.
  - constructor.
    + apply IH. intros q Hq. apply Hin. now right.
    + rewrite Forall_map. rewrite Forall_forall in *. intros q Hq.
      specialize (Hall q Hq). unfold key_le in Hall.
      assert (Hp : In (fst p) (month_order df)) by (apply Hin; now left).
      assert (Hq' : In (fst q) (month_order df)) by (apply Hin; now right).
      pose proof (enumerate_dict_spec (month_order df) (fst p)) as Ep.
      pose proof (enumerate_dict_spec (month_order df) (fst q)) as Eq.
      fold sort_order in Ep, Eq.
      destruct (sort_order (fst p)) as [i|]; [| contradiction].
      destruct (sort_order (fst q)) as [j|]; [| contradiction].
      simpl in Hall. apply Nat.leb_le in Hall.
      destruct (Nat.eq_dec i j) as [->|Hne].
      * assert (fst p = fst q) by congruence.
        unfold not_later. rewrite H.
        apply na_last_le_refl, calendar_leb_total.
      * eapply (StronglySorted_nth _ _ month_order_sorted i j); eauto. lia.
Qed.

End MonthOrder.

(** ** The join with the business report *)

Section MergeFacts.

Context {L R : Type}.

Lemma filter_absent_key (right : list (string * R)) (k : string) :
  ~ In k (map fst right) ->
  filter (fun r => String.eqb (fst r) k) right = [].
Proof.
  induction right as [|r right IH]; simpl; intros H; [reflexivity |].
  destruct (String.eqb_spec (fst r) k) as [E|E]; [tauto |].
  apply IH. tauto.
Qed.

Lemma filter_unique_key (right : list (string * R)) (k : string) :
  NoDup (map fst right) ->
  filter (fun r => String.eqb (fst r) k) right
  = match find (fun r => String.eqb (fst r) k) right with
    | Some r => [r]
    | None => []
    end.
Proof.
  induction right as [|r right IH]; simpl; intros H; [reflexivity |].
  inversion H as [|? ? Hnot Hnd]; subst.
  destruct (String.eqb_spec (fst r) k) as [E|E].
  - subst k. now rewrite filter_absent_key.
  - now apply IH.
Qed.

Lemma merge_left_unique (missing : R) (left : list (string * L))
  (right : list (string * R)) :
  NoDup (map fst right) ->
  Pandas.merge_left missing left right
  = map (fun l =>
           (fst l, snd l,
            match find (fun r => String.eqb (fst r) (fst l)) right with
            | Some r => snd r
            | None => missing
            end)) left.
Proof.
  intros H. unfold Pandas.merge_left.
  induction left as [|l left IH]; [reflexivity |].
  cbn [flat_map]. rewrite IH, (filter_unique_key right (fst l) H).
  cbn [map].
  destruct (find (fun r => String.eqb (fst r) (fst l)) right); reflexivity.
Qed.

Lemma find_keyed (f : string -> R) (keys : list string) (k : string) :
  find (fun r => String.eqb (fst r) k) (map (fun k' => (k', f k')) keys)
  = if existsb (String.eqb k) keys then Some (k, f k) else None.
Proof.
  induction keys as [|a keys IH]; simpl; [reflexivity |].
  rewrite (String.eqb_sym k a).
  destruct (String.eqb_spec a k) as [->|E]; [reflexivity | exact IH].
Qed.

End MergeFacts.

Section KeyedRows.

Context {A : Type}.
Variable by_ : A -> option string.

Lemma has_key_rows_nil (df : list A) (k : string) :
  existsb (String.eqb k) (Pandas.group_keys (map by_ df)) = false ->
  filter (Pandas.has_key by_ k) df = [].
Proof.
  intros H.
  assert (Hno : ~ In (Some k) (map by_ df)).
  { intros Hin. apply group_keys_In in Hin.
    assert (E : existsb (String.eqb k) (Pandas.group_keys (map by_ df)) = true).
    { apply existsb_exists. exists k. split; [exact Hin | apply String.eqb_refl]. }
    congruence. }
  clear H. induction df as [|r df IH]; simpl in *; [reflexivity |].
  unfold Pandas.has_key at 1. destruct (by_ r) as [k'|] eqn:E.
  - destruct (String.eqb_spec k' k) as [->|Hne]; [tauto |]. apply IH. tauto.
  - apply IH. tauto.
Qed.

Lemma has_key_rows_cons (df : list A) (k : string) :
  existsb (String.eqb k) (Pandas.group_keys (map by_ df)) = true ->
  filter (Pandas.has_key by_ k) df <> [].
Proof.
  intros H. apply existsb_exists in H. destruct H as (x & Hx & E).
  apply String.eqb_eq in E. subst x. apply group_keys_In in Hx.
  apply in_map_iff in Hx. destruct Hx as (r & Hr & Hin).
  intros Hnil.
  assert (Hf : In r (filter (Pandas.has_key by_ k) df)).
  { apply filter_In. split; [exact Hin |].
    unfold Pandas.has_key. rewrite Hr. apply String.eqb_refl. }
  rewrite Hnil in Hf. exact Hf.
Qed.

End KeyedRows.

Lemma biz_monthly_keys (business_df : list BusinessRow) :
  map fst (biz_monthly business_df)
  = Pandas.group_keys (map biz_Month_Label business_df).
Proof.
  unfold biz_monthly, Pandas.groupby. rewrite !map_map. simpl.
  apply map_id.
Qed.

(** The business sums joined to the month [k]. *)
Lemma biz_monthly_find (business_df : list BusinessRow) (k : string) :
  find (fun r => String.eqb (fst r) k) (biz_monthly business_df)
  = match filter (Pandas.has_key biz_Month_Label k) business_df with
    | [] => None
    | rows =>
        Some (k, (Pandas.group_sum (map biz_Total_Sales rows),
                  Pandas.group_sum (map biz_Units rows),
                  Pandas.group_sum (map biz_Sessions rows)))
    end.
Proof.
  unfold biz_monthly, Pandas.groupby. rewrite map_map. simpl.
  rewrite (find_keyed
             (fun k' =>
                let rows := filter (Pandas.has_key biz_Month_Label k')
                              business_df in
                (Pandas.group_sum (map biz_Total_Sales rows),
                 Pandas.group_sum (map biz_Units rows),
                 Pandas.group_sum (map biz_Sessions rows)))).
  destruct (existsb (String.eqb k)
              (Pandas.group_keys (map biz_Month_Label business_df))) eqn:E.
  - apply has_key_rows_cons in E. cbv zeta.
    destruct (filter (Pandas.has_key biz_Month_Label k) business_df);
      [congruence | reflexivity].
  - now rewrite (has_key_rows_nil _ _ _ E).
Qed.

Section FloatNaN.
Local Open Scope float_scope.

Lemma div_nan_r (x : float) : x / nan = nan.
Proof.
  apply Prim2SF_inj. rewrite FloatAxioms.div_spec.
  change (Prim2SF nan) with S754_nan.
  destruct (Prim2SF x) as [[|]|[|]| |[|] ? ?]; reflexivity.
Qed.

Lemma sub_nan_l (x : float) : nan - x = nan.
Proof.
  apply Prim2SF_inj. rewrite FloatAxioms.sub_spec.
  change (Prim2SF nan) with S754_nan. reflexivity.
Qed.

End FloatNaN.

Lemma monthly_business_missing (m : Metrics) :
  monthly_business m (nan, nan, nan)
  = {| Total_Sales := nan; Units := nan; Sessions := nan;
       TACOS := 0; Organic_Sales := nan |}.
Proof.
  unfold monthly_business. rewrite div_nan_r, sub_nan_l. reflexivity.
Qed.

(** The frame of the months with the business columns, row by row. *)
Lemma aggregate_by_month_joined (campaign_df : list CampaignRow)
  (business_df : list BusinessRow) :
  aggregate_by_month campaign_df (Some business_df)
  = map (fun row =>
           {| mo_Month_Label := mo_Month_Label row;
              mo_metrics := mo_metrics row;
              mo_business :=
                Some (monthly_business (mo_metrics row)
                        match filter (Pandas.has_key biz_Month_Label
                                        (mo_Month_Label row)) business_df with
                        | [] => (nan, nan, nan)
                        | rows =>
                            (Pandas.group_sum (map biz_Total_Sales rows),
                             Pandas.group_sum (map biz_Units rows),
                             Pandas.group_sum (map biz_Sessions rows))
                        end) |})
      (aggregate_by_month campaign_df None).
Proof.
  unfold aggregate_by_month.
  rewrite merge_left_unique
    by (rewrite biz_monthly_keys; apply group_keys_NoDup).
  rewrite !map_map. apply map_ext. intros row. simpl.
  rewrite biz_monthly_find.
  destruct (filter (Pandas.has_key biz_Month_Label (fst row)) business_df);
    reflexivity.
Qed.

(** C3.  For every campaign frame and every business frame, the frame of
    the months with the business columns has one row for each month of
    the campaigns, with the metrics of the campaign rows of that month:
    no month of the campaigns is lost or repeated (a left join), and the
    rows are those of the frame of the months without business columns,
    in the same order.  A month that has business rows gets the sums of
    their total sales, units and sessions; a month that has none gets
    missing (NaN) total sales, units, sessions and organic sales and a
    TACOS of 0.  The aggregation returns a frame in both cases. *)
Theorem aggregate_by_month_left_join (campaign_df : list CampaignRow)
  (business_df : list BusinessRow) :
  let months := Pandas.groupby Month_Label campaign_df in
  let without := aggregate_by_month campaign_df None in
  let joined := aggregate_by_month campaign_df (Some business_df) in
  Permutation
    (map (fun row => (mo_Month_Label row, mo_metrics row)) joined)
    (map (fun g => (fst g, calc_metrics (snd g))) months) /\
  NoDup (map mo_Month_Label joined) /\
  (forall r k, In r campaign_df -> Month_Label r = Some k ->
     exists row, In row joined /\ mo_Month_Label row = k /\
       mo_metrics row
       = calc_metrics (filter (Pandas.has_key Month_Label k) campaign_df)) /\
  map mo_Month_Label joined = map mo_Month_Label without /\
  map mo_metrics joined = map mo_metrics without /\
  Forall
    (fun row =>
       exists b : MonthlyBusiness,
         mo_business row = Some b /\
         match filter (Pandas.has_key biz_Month_Label (mo_Month_Label row))
                 business_df with
         | [] =>
             Total_Sales b = nan /\ Units b = nan /\ Sessions b = nan /\
             TACOS b = 0%float /\ Organic_Sales b = nan
         | rows =>
             Total_Sales b = Pandas.group_sum (map biz_Total_Sales rows) /\
             Units b = Pandas.group_sum (map biz_Units rows) /\
             Sessions b = Pandas.group_sum (map biz_Sessions rows)
         end)
    joined.
Proof.
  cbv zeta.
  assert (P : Permutation
                (map (fun row => (mo_Month_Label row, mo_metrics row))
                   (aggregate_by_month campaign_df (Some business_df)))
                (map (fun g => (fst g, calc_metrics (snd g)))
                   (Pandas.groupby Month_Label campaign_df))).
  { rewrite aggregate_by_month_joined, map_map. cbn [mo_Month_Label mo_metrics].
    unfold aggregate_by_month. rewrite map_map.
    cbn [mo_Month_Label mo_metrics].
    rewrite (map_ext _ (fun row : string * Metrics => row))
      by (intros [k m]; reflexivity).
    rewrite map_id. apply sort_values_perm. }
  assert (K : Permutation
                (map mo_Month_Label
                   (aggregate_by_month campaign_df (Some business_df)))
                (Pandas.group_keys (map Month_Label campaign_df))).
  { apply (Permutation_map fst) in P. rewrite !map_map in P.
    cbn [fst] in P. unfold Pandas.groupby in P. rewrite map_map in P.
    cbn [fst] in P. rewrite map_id in P. exact P. }
  split; [exact P |]. split.
  { apply (Permutation_NoDup (Permutation_sym K)), group_keys_NoDup. }
  split.
  { intros r k Hr Hk.
    assert (Hg : In (k, calc_metrics
                          (filter (Pandas.has_key Month_Label k) campaign_df))
                   (map (fun g => (fst g, calc_metrics (snd g)))
                      (Pandas.groupby Month_Label campaign_df))).
    { unfold Pandas.groupby. rewrite map_map. cbn [fst snd].
      apply (in_map (fun k0 =>
                       (k0, calc_metrics
                              (filter (Pandas.has_key Month_Label k0)
                                 campaign_df)))).
      apply group_keys_In. rewrite <- Hk. now apply in_map. }
    apply (Permutation_in _ (Permutation_sym P)) in Hg.
    apply in_map_iff in Hg. destruct Hg as (row & E & Hin).
    injection E as E1 E2. exists row. auto. }
  rewrite aggregate_by_month_joined.
  rewrite !map_map. simpl. split; [reflexivity |]. split; [reflexivity |].
  rewrite Forall_map. apply Forall_forall. intros row _. simpl.
  eexists. split; [reflexivity |].
  destruct (filter (Pandas.has_key biz_Month_Label (mo_Month_Label row))
              business_df).
  - rewrite monthly_business_missing. simpl. repeat split.
  - simpl. repeat split.
Qed.

(** C3 on the sample: the campaigns are of November, December and
    January and the business rows of December and January.  The joined
    frame has the three months; November has no total sales (NaN) and a
    TACOS of 0, December has total sales of 0, and January has the sum
    100 of its two business rows. *)
Lemma aggregate_by_month_left_join_sample :
  let joined :=
    aggregate_by_month Sample.three_months
      (Some Sample.two_months_of_business) in
  map mo_Month_Label joined
  = ["Nov 2024"; "Dec 2024"; "Jan 2025"]%string /\
  NoDup (map mo_Month_Label joined) /\
  Permutation
    (map (fun row => (mo_Month_Label row, mo_metrics row)) joined)
    (map (fun g => (fst g, calc_metrics (snd g)))
       (Pandas.groupby Month_Label Sample.three_months)) /\
  map (fun row =>
         option_map
           (fun b => (PyFloat.isna (Total_Sales b), (Total_Sales b =? 0)%float,
                      (Total_Sales b =? 100)%float, (TACOS b =? 0)%float))
           (mo_business row)) joined
  = [Some (true, false, false, true); Some (false, true, false, false);
     Some (false, false, true, false)].
Proof.
  cbv zeta.
  destruct (aggregate_by_month_left_join Sample.three_months
              Sample.two_months_of_business) as (P & N & _).
  split; [vm_compute; reflexivity |]. split; [exact N |].
  split; [exact P |]. vm_compute. reflexivity.
Defined.

(** ** TACOS and organic sales *)

Section BusinessColumns.

Local Open Scope float_scope.

(** The columns of a row of the joined frame are computed from the
    metrics of the row and the sums joined to it. *)
Lemma aggregate_by_month_business (campaign_df : list CampaignRow)
  (business_df : list BusinessRow) (row : MonthlyRow) (b : MonthlyBusiness) :
  In row (aggregate_by_month campaign_df (Some business_df)) ->
  mo_business row = Some b ->
  TACOS b = Pandas.fillna0 (m_Spend (mo_metrics row) / Total_Sales b * 100) /\
  Organic_Sales b
  = Pandas.clip_lower0 (Total_Sales b - m_Sales (mo_metrics row)).
Proof.
  unfold aggregate_by_month. intros Hin Hb. apply in_map_iff in Hin.
  destruct Hin as (x & <- & _). simpl in Hb. injection Hb as <-.
  unfold monthly_business. destruct (snd x) as [[ts u] s]. simpl. auto.
Qed.

Lemma py_max0_not_negative (x : float) : (py_max 0 x <? 0) = false.
Proof.
  unfold py_max. destruct (PyFloat.gt x 0) eqn:G; [| reflexivity].
  float_cases x.
Qed.

(** A spend that is a number other than 0, divided by total sales of 0,
    is infinite, and stays so once multiplied by 100 and passed through
    [fillna(0)]. *)
Lemma tacos_infinite_on_zero_sales (spend total_sales : float) :
  PyFloat.isna spend = false -> (spend =? 0) = false ->
  (total_sales =? 0) = true ->
  (abs (Pandas.fillna0 (spend / total_sales * 100)) =? infinity) = true.
Proof.
  intros Hn Hz Ht.
  assert (E : exists s, Prim2SF (spend / total_sales * 100)
                        = S754_infinity s).
  { rewrite FloatAxioms.mul_spec, FloatAxioms.div_spec.
    change (Prim2SF 100) with (S754_finite false 7036874417766400 (-46)).
    revert Hn Hz Ht. unfold PyFloat.isna.
    rewrite is_nan_Prim2SF, !FloatAxioms.eqb_spec.
    change (Prim2SF 0) with (S754_zero false).
    destruct (Prim2SF spend) as [[|]|[|]| |[|] ? ?];
      destruct (Prim2SF total_sales) as [[|]|[|]| |[|] ? ?];
      simpl; intros; try discriminate; eexists; reflexivity. }
  destruct E as [s E]. unfold Pandas.fillna0, PyFloat.isna.
  rewrite is_nan_Prim2SF, E.
  rewrite FloatAxioms.eqb_spec, FloatAxioms.abs_spec, E. reflexivity.
Qed.

End BusinessColumns.

(** C2 at the month in which the store sold nothing.  The campaigns spent
    5 and the business report has total sales of 0 for the month: the
    TACOS of the month is infinite, where the specification has 0, and
    where the overall TACOS of the summary sheet, computed for the same
    frames, is 0. *)
Theorem aggregate_by_month_tacos_zero_sales_sample :
  map (fun row =>
         (mo_Month_Label row, m_Spend (mo_metrics row),
          option_map Total_Sales (mo_business row),
          option_map TACOS (mo_business row)))
    (aggregate_by_month Sample.december_campaigns
       (Some Sample.december_business))
  = [("Dec 2024"%string, 5%float, Some 0%float, Some infinity)] /\
  summary_tacos Sample.december_campaigns (Some Sample.december_business)
  = 0%float.
Proof. split; vm_compute; reflexivity. Qed.

(** C8.  In every row of the months joined with a business frame, the
    organic sales are the total sales of the month minus its ad sales,
    clipped below at 0: they are never negative, and they are
    max(0, total sales - ad sales) whenever that difference is a number.
    The overall organic sales of the organic sheet are never negative
    either. *)
Theorem organic_sales_clamped (campaign_df : list CampaignRow)
  (business_df : list BusinessRow) :
  (forall (row : MonthlyRow) (b : MonthlyBusiness),
     In row (aggregate_by_month campaign_df (Some business_df)) ->
     mo_business row = Some b ->
     let difference := (Total_Sales b - m_Sales (mo_metrics row))%float in
     Organic_Sales b = Pandas.clip_lower0 difference /\
     (Organic_Sales b <? 0)%float = false /\
     (PyFloat.isna difference = false ->
      (Organic_Sales b =? py_max 0 difference)%float = true)) /\
  summary_organic_sales campaign_df business_df
  = py_max 0 (Pandas.series_sum (map biz_Total_Sales business_df)
              - Pandas.series_sum (map Sales campaign_df))%float /\
  (summary_organic_sales campaign_df business_df <? 0)%float = false.
Proof.
  split; [| split; [reflexivity | apply py_max0_not_negative]].
  intros row b Hin Hb. cbv zeta.
  destruct (aggregate_by_month_business _ _ _ _ Hin Hb) as [_ ->].
  split; [reflexivity |]. split.
  - apply clip_lower0_not_negative.
  - apply clip_lower0_is_max.
Qed.

(** C8 on the sample: in January the store sold 100 and the campaigns
    report sales of 150; the organic sales of the month are 0. *)
Lemma organic_sales_clamped_sample :
  In Sample.january
    (aggregate_by_month Sample.three_months
       (Some Sample.two_months_of_business)) /\
  mo_business Sample.january = Some Sample.january_business /\
  mo_Month_Label Sample.january = "Jan 2025"%string /\
  Total_Sales Sample.january_business = 100%float /\
  m_Sales (mo_metrics Sample.january) = 150%float /\
  Organic_Sales Sample.january_business = 0%float /\
  (Organic_Sales Sample.january_business <? 0)%float = false /\
  (Organic_Sales Sample.january_business =? py_max 0 (100 - 150))%float
  = true.
Proof.
  assert (Hin : In Sample.january
                  (aggregate_by_month Sample.three_months
                     (Some Sample.two_months_of_business)))
    by (vm_compute; right; right; left; reflexivity).
  assert (Hb : mo_business Sample.january = Some Sample.january_business)
    by (vm_compute; reflexivity).
  destruct (organic_sales_clamped Sample.three_months
              Sample.two_months_of_business) as [H _].
  destruct (H Sample.january Sample.january_business Hin Hb)
    as (_ & Hneg & Hmax).
  split; [exact Hin |]. split; [exact Hb |].
  split; [vm_compute; reflexivity |]. split; [reflexivity |].
  split; [vm_compute; reflexivity |]. split; [reflexivity |].
  split; [exact Hneg |].
  apply Hmax. vm_compute. reflexivity.
Defined.

(** ** The labels of the weeks *)

Section WeekLabels.

Local Open Scope Z_scope.

Lemma digit_char_compare (a b : Z) :
  0 <= a <= 9 -> 0 <= b <= 9 ->
  Ascii.compare (Calendar.digit_char a) (Calendar.digit_char b) = (a ?= b).
Proof.
  intros Ha Hb.
  assert (Ea : a = 0 \/ a = 1 \/ a = 2 \/ a = 3 \/ a = 4 \/ a = 5 \/ a = 6
               \/ a = 7 \/ a = 8 \/ a = 9) by lia.
  assert (Eb : b = 0 \/ b = 1 \/ b = 2 \/ b = 3 \/ b = 4 \/ b = 5 \/ b = 6
               \/ b = 7 \/ b = 8 \/ b = 9) by lia.
  clear Ha Hb.
  destruct Ea as [-> | [-> | [-> | [-> | [-> | [-> | [-> | [-> | [-> | ->]]]]]]]]];
  destruct Eb as [-> | [-> | [-> | [-> | [-> | [-> | [-> | [-> | [-> | ->]]]]]]]]];
  reflexivity.
Qed.

Lemma compare_digit (a b : Z) (s t : string) :
  0 <= a <= 9 -> 0 <= b <= 9 ->
  String.compare (String (Calendar.digit_char a) s)
    (String (Calendar.digit_char b) t)
  = match a ?= b with
    | Eq => String.compare s t
    | c => c
    end.
Proof.
  intros Ha Hb. cbn [String.compare].
  rewrite (digit_char_compare a b Ha Hb).
  destruct (a ?= b); reflexivity.
Qed.

(** The digits of a number below 100, and of one below 10000. *)
Lemma two_digits (n : Z) :
  0 <= n < 100 ->
  0 <= n / 10 mod 10 <= 9 /\ 0 <= n mod 10 <= 9 /\
  n = 10 * (n / 10 mod 10) + n mod 10.
Proof. intros H. Z.div_mod_to_equations. lia. Qed.

Lemma four_digits (n : Z) :
  0 <= n < 10000 ->
  0 <= n / 1000 mod 10 <= 9 /\ 0 <= n / 100 mod 10 <= 9 /\
  0 <= n / 10 mod 10 <= 9 /\ 0 <= n mod 10 <= 9 /\
  n = 1000 * (n / 1000 mod 10) + 100 * (n / 100 mod 10)
      + 10 * (n / 10 mod 10) + n mod 10.
Proof. intros H. Z.div_mod_to_equations. lia. Qed.

Lemma compare_pad2 (m n : Z) (s t : string) :
  0 <= m < 100 -> 0 <= n < 100 ->
  String.compare (Calendar.pad2 m ++ s) (Calendar.pad2 n ++ t)
  = match m ?= n with
    | Eq => String.compare s t
    | c => c
    end.
Proof.
  intros Hm Hn. unfold Calendar.pad2. cbn [append].
  destruct (two_digits m Hm) as (Hm1 & Hm0 & Em).
  destruct (two_digits n Hn) as (Hn1 & Hn0 & En).
  rewrite !compare_digit by assumption.
  revert Hm1 Hm0 Em Hn1 Hn0 En.
  generalize (m / 10 mod 10) (m mod 10) (n / 10 mod 10) (n mod 10).
  intros a1 a0 b1 b0 Hm1 Hm0 Em Hn1 Hn0 En.
  destruct (Z.compare_spec a1 b1); destruct (Z.compare_spec a0 b0);
    destruct (Z.compare_spec m n); try reflexivity; exfalso; lia.
Qed.

Lemma compare_pad4 (m n : Z) (s t : string) :
  0 <= m < 10000 -> 0 <= n < 10000 ->
  String.compare (Calendar.pad4 m ++ s) (Calendar.pad4 n ++ t)
  = match m ?= n with
    | Eq => String.compare s t
    | c => c
    end.
Proof.
  intros Hm Hn. unfold Calendar.pad4, Calendar.pad2. cbn [append].
  destruct (four_digits m Hm) as (Hm3 & Hm2 & Hm1 & Hm0 & Em).
  destruct (four_digits n Hn) as (Hn3 & Hn2 & Hn1 & Hn0 & En).
  rewrite !compare_digit by assumption.
  revert Hm3 Hm2 Hm1 Hm0 Em Hn3 Hn2 Hn1 Hn0 En.
  generalize (m / 1000 mod 10) (m / 100 mod 10) (m / 10 mod 10) (m mod 10)
             (n / 1000 mod 10) (n / 100 mod 10) (n / 10 mod 10) (n mod 10).
  intros a3 a2 a1 a0 b3 b2 b1 b0 Hm3 Hm2 Hm1 Hm0 Em Hn3 Hn2 Hn1 Hn0 En.
  destruct (Z.compare_spec a3 b3); destruct (Z.compare_spec a2 b2);
    destruct (Z.compare_spec a1 b1); destruct (Z.compare_spec a0 b0);
    destruct (Z.compare_spec m n); try reflexivity; exfalso; lia.
Qed.
End WeekLabels.

(** ** The weeks of the year *)

Section WeekOrder.

Local Open Scope Z_scope.

Lemma valid_date_spec (d : date) :
  Calendar.valid_date d = true ->
  1000 <= year d <= 9999 /\ 1 <= month d <= 12 /\
  1 <= day d <= Calendar.days_in_month (year d) (month d).
Proof.
  unfold Calendar.valid_date. rewrite !andb_true_iff, !Z.leb_le. lia.
Qed.

(** Within a year, the day of the year grows with the month and the
    day. *)
Lemma yday_monotone (a b : date) :
  Calendar.valid_date a = true -> Calendar.valid_date b = true ->
  year a = year b ->
  month a < month b \/ (month a = month b /\ day a <= day b) ->
  Calendar.yday a <= Calendar.yday b.
Proof.
  intros Va Vb Hy H.
  apply valid_date_spec in Va, Vb.
  destruct Va as (_ & Hma & Hda), Vb as (_ & Hmb & Hdb).
  unfold Calendar.yday. rewrite <- Hy in *. clear Hy.
  revert Hma Hda Hmb Hdb H.
  generalize (year a) (month a) (day a) (month b) (day b).
  intros y ma da mb db Hma Hda Hmb Hdb H.
  unfold Calendar.days_in_month, Calendar.days_before_month in *.
  destruct (Calendar.is_leap y).
  all: assert (Ea : ma = 1 \/ ma = 2 \/ ma = 3 \/ ma = 4 \/ ma = 5 \/ ma = 6
               \/ ma = 7 \/ ma = 8 \/ ma = 9 \/ ma = 10 \/ ma = 11 \/ ma = 12)
    by lia.
  all: assert (Eb : mb = 1 \/ mb = 2 \/ mb = 3 \/ mb = 4 \/ mb = 5 \/ mb = 6
               \/ mb = 7 \/ mb = 8 \/ mb = 9 \/ mb = 10 \/ mb = 11 \/ mb = 12)
    by lia.
  all: clear Hma Hmb.
  all: destruct Ea as [-> | [-> | [-> | [-> | [-> | [-> | [-> | [-> | [-> | [-> | [-> | ->]]]]]]]]]]];
    destruct Eb as [-> | [-> | [-> | [-> | [-> | [-> | [-> | [-> | [-> | [-> | [-> | ->]]]]]]]]]]];
    lia.
Qed.

Lemma yday_range (d : date) :
  Calendar.valid_date d = true -> 0 <= Calendar.yday d <= 365.
Proof.
  intros V. apply valid_date_spec in V. destruct V as (_ & Hm & Hd).
  unfold Calendar.yday. revert Hm Hd.
  generalize (year d) (month d) (day d). intros y m dd Hm Hd.
  unfold Calendar.days_in_month, Calendar.days_before_month in *.
  destruct (Calendar.is_leap y).
  all: assert (E : m = 1 \/ m = 2 \/ m = 3 \/ m = 4 \/ m = 5 \/ m = 6
               \/ m = 7 \/ m = 8 \/ m = 9 \/ m = 10 \/ m = 11 \/ m = 12)
    by lia.
  all: clear Hm.
  all: destruct E as [-> | [-> | [-> | [-> | [-> | [-> | [-> | [-> | [-> | [-> | [-> | ->]]]]]]]]]]]; lia.
Qed.

(** The week of the year in terms of the day of the year. *)
Lemma week_U_yday (d : date) :
  Calendar.week_U d
  = (Calendar.yday d + 7
     - (Calendar.days_before_year (year d) + 1 + Calendar.yday d) mod 7) / 7.
Proof.
  unfold Calendar.week_U, Calendar.wday, Calendar.toordinal, Calendar.yday.
  replace (Calendar.days_before_year (year d)
           + Calendar.days_before_month (year d) (month d) + day d)
    with (Calendar.days_before_year (year d) + 1
          + (Calendar.days_before_month (year d) (month d) + day d - 1))
    by lia.
  reflexivity.
Qed.

Lemma week_U_range (d : date) :
  Calendar.valid_date d = true -> 0 <= Calendar.week_U d < 100.
Proof.
  intros V. rewrite week_U_yday. pose proof (yday_range d V) as H.
  revert H. generalize (Calendar.yday d) (Calendar.days_before_year (year d)).
  intros yd c H. Z.div_mod_to_equations. lia.
Qed.

Lemma week_U_monotone (a b : date) :
  year a = year b -> Calendar.yday a <= Calendar.yday b ->
  Calendar.week_U a <= Calendar.week_U b.
Proof.
  intros Hy H. rewrite !week_U_yday, Hy. revert H.
  generalize (Calendar.yday a) (Calendar.yday b)
             (Calendar.days_before_year (year b)).
  intros ya yb c H. Z.div_mod_to_equations. lia.
Qed.

End WeekOrder.

Section WeekLabelOrder.

Local Open Scope Z_scope.

Lemma compare_week_labels (a b : date) :
  Calendar.valid_date a = true -> Calendar.valid_date b = true ->
  String.compare (Calendar.strftime_Y_W_U a) (Calendar.strftime_Y_W_U b)
  = match year a ?= year b with
    | Eq => Calendar.week_U a ?= Calendar.week_U b
    | c => c
    end.
Proof.
  intros Va Vb. unfold Calendar.strftime_Y_W_U.
  pose proof (valid_date_spec a Va) as (Hya & _).
  pose proof (valid_date_spec b Vb) as (Hyb & _).
  rewrite compare_pad4 by lia.
  destruct (year a ?= year b); try reflexivity.
  rewrite <- (append_nil_r (Calendar.pad2 (Calendar.week_U a))).
  rewrite <- (append_nil_r (Calendar.pad2 (Calendar.week_U b))).
  change (String.compare ("-W" ++ Calendar.pad2 (Calendar.week_U a) ++ "")
            ("-W" ++ Calendar.pad2 (Calendar.week_U b) ++ ""))
    with (String.compare (Calendar.pad2 (Calendar.week_U a) ++ "")
            (Calendar.pad2 (Calendar.week_U b) ++ "")).
  rewrite compare_pad2 by (now apply week_U_range).
  destruct (Calendar.week_U a ?= Calendar.week_U b); reflexivity.
Qed.

(** The labels of the weeks follow the dates: a date that is not later
    has a label that is not greater. *)
Lemma week_label_monotone (a b : date) :
  Calendar.valid_date a = true -> Calendar.valid_date b = true ->
  Calendar.leb a b = true ->
  String.leb (Calendar.strftime_Y_W_U a) (Calendar.strftime_Y_W_U b) = true.
Proof.
  intros Va Vb H. unfold String.leb. rewrite compare_week_labels by assumption.
  apply calendar_leb_spec in H.
  destruct (Z.compare_spec (year a) (year b)) as [Hy | Hy | Hy];
    try reflexivity; try lia.
  assert (Hw : Calendar.week_U a <= Calendar.week_U b).
  { apply week_U_monotone; [exact Hy |].
    apply yday_monotone; try assumption. lia. }
  destruct (Z.compare_spec (Calendar.week_U a) (Calendar.week_U b));
    try reflexivity; lia.
Qed.

End WeekLabelOrder.

Section StringOrder.

Lemma string_leb_trans (a b c : string) :
  String.leb a b = true -> String.leb b c = true -> String.leb a c = true.
Proof.
  unfold String.leb. intros H1 H2.
  destruct (String.compare a b) eqn:E1; try discriminate;
    destruct (String.compare b c) eqn:E2; try discriminate.
  - apply String.compare_eq_iff in E1, E2. subst.
    now rewrite key_compare_refl.
  - apply String.compare_eq_iff in E1. subst. now rewrite E2.
  - apply String.compare_eq_iff in E2. subst. now rewrite E1.
  - now rewrite (key_lt_trans _ _ _ E1 E2).
Qed.

Lemma string_leb_lt_or_eq (a b : string) :
  String.leb a b = true -> a = b \/ key_lt a b.
Proof.
  unfold String.leb, key_lt. destruct (String.compare a b) eqn:E;
    try discriminate; intros _.
  - left. now apply String.compare_eq_iff.
  - now right.
Qed.

Lemma key_lt_not_leb (a b : string) : key_lt a b -> String.leb b a = false.
Proof.
  unfold key_lt, String.leb. intros H.
  rewrite String.compare_antisym, H. reflexivity.
Qed.

End StringOrder.

Section SeriesMin.

Lemma ts_min_some (a : Timestamp) (d : date) :
  exists m, Pandas.ts_min a (Some d) = Some m /\ (Some m = a \/ m = d).
Proof.
  destruct a as [x|]; simpl.
  - destruct (Calendar.leb x d); eauto.
  - eauto.
Qed.

Lemma fold_ts_min_some (col : list Timestamp) (d : date) :
  Forall (fun t => t <> None) col ->
  exists m, fold_left Pandas.ts_min col (Some d) = Some m /\
            (m = d \/ In (Some m) col).
Proof.
  revert d. induction col as [|t col IH]; intros d H; simpl.
  - eauto.
  - inversion H as [|? ? Ht Hcol]; subst.
    destruct t as [x|]; [| congruence]. simpl.
    destruct (Calendar.leb d x).
    + destruct (IH d Hcol) as (m & -> & [-> | Hin]); eauto.
    + destruct (IH x Hcol) as (m & -> & [-> | Hin]); eauto.
Qed.

(** The minimum of a column of dates that has a row and no missing date
    is one of its dates. *)
Lemma series_min_in (col : list Timestamp) :
  col <> [] -> Forall (fun t => t <> None) col ->
  exists m, Pandas.series_min col = Some m /\ In (Some m) col.
Proof.
  unfold Pandas.series_min. destruct col as [|t col]; [congruence |].
  intros _ H. inversion H as [|? ? Ht Hcol]; subst.
  destruct t as [d|]; [| congruence]. simpl.
  destruct (fold_ts_min_some col d Hcol) as (m & -> & [-> | Hin]); eauto.
Qed.

End SeriesMin.

(** ** Aggregation by week *)

Lemma StronglySorted_map_keys {A B K : Type} (le : K -> K -> bool)
  (by_ : A -> K) (f : A -> B) (R : B -> B -> Prop) (l : list A) :
  (forall p q, In p l -> In q l -> le (by_ p) (by_ q) = true -> R (f p) (f q)) ->
  StronglySorted (key_le le by_) l -> StronglySorted R (map f l).
Proof.
  intros H Hs. induction Hs as [|p l Hs IH Hall]; simpl; constructor.
  - apply IH. intros x y Hx Hy. apply H; now right.
  - rewrite Forall_map. rewrite Forall_forall in *. intros q Hq.
    apply H; [now left | now right | now apply Hall].
Qed.

Section WeekBuckets.

Variable df : list CampaignRow.
Hypothesis dated : Forall dated_as_loaded df.

Lemma week_bucket_min (k : string) :
  In (Some k) (map Week df) ->
  exists d, bucket_min df Week k = Some d /\
            Calendar.valid_date d = true /\
            Calendar.strftime_Y_W_U d = k.
Proof.
  intros Hk. unfold bucket_min.
  set (rows := filter (Pandas.has_key Week k) df).
  assert (Hrows : forall r, In r rows ->
            exists d, Date r = Some d /\ Calendar.valid_date d = true /\
                      Calendar.strftime_Y_W_U d = k).
  { intros r Hr. apply filter_In in Hr. destruct Hr as [Hin Hkey].
    rewrite Forall_forall in dated. specialize (dated r Hin).
    unfold Pandas.has_key in Hkey. unfold dated_as_loaded in dated.
    destruct (Week r) as [k'|] eqn:Ew; [| discriminate].
    apply String.eqb_eq in Hkey. subst k'.
    destruct (Date r) as [d|].
    - destruct dated as (V & W & _). exists d. injection W as W. auto.
    - destruct dated as [W _]. discriminate. }
  assert (Hne : map Date rows <> []).
  { apply in_map_iff in Hk. destruct Hk as (r & Hr & Hin).
    assert (In r rows).
    { apply filter_In. split; [exact Hin |]. unfold Pandas.has_key.
      rewrite Hr. apply String.eqb_refl. }
    destruct rows; [contradiction | discriminate]. }
  assert (Hsome : Forall (fun t => t <> None) (map Date rows)).
  { rewrite Forall_map. apply Forall_forall. intros r Hr.
    destruct (Hrows r Hr) as (d & -> & _). discriminate. }
  destruct (series_min_in _ Hne Hsome) as (m & Hm & Hin).
  exists m. split; [exact Hm |].
  apply in_map_iff in Hin. destruct Hin as (r & Hr & Hin).
  destruct (Hrows r Hin) as (d & Hd & V & L).
  rewrite Hr in Hd. injection Hd as <-. auto.
Qed.

Lemma week_buckets_ordered (a b : string) :
  In (Some a) (map Week df) -> In (Some b) (map Week df) ->
  String.leb a b = true -> not_later df Week a b.
Proof.
  intros Ha Hb Hle. unfold not_later.
  destruct (string_leb_lt_or_eq a b Hle) as [-> | Hlt].
  - apply na_last_le_refl, calendar_leb_total.
  - destruct (week_bucket_min a Ha) as (da & -> & Va & La).
    destruct (week_bucket_min b Hb) as (db & -> & Vb & Lb).
    simpl. destruct (calendar_leb_total da db) as [H | H]; [exact H |].
    pose proof (week_label_monotone db da Vb Va H) as Hm.
    rewrite La, Lb in Hm. rewrite (key_lt_not_leb a b Hlt) in Hm.
    discriminate.
Qed.

Lemma weekly_labels_perm :
  Permutation (map fst (aggregate_by_week df))
    (Pandas.group_keys (map Week df)).
Proof.
  unfold aggregate_by_week. eapply Permutation_trans.
  - apply Permutation_map, sort_values_perm.
  - unfold apply_calc_metrics, Pandas.groupby. rewrite !map_map. simpl.
    rewrite map_id. apply Permutation_refl.
Qed.

Lemma weekly_labels_sorted :
  StronglySorted (not_later df Week) (map fst (aggregate_by_week df)).
Proof.
  assert (Hkeys : forall p, In p (aggregate_by_week df) ->
                            In (Some (fst p)) (map Week df)).
  { intros p Hp. apply group_keys_In.
    apply (Permutation_in _ weekly_labels_perm). now apply in_map. }
  unfold aggregate_by_week in *.
  apply (StronglySorted_map_keys PyStr.le fst).
  - intros p q Hp Hq Hle. apply week_buckets_ordered; auto.
  - apply sort_values_sorted.
    + exact String.leb_total.
    + exact string_leb_trans.
Qed.

End WeekBuckets.

Lemma monthly_labels_perm (df : list CampaignRow) :
  Permutation (map mo_Month_Label (aggregate_by_month df None))
    (Pandas.group_keys (map Month_Label df)).
Proof.
  unfold aggregate_by_month. rewrite map_map. simpl.
  eapply Permutation_trans.
  - apply Permutation_map, sort_values_perm.
  - unfold apply_calc_metrics, Pandas.groupby. rewrite !map_map. simpl.
    rewrite map_id. apply Permutation_refl.
Qed.

Lemma monthly_labels_joined (df : list CampaignRow)
  (business_df : option (list BusinessRow)) :
  map mo_Month_Label (aggregate_by_month df business_df)
  = map mo_Month_Label (aggregate_by_month df None).
Proof.
  destruct business_df as [biz|]; [| reflexivity].
  rewrite aggregate_by_month_joined, map_map. reflexivity.
Qed.

(** The rows that the loader returns are dated as the loader sets them. *)
Lemma load_campaign_data_dated (py_float : string -> option float)
  (parse_datetime : string -> option date) (csv : list CampaignCsvRow)
  (df : list CampaignRow) :
  (forall s d, parse_datetime s = Some d -> Calendar.valid_date d = true) ->
  load_campaign_data py_float parse_datetime csv = Some df ->
  Forall dated_as_loaded df.
Proof.
  intros Hvalid. unfold load_campaign_data.
  pose proof (to_datetime_spec parse_datetime (map csv_Date csv)) as H.
  destruct (to_datetime parse_datetime (map csv_Date csv)) as [dates|];
    [| discriminate].
  intros E. injection E as <-. rewrite Forall_map.
  revert dates H. induction csv as [|r csv IH]; intros dates H; simpl.
  - constructor.
  - inversion H as [|c d col ds Hd Hrest]; subst. simpl. constructor.
    + unfold dated_as_loaded. simpl. destruct d as [d|]; simpl; [| auto].
      split; [| auto]. unfold read_date in Hd.
      destruct (csv_Date r) as [s|]; [| discriminate].
      destruct (parse_datetime s) as [d'|] eqn:Es; [| discriminate].
      simpl in Hd. injection Hd as <-. eapply Hvalid; eauto.
    + apply IH. exact Hrest.
Qed.

(** C7.  For every frame, with a business frame or without, the rows of
    the aggregation by month are the months of the frame, each once, in
    the order of their earliest dates (each month is not later than the
    months after it), whatever the order of their labels as text.  For
    every frame whose rows are dated as the loader dates them, the rows
    of the aggregation by week are the weeks of the frame, each once, in
    the order of their earliest dates. *)
Theorem time_buckets_chronological (df : list CampaignRow)
  (business_df : option (list BusinessRow)) :
  (StronglySorted (not_later df Month_Label)
     (map mo_Month_Label (aggregate_by_month df business_df)) /\
   Permutation (map mo_Month_Label (aggregate_by_month df business_df))
     (Pandas.group_keys (map Month_Label df))) /\
  (Forall dated_as_loaded df ->
   StronglySorted (not_later df Week) (map fst (aggregate_by_week df)) /\
   Permutation (map fst (aggregate_by_week df))
     (Pandas.group_keys (map Week df))).
Proof.
  split.
  - rewrite monthly_labels_joined. split.
    + apply monthly_labels_sorted.
    + apply monthly_labels_perm.
  - intros dated. split.
    + now apply weekly_labels_sorted.
    + apply weekly_labels_perm.
Qed.

(** C7 on the sample: the campaigns are dated December 2024, January
    2025 and November 2024; the months come out as November, December,
    January, and the weeks in the same order. *)
Lemma time_buckets_chronological_sample :
  Forall dated_as_loaded Sample.three_months /\
  map mo_Month_Label (aggregate_by_month Sample.three_months None)
  = ["Nov 2024"; "Dec 2024"; "Jan 2025"]%string /\
  map fst (aggregate_by_week Sample.three_months)
  = ["2024-W44"; "2024-W48"; "2025-W01"]%string /\
  StronglySorted (not_later Sample.three_months Month_Label)
    ["Nov 2024"; "Dec 2024"; "Jan 2025"]%string /\
  StronglySorted (not_later Sample.three_months Week)
    ["2024-W44"; "2024-W48"; "2025-W01"]%string.
Proof.
  assert (D : Forall dated_as_loaded Sample.three_months).
  { repeat constructor. }
  destruct (time_buckets_chronological Sample.three_months None)
    as [[Hm _] Hw].
  destruct (Hw D) as [Hw' _].
  split; [exact D |]. split; [vm_compute; reflexivity |].
  split; [vm_compute; reflexivity |].
  split; [exact Hm | exact Hw'].
Defined.

(** ** Signs of quotients *)

Section Rounding.

Local Open Scope Z_scope.

Lemma iter_pos_invariant {A : Type} (P : A -> Prop) (f : A -> A) :
  (forall x, P x -> P (f x)) ->
  forall (p : positive) (x : A), P x -> P (iter_pos f p x).
Proof.
  intros Hf. induction p as [p IH | p IH |]; intros x Hx; simpl; auto.
Qed.

Lemma shr_1_nonneg (mrs : shr_record) :
  0 <= shr_m mrs -> 0 <= shr_m (shr_1 mrs).
Proof.
  destruct mrs as [m r s]. simpl. intros H.
  destruct m as [|[p|p|]|p]; simpl; lia.
Qed.

Lemma shr_fexp_nonneg (m e : Z) (l : location) :
  0 <= m -> 0 <= shr_m (fst (shr_fexp prec emax m e l)).
Proof.
  intros H. unfold shr_fexp, shr.
  assert (H0 : 0 <= shr_m (shr_record_of_loc m l)).
  { destruct l as [|[| |]]; simpl; exact H. }
  destruct (fexp prec emax (Zdigits2 m + e) - e) as [|p|p]; simpl;
    try exact H0.
  apply (iter_pos_invariant (fun mrs => 0 <= shr_m mrs)); [| exact H0].
  exact shr_1_nonneg.
Qed.

Lemma round_nearest_even_nonneg (m : Z) (l : location) :
  0 <= m -> 0 <= round_nearest_even m l.
Proof.
  intros H. unfold round_nearest_even.
  destruct l as [|[| |]]; try lia. destruct (Z.even m); lia.
Qed.

(** Rounding a mantissa that is not negative gives a number of the sign
    asked for: a zero, a finite float or an infinity, and never NaN. *)
Lemma binary_round_aux_signed (sx : bool) (mx ex : Z) (lx : location) :
  0 <= mx -> SF_signed sx (binary_round_aux prec emax sx mx ex lx).
Proof.
  intros H. unfold binary_round_aux.
  pose proof (shr_fexp_nonneg mx ex lx H) as H1.
  destruct (shr_fexp prec emax mx ex lx) as [mrs' e']. simpl in H1.
  pose proof (shr_fexp_nonneg _ e' loc_Exact
                (round_nearest_even_nonneg _ (loc_of_shr_record mrs') H1))
    as H2.
  destruct (shr_fexp prec emax
              (round_nearest_even (shr_m mrs') (loc_of_shr_record mrs'))
              e' loc_Exact) as [mrs'' e'']. simpl in H2.
  unfold SF_signed. destruct (shr_m mrs'') as [|m|m].
  - reflexivity.
  - destruct (Z.leb e'' (Z.sub emax prec)); reflexivity.
  - lia.
Qed.

End Rounding.

Section Signs.

Local Open Scope Z_scope.

Lemma div_core_nonneg (m1 m2 : positive) (e1 e2 : Z) :
  0 <= fst (fst (SFdiv_core_binary prec emax (Zpos m1) e1 (Zpos m2) e2)).
Proof.
  unfold SFdiv_core_binary.
  set (s := Z.sub (Z.sub e1 e2) _).
  set (m' := match s with
             | Zpos _ => Z.shiftl (Zpos m1) s
             | Z0 => Zpos m1
             | Zneg _ => Z0
             end).
  assert (Hm : 0 <= m').
  { unfold m'. destruct s; try lia. apply Z.shiftl_nonneg. lia. }
  pose proof (Z.div_pos m' (Zpos m2) Hm ltac:(lia)) as Hq.
  unfold Z.div in Hq. destruct (Z.div_eucl m' (Zpos m2)) as [q r].
  simpl in *. exact Hq.
Qed.

(** A number that is not infinite, divided by a float greater than 0. *)
Lemma SFdiv_keeps_sign (x y : spec_float) :
  SFltb (S754_zero false) y = true ->
  match x with S754_infinity _ => False | _ => True end ->
  keeps_sign x (SFdiv prec emax x y).
Proof.
  intros Hy Hx.
  destruct x as [sx|sx| |sx mx ex]; try exact I; try contradiction;
    destruct y as [sy|[|]| |[|] my ey]; try discriminate; simpl;
    rewrite ?xorb_false_r; try reflexivity.
  pose proof (div_core_nonneg mx my ex ey) as H.
  destruct (SFdiv_core_binary prec emax (Zpos mx) ex (Zpos my) ey)
    as [[mz ez] lz].
  simpl in H. now apply binary_round_aux_signed.
Qed.

(** A number multiplied by a finite float greater than 0. *)
Lemma SFmul_keeps_sign (x : spec_float) (m : positive) (e : Z) :
  keeps_sign x (SFmul prec emax x (S754_finite false m e)).
Proof.
  destruct x as [sx|sx| |sx mx ex]; simpl; try exact I;
    rewrite ?xorb_false_r; try reflexivity.
  apply binary_round_aux_signed. lia.
Qed.

Lemma keeps_sign_trans (x r r' : spec_float) :
  keeps_sign x r -> keeps_sign r r' -> x <> S754_nan -> keeps_sign x r'.
Proof.
  assert (S : forall s, SF_signed s r -> keeps_sign r r' -> SF_signed s r').
  { intros s H1 H2. destruct r as [t|t| |t m e]; simpl in *;
      try contradiction; subst t; [rewrite H2; reflexivity | exact H2 ..]. }
  destruct x as [sx|sx| |sx mx ex]; simpl; intros H1 H2 Hx.
  - subst r. exact H2.
  - now apply S.
  - congruence.
  - now apply S.
Qed.

Lemma keeps_sign_not_nan (x r : spec_float) :
  keeps_sign x r -> x <> S754_nan -> r <> S754_nan.
Proof.
  destruct x as [sx|sx| |sx mx ex]; simpl; intros H Hx; try congruence;
    destruct r; simpl in *; try contradiction; congruence.
Qed.

Lemma keeps_sign_not_negative (x r : spec_float) :
  keeps_sign x r -> x <> S754_nan ->
  SFltb x (S754_zero false) = false -> SFltb r (S754_zero false) = false.
Proof.
  destruct x as [sx|[|]| |[|] mx ex]; simpl; intros H Hx Hn;
    try congruence; try discriminate; try (subst r; reflexivity);
    destruct r as [s|s| |s m e]; simpl in *; try contradiction; subst;
    reflexivity.
Qed.

End Signs.

Section Ratios.

Local Open Scope float_scope.

Lemma is_finite_Prim2SF (x : float) :
  is_finite x = true ->
  match Prim2SF x with
  | S754_zero _ | S754_finite _ _ _ => True
  | _ => False
  end.
Proof.
  unfold is_finite, is_infinity.
  rewrite is_nan_Prim2SF, FloatAxioms.eqb_spec, FloatAxioms.abs_spec.
  change (Prim2SF infinity) with (S754_infinity false).
  destruct (Prim2SF x) as [s|s| |s m e]; simpl; intros H;
    try exact I; discriminate.
Qed.

(** The quotient of a finite float by a float greater than 0, and the
    quotient as a percentage: each is a number, and is not negative when
    the numerator is not. *)
Lemma ratio_is_number (x y : float) :
  is_finite x = true -> PyFloat.gt y 0 = true ->
  (PyFloat.isna (x / y) = false /\
   PyFloat.isna (x / y * 100) = false) /\
  ((x <? 0) = false ->
   (x / y <? 0) = false /\ (x / y * 100 <? 0) = false).
Proof.
  intros Hx Hy. apply is_finite_Prim2SF in Hx.
  unfold PyFloat.gt, PyFloat.isna in *.
  rewrite !is_nan_Prim2SF, !FloatAxioms.ltb_spec in *.
  rewrite FloatAxioms.mul_spec, !FloatAxioms.div_spec in *.
  change (Prim2SF 0) with (S754_zero false) in *.
  change (Prim2SF 100) with (S754_finite false 7036874417766400 (-46)).
  assert (Hnn : Prim2SF x <> S754_nan)
    by (destruct (Prim2SF x); try contradiction; discriminate).
  assert (K1 : keeps_sign (Prim2SF x) (SF64div (Prim2SF x) (Prim2SF y))).
  { apply SFdiv_keeps_sign; [exact Hy |].
    destruct (Prim2SF x); try contradiction; exact I. }
  assert (K2 : keeps_sign (Prim2SF x)
                 (SF64mul (SF64div (Prim2SF x) (Prim2SF y))
                    (S754_finite false 7036874417766400 (-46)))).
  { eapply keeps_sign_trans; [exact K1 | apply SFmul_keeps_sign | exact Hnn]. }
  pose proof (keeps_sign_not_nan _ _ K1 Hnn) as N1.
  pose proof (keeps_sign_not_nan _ _ K2 Hnn) as N2.
  split; [split |].
  - destruct (SF64div (Prim2SF x) (Prim2SF y)); congruence.
  - destruct (SF64mul _ _); congruence.
  - intros Hneg. split.
    + exact (keeps_sign_not_negative _ _ K1 Hnn Hneg).
    + exact (keeps_sign_not_negative _ _ K2 Hnn Hneg).
Qed.

End Ratios.

Section GuardedRatios.

Local Open Scope float_scope.

(** A ratio guarded as [calc_metrics] guards it, of a finite numerator:
    a number, and not negative when the numerator is not. *)
Lemma guarded_ratio_is_number (x y : float) :
  is_finite x = true ->
  (PyFloat.isna (if PyFloat.gt y 0 then x / y else 0) = false /\
   PyFloat.isna (if PyFloat.gt y 0 then x / y * 100 else 0) = false) /\
  ((x <? 0) = false ->
   ((if PyFloat.gt y 0 then x / y else 0) <? 0) = false /\
   ((if PyFloat.gt y 0 then x / y * 100 else 0) <? 0) = false).
Proof.
  intros Hx. destruct (PyFloat.gt y 0) eqn:Hy.
  - now apply ratio_is_number.
  - repeat split.
Qed.

End GuardedRatios.

(** X1.  For every frame whose sums of spend, sales, orders and clicks
    are finite, none of the five ratios that [calc_metrics] returns is
    NaN; and when those sums are not negative, no ratio is negative. *)
Theorem calc_metrics_ratios_are_numbers (df : list CampaignRow) :
  let m := calc_metrics df in
  is_finite (m_Spend m) = true -> is_finite (m_Sales m) = true ->
  is_finite (m_Orders m) = true -> is_finite (m_Clicks m) = true ->
  (PyFloat.isna (m_ROAS m) = false /\ PyFloat.isna (m_ACoS m) = false /\
   PyFloat.isna (m_CVR m) = false /\ PyFloat.isna (m_CPC m) = false /\
   PyFloat.isna (m_CTR m) = false) /\
  ((m_Spend m <? 0)%float = false -> (m_Sales m <? 0)%float = false ->
   (m_Orders m <? 0)%float = false -> (m_Clicks m <? 0)%float = false ->
   (m_ROAS m <? 0)%float = false /\ (m_ACoS m <? 0)%float = false /\
   (m_CVR m <? 0)%float = false /\ (m_CPC m <? 0)%float = false /\
   (m_CTR m <? 0)%float = false).
Proof.
  cbv zeta. unfold calc_metrics.
  cbn [m_Spend m_Sales m_Orders m_Clicks m_Impressions m_ROAS m_ACoS m_CVR
       m_CPC m_CTR].
  set (spend := Pandas.series_sum (map Spend df)).
  set (sales := Pandas.series_sum (map Sales df)).
  set (orders := Pandas.series_sum (map Orders df)).
  set (clicks := Pandas.series_sum (map Clicks df)).
  set (impressions := Pandas.series_sum (map Impressions df)).
  intros Fspend Fsales Forders Fclicks.
  destruct (guarded_ratio_is_number sales spend Fsales) as [[R1 _] R1'].
  destruct (guarded_ratio_is_number spend sales Fspend) as [[_ R2] R2'].
  destruct (guarded_ratio_is_number orders clicks Forders) as [[_ R3] R3'].
  destruct (guarded_ratio_is_number spend clicks Fspend) as [[R4 _] R4'].
  destruct (guarded_ratio_is_number clicks impressions Fclicks)
    as [[_ R5] R5'].
  split; [repeat split; assumption |].
  intros Nspend Nsales Norders Nclicks.
  repeat split;
    [apply R1' | apply R2' | apply R3' | apply R4' | apply R5']; assumption.
Qed.

(** X1 on the three months of the sample: the sums are finite and not
    negative, and the five ratios are numbers that are not negative. *)
Lemma calc_metrics_ratios_are_numbers_sample :
  let m := calc_metrics Sample.three_months in
  (is_finite (m_Spend m) = true /\ is_finite (m_Sales m) = true /\
   is_finite (m_Orders m) = true /\ is_finite (m_Clicks m) = true) /\
  (PyFloat.isna (m_ROAS m) = false /\ PyFloat.isna (m_ACoS m) = false /\
   PyFloat.isna (m_CVR m) = false /\ PyFloat.isna (m_CPC m) = false /\
   PyFloat.isna (m_CTR m) = false) /\
  ((m_ROAS m <? 0)%float = false /\ (m_ACoS m <? 0)%float = false /\
   (m_CVR m <? 0)%float = false /\ (m_CPC m <? 0)%float = false /\
   (m_CTR m <? 0)%float = false).
Proof.
  cbv zeta.
  assert (F1 : is_finite (m_Spend (calc_metrics Sample.three_months)) = true)
    by (vm_compute; reflexivity).
  assert (F2 : is_finite (m_Sales (calc_metrics Sample.three_months)) = true)
    by (vm_compute; reflexivity).
  assert (F3 : is_finite (m_Orders (calc_metrics Sample.three_months)) = true)
    by (vm_compute; reflexivity).
  assert (F4 : is_finite (m_Clicks (calc_metrics Sample.three_months)) = true)
    by (vm_compute; reflexivity).
  destruct (calc_metrics_ratios_are_numbers Sample.three_months F1 F2 F3 F4)
    as [Hnum Hsign].
  split; [auto |]. split; [exact Hnum |].
  apply Hsign; vm_compute; reflexivity.
Defined.

(** X2.  The overall TACOS of the summary sheet is 0 when there is no
    business frame and when the total sales of the business frame are not
    greater than 0; with a finite spend it is never NaN, and it is not
    negative when the spend is not. *)
Theorem summary_tacos_guarded (campaign_df : list CampaignRow) :
  summary_tacos campaign_df None = 0%float /\
  (forall business_df : list BusinessRow,
     PyFloat.gt (Pandas.series_sum (map biz_Total_Sales business_df)) 0
     = false ->
     summary_tacos campaign_df (Some business_df) = 0%float) /\
  (forall business_df : option (list BusinessRow),
     is_finite (m_Spend (calc_metrics campaign_df)) = true ->
     PyFloat.isna (summary_tacos campaign_df business_df) = false /\
     ((m_Spend (calc_metrics campaign_df) <? 0)%float = false ->
      (summary_tacos campaign_df business_df <? 0)%float = false)).
Proof.
  split; [reflexivity |]. split.
  - intros business_df H. unfold summary_tacos. rewrite H. reflexivity.
  - intros business_df F. unfold summary_tacos.
    destruct (guarded_ratio_is_number
                (m_Spend (calc_metrics campaign_df))
                (match business_df with
                 | Some b => Pandas.series_sum (map biz_Total_Sales b)
                 | None => 0%float
                 end) F) as [[_ N] S].
    split; [exact N |]. intros Hs. now apply S.
Qed.

(** X2 on the sample: the spend is finite and not negative, and the
    overall TACOS is the number 43. *)
Lemma summary_tacos_guarded_sample :
  is_finite (m_Spend (calc_metrics Sample.three_months)) = true /\
  summary_tacos Sample.three_months (Some Sample.two_months_of_business)
  = 43%float /\
  PyFloat.isna
    (summary_tacos Sample.three_months (Some Sample.two_months_of_business))
  = false.
Proof.
  assert (F : is_finite (m_Spend (calc_metrics Sample.three_months)) = true)
    by (vm_compute; reflexivity).
  destruct (summary_tacos_guarded Sample.three_months) as (_ & _ & H).
  destruct (H (Some Sample.two_months_of_business) F) as [N _].
  split; [exact F |]. split; [vm_compute; reflexivity | exact N].
Defined.

(** ** Differences and changes *)

Section Differences.

Local Open Scope Z_scope.

Lemma binary_normalize_not_nan (m e : Z) :
  binary_normalize prec emax m e false <> S754_nan.
Proof.
  unfold binary_normalize, binary_round.
  destruct m as [|p|p]; [discriminate | |];
    destruct (shl_align p e _) as [mz ez];
    match goal with
    | |- binary_round_aux _ _ ?s ?mx ?ex ?lx <> _ =>
        pose proof (binary_round_aux_signed s mx ex lx ltac:(lia)) as H;
        destruct (binary_round_aux prec emax s mx ex lx);
        simpl in H; try contradiction; discriminate
    end.
Qed.

(** The difference of two finite floats is a number. *)
Lemma SFsub_finite_not_nan (x y : spec_float) :
  match x with S754_zero _ | S754_finite _ _ _ => True | _ => False end ->
  match y with S754_zero _ | S754_finite _ _ _ => True | _ => False end ->
  SFsub prec emax x y <> S754_nan.
Proof.
  destruct x as [sx|sx| |sx mx ex]; try contradiction;
    destruct y as [sy|sy| |sy my ey]; try contradiction; intros _ _; simpl.
  - destruct sx, sy; discriminate.
  - discriminate.
  - discriminate.
  - apply binary_normalize_not_nan.
Qed.

(** A number divided by a finite float greater than 0. *)
Lemma SFdiv_finite_keeps_sign (x : spec_float) (m : positive) (e : Z) :
  keeps_sign x (SFdiv prec emax x (S754_finite false m e)).
Proof.
  destruct x as [sx|sx| |sx mx ex]; simpl; try exact I;
    rewrite ?xorb_false_r; try reflexivity.
  pose proof (div_core_nonneg mx m ex e) as H.
  destruct (SFdiv_core_binary prec emax (Zpos mx) ex (Zpos m) e)
    as [[mz ez] lz].
  simpl in H. now apply binary_round_aux_signed.
Qed.

(** A float that is not negative, divided by a float greater than 0, is
    not negative. *)
Lemma SFdiv_not_negative (x y : spec_float) :
  SFltb x (S754_zero false) = false ->
  SFltb (S754_zero false) y = true ->
  SFltb (SFdiv prec emax x y) (S754_zero false) = false.
Proof.
  intros Hx Hy.
  destruct x as [sx|[|]| |[|] mx ex]; try discriminate;
    destruct y as [sy|[|]| |[|] my ey]; try discriminate; simpl;
    try reflexivity; try (destruct sx; reflexivity).
  pose proof (div_core_nonneg mx my ex ey) as H.
  destruct (SFdiv_core_binary prec emax (Zpos mx) ex (Zpos my) ey)
    as [[mz ez] lz].
  simpl in H.
  pose proof (binary_round_aux_signed false mz ez lz H) as S.
  destruct (binary_round_aux prec emax false mz ez lz) as [s|s| |s m' e'];
    simpl in S; try contradiction; subst; reflexivity.
Qed.

End Differences.

Section Changes.

Local Open Scope float_scope.

Lemma fillna0_not_nan (x : float) : PyFloat.isna (Pandas.fillna0 x) = false.
Proof.
  unfold Pandas.fillna0. destruct (PyFloat.isna x) eqn:E; [reflexivity | exact E].
Qed.

Lemma finite_positive_Prim2SF (y : float) :
  is_finite y = true -> PyFloat.gt y 0 = true ->
  exists m e, Prim2SF y = S754_finite false m e.
Proof.
  intros F G. apply is_finite_Prim2SF in F. unfold PyFloat.gt in G.
  rewrite FloatAxioms.ltb_spec in G.
  change (Prim2SF 0) with (S754_zero false) in G.
  destruct (Prim2SF y) as [s|s| |[|] m e]; try contradiction;
    try discriminate. eauto.
Qed.

(** The change in percent between two finite values is a number, and so
    is the cell written for it. *)
Lemma pct_change_is_number (curr prev : float) :
  is_finite curr = true -> is_finite prev = true ->
  PyFloat.isna (pct_change curr prev) = false /\
  PyFloat.isna (fst (change_cell (pct_change curr prev))) = false.
Proof.
  intros Fc Fp.
  assert (N : PyFloat.isna (pct_change curr prev) = false).
  { unfold pct_change. destruct (PyFloat.gt prev 0) eqn:G; [| reflexivity].
    destruct (finite_positive_Prim2SF prev Fp G) as (m & e & Ep).
    apply is_finite_Prim2SF in Fc, Fp.
    unfold PyFloat.isna. rewrite is_nan_Prim2SF.
    rewrite FloatAxioms.mul_spec, FloatAxioms.div_spec, FloatAxioms.sub_spec.
    change (Prim2SF 100) with (S754_finite false 7036874417766400 (-46)).
    pose proof (SFsub_finite_not_nan _ _ Fc Fp) as D.
    rewrite Ep at 2.
    set (d := SF64sub (Prim2SF curr) (Prim2SF prev)) in *.
    pose proof (SFdiv_finite_keeps_sign d m e) as K1.
    pose proof (SFmul_keeps_sign (SFdiv prec emax d (S754_finite false m e))
                  7036874417766400 (-46)) as K2.
    pose proof (keeps_sign_not_nan _ _ (keeps_sign_trans _ _ _ K1 K2 D) D) as R.
    unfold SF64mul, SF64div.
    destruct (SFmul prec emax _ _); congruence. }
  split; [exact N |].
  unfold change_cell. cbn [fst]. unfold PyFloat.isna in *.
  rewrite is_nan_Prim2SF in *. rewrite FloatAxioms.div_spec.
  change (Prim2SF 100) with (S754_finite false 7036874417766400 (-46)).
  pose proof (SFdiv_finite_keeps_sign (Prim2SF (pct_change curr prev))
                7036874417766400 (-46)) as K.
  assert (D : Prim2SF (pct_change curr prev) <> S754_nan)
    by (destruct (Prim2SF (pct_change curr prev)); congruence).
  pose proof (keeps_sign_not_nan _ _ K D) as R.
  unfold SF64div. destruct (SFdiv prec emax _ _); congruence.
Qed.

(** A float that is not negative (NaN included), divided by a float
    greater than 0. *)
Lemma div_not_negative (x y : float) :
  (x <? 0) = false -> PyFloat.gt y 0 = true -> (x / y <? 0) = false.
Proof.
  unfold PyFloat.gt. rewrite !FloatAxioms.ltb_spec, FloatAxioms.div_spec.
  change (Prim2SF 0) with (S754_zero false). apply SFdiv_not_negative.
Qed.

End Changes.

(** ** The sections of the sheets *)

Lemma combine_tl_snd {A B : Type} (f : A -> B) (l : list A) :
  map (fun pc => f (snd pc)) (combine l (tl l)) = tl (map f l).
Proof.
  destruct l as [|a l]; [reflexivity |]. simpl. revert a.
  induction l as [|b l IH]; intros a; simpl; [reflexivity |].
  f_equal. apply IH.
Qed.

Lemma combine_tl_In {A : Type} (l : list A) (p : A * A) :
  In p (combine l (tl l)) -> In (fst p) l /\ In (snd p) l.
Proof.
  destruct p as [a b]. intros H. split.
  - exact (in_combine_l _ _ _ _ H).
  - apply in_combine_r in H.
    destruct l; [contradiction | now right].
Qed.

Lemma combine_tl_nth {A : Type} (l : list A) (i : nat) (prev curr : A) :
  nth_error l i = Some prev -> nth_error l (S i) = Some curr ->
  nth_error (combine l (tl l)) i = Some (prev, curr).
Proof.
  revert i. induction l as [|a l IH]; intros i Hp Hc;
    [destruct i; discriminate |].
  destruct i as [|i].
  - simpl in Hp. injection Hp as ->. simpl in Hc.
    destruct l as [|b l]; [discriminate |]. simpl in Hc.
    injection Hc as ->. reflexivity.
  - simpl in Hp. change (nth_error l (S i) = Some curr) in Hc.
    destruct l as [|b l]; [destruct i; discriminate |].
    simpl. apply (IH i Hp Hc).
Qed.

(** X4.  The month-over-month section of the monthly sheet has one row
    for each month but the first, labelled with that month, in the order
    of the months (none for a frame of one month or of no month).  The
    row of a month compares it with the month before it in the frame:
    its three cells are the changes of the spend, the sales and the ROAS
    from that month to this one.  A change whose previous value is not
    greater than 0 is written as 0, in the positive colour.  When the
    spend, the sales and the ROAS of every month are finite, no cell of
    the section is NaN. *)
Theorem month_over_month_rows (monthly_data : list MonthlyRow) :
  map chg_Month_Label (month_over_month monthly_data)
  = tl (map mo_Month_Label monthly_data) /\
  List.length (month_over_month monthly_data)
  = Nat.pred (List.length monthly_data) /\
  (forall (i : nat) (prev curr : MonthlyRow),
     nth_error monthly_data i = Some prev ->
     nth_error monthly_data (S i) = Some curr ->
     nth_error (month_over_month monthly_data) i
     = Some
         {| chg_Month_Label := mo_Month_Label curr;
            chg_spend :=
              change_cell
                (pct_change (m_Spend (mo_metrics curr))
                   (m_Spend (mo_metrics prev)));
            chg_sales :=
              change_cell
                (pct_change (m_Sales (mo_metrics curr))
                   (m_Sales (mo_metrics prev)));
            chg_roas :=
              change_cell
                (pct_change (m_ROAS (mo_metrics curr))
                   (m_ROAS (mo_metrics prev))) |}) /\
  (forall curr prev : float,
     (PyFloat.gt prev 0 = true ->
      change_cell (pct_change curr prev)
      = (((curr - prev) / prev * 100 / 100)%float,
         if PyFloat.ge ((curr - prev) / prev * 100)%float 0
         then positive_colour else negative_colour)) /\
     (PyFloat.gt prev 0 = false ->
      change_cell (pct_change curr prev) = (0%float, positive_colour))) /\
  (Forall finite_month monthly_data ->
   Forall number_changes (month_over_month monthly_data)).
Proof.
  unfold month_over_month. split; [| split; [| split; [| split]]].
  - rewrite map_map. simpl.
    apply (combine_tl_snd mo_Month_Label).
  - rewrite length_map, length_combine.
    destruct monthly_data as [|a l]; [reflexivity |].
    cbn [tl List.length Nat.pred]. lia.
  - intros i prev curr Hp Hc.
    rewrite nth_error_map, (combine_tl_nth _ _ _ _ Hp Hc). reflexivity.
  - intros curr prev. unfold pct_change, change_cell. split; intros H;
      rewrite H; reflexivity.
  - intros F. rewrite Forall_map. apply Forall_forall. intros pc Hpc.
    apply combine_tl_In in Hpc. destruct Hpc as [Hp Hc].
    rewrite Forall_forall in F.
    destruct (F _ Hp) as (P1 & P2 & P3), (F _ Hc) as (C1 & C2 & C3).
    unfold number_changes. cbn [chg_spend chg_sales chg_roas].
    repeat split; now apply pct_change_is_number.
Qed.

(** X4 on the sample: the three months have finite figures and spends
    of 8, 5 and 30; the changes are those of December, whose spend is
    lower than that of November (negative colour), and of January, whose
    spend is higher than that of December (positive colour), and none of
    their cells is NaN. *)
Lemma month_over_month_rows_sample :
  Forall finite_month (aggregate_by_month Sample.three_months None) /\
  map (fun row => (mo_Month_Label row, m_Spend (mo_metrics row)))
    (aggregate_by_month Sample.three_months None)
  = [("Nov 2024"%string, 8%float); ("Dec 2024"%string, 5%float);
     ("Jan 2025"%string, 30%float)] /\
  map (fun c => (chg_Month_Label c, snd (chg_spend c)))
    (month_over_month (aggregate_by_month Sample.three_months None))
  = [("Dec 2024"%string, negative_colour);
     ("Jan 2025"%string, positive_colour)] /\
  option_map (fun c => fst (chg_spend c))
    (nth_error
       (month_over_month (aggregate_by_month Sample.three_months None)) 0)
  = Some ((5 - 8) / 8 * 100 / 100)%float /\
  Forall number_changes
    (month_over_month (aggregate_by_month Sample.three_months None)).
Proof.
  assert (F : Forall finite_month
                (aggregate_by_month Sample.three_months None)).
  { repeat constructor. }
  destruct (month_over_month_rows
              (aggregate_by_month Sample.three_months None))
    as (_ & _ & N & _ & H).
  split; [exact F |]. split; [vm_compute; reflexivity |].
  split; [vm_compute; reflexivity |]. split; [| exact (H F)].
  pose (months := aggregate_by_month Sample.three_months None).
  assert (E0 : nth_error months 0 = Some (nth 0 months Sample.december))
    by (vm_compute; reflexivity).
  assert (E1 : nth_error months 1 = Some (nth 1 months Sample.december))
    by (vm_compute; reflexivity).
  rewrite (N 0 _ _ E0 E1). vm_compute. reflexivity.
Defined.

Section Organic.
Local Open Scope float_scope.

Lemma joined_has_total_sales (campaign_df : list CampaignRow)
  (business_df : list BusinessRow) :
  has_total_sales (aggregate_by_month campaign_df (Some business_df)) = true.
Proof.
  unfold has_total_sales. rewrite aggregate_by_month_joined.
  apply forallb_forall. intros row H. apply in_map_iff in H.
  destruct H as (x & <- & _). reflexivity.
Qed.

(** X5.  The organic sheet has a monthly breakdown exactly when there is
    a business frame.  The breakdown has a row for each month, in the
    order of the frame of the months, with the total sales, the organic
    sales and the TACOS of the business columns of the month (the
    default 0 of a column that is not there is never used) and the ad
    sales of the campaigns.  In every row the organic share is not
    negative, and the ad share and the organic share are both 0 when the
    total sales of the month are not greater than 0, which is the case
    of a month with no business row (its total sales are NaN). *)
Theorem organic_breakdown_percentages (campaign_df : list CampaignRow)
  (business_df : option (list BusinessRow)) :
  let monthly_data := aggregate_by_month campaign_df business_df in
  match create_organic_sheet business_df monthly_data with
  | None => business_df = None
  | Some rows =>
      business_df <> None /\
      map org_Month_Label rows = map mo_Month_Label monthly_data /\
      Forall2
        (fun mrow o =>
           exists b : MonthlyBusiness,
             mo_business mrow = Some b /\
             org_Total_Sales o = Total_Sales b /\
             org_Ad_Sales o = m_Sales (mo_metrics mrow) /\
             org_Organic_Sales o = Organic_Sales b /\
             org_ad_pct o
             = (if PyFloat.gt (Total_Sales b) 0
                then m_Sales (mo_metrics mrow) / Total_Sales b else 0) /\
             org_org_pct o
             = (if PyFloat.gt (Total_Sales b) 0
                then Organic_Sales b / Total_Sales b else 0) /\
             org_tacos o = TACOS b / 100)
        monthly_data rows /\
      Forall
        (fun o =>
           (org_org_pct o <? 0) = false /\
           (PyFloat.gt (org_Total_Sales o) 0 = false ->
            org_ad_pct o = 0 /\ org_org_pct o = 0))
        rows
  end.
Proof.
  cbv zeta. unfold create_organic_sheet.
  destruct business_df as [biz|]; [| reflexivity].
  rewrite joined_has_total_sales. unfold organic_breakdown.
  split; [discriminate |]. split; [| split].
  - rewrite map_map. reflexivity.
  - assert (B : Forall (fun mrow => mo_business mrow <> None)
                  (aggregate_by_month campaign_df (Some biz))).
    { rewrite aggregate_by_month_joined. rewrite Forall_map.
      apply Forall_forall. intros x _. discriminate. }
    induction B as [|mrow l Hm _ IH]; simpl; constructor; [| exact IH].
    destruct (mo_business mrow) as [b|] eqn:Eb; [| congruence].
    exists b. unfold organic_row. rewrite Eb.
    cbn [org_Total_Sales org_Ad_Sales org_Organic_Sales org_ad_pct
         org_org_pct org_tacos].
    repeat split.
  - rewrite Forall_map. apply Forall_forall. intros mrow Hin.
    unfold organic_row.
    cbn [org_org_pct org_ad_pct org_Total_Sales].
    split.
    + destruct (PyFloat.gt _ 0) eqn:G; [| reflexivity].
      apply div_not_negative; [| exact G].
      destruct (mo_business mrow) as [b|] eqn:Eb; [| reflexivity].
      destruct (aggregate_by_month_business _ _ _ _ Hin Eb) as [_ ->].
      apply clip_lower0_not_negative.
    + intros G. rewrite G. split; reflexivity.
Qed.

(** X5 on the sample: without a business frame the sheet has no
    breakdown; with the business rows of December and January it has the
    three months, and in November, which has no business row, both
    shares are 0. *)
Lemma organic_breakdown_percentages_sample :
  create_organic_sheet None (aggregate_by_month Sample.three_months None)
  = None /\
  option_map (map (fun o => (org_Month_Label o, org_ad_pct o, org_org_pct o)))
    (create_organic_sheet (Some Sample.two_months_of_business)
       (aggregate_by_month Sample.three_months
          (Some Sample.two_months_of_business)))
  = Some [("Nov 2024"%string, 0, 0); ("Dec 2024"%string, 0, 0);
          ("Jan 2025"%string, 150 / 100, 0)] /\
  option_map (map org_Month_Label)
    (create_organic_sheet (Some Sample.two_months_of_business)
       (aggregate_by_month Sample.three_months
          (Some Sample.two_months_of_business)))
  = Some
      (map mo_Month_Label
         (aggregate_by_month Sample.three_months
            (Some Sample.two_months_of_business))).
Proof.
  pose proof (organic_breakdown_percentages Sample.three_months
                (Some Sample.two_months_of_business)) as H.
  cbv zeta in H.
  split; [reflexivity |]. split; [vm_compute; reflexivity |].
  destruct (create_organic_sheet (Some Sample.two_months_of_business)
              (aggregate_by_month Sample.three_months
                 (Some Sample.two_months_of_business))) as [rows|].
  - destruct H as (_ & L & _). simpl. now rewrite L.
  - discriminate.
Defined.

End Organic.

(** X3.  In every row of the months joined with a business frame the
    TACOS is never NaN ([fillna(0)] replaces it by 0); it is infinite when
    the spend of the month is a number other than 0 and the total sales
    of the month are 0. *)
Theorem monthly_tacos_never_nan (campaign_df : list CampaignRow)
  (business_df : list BusinessRow) (row : MonthlyRow)
  (b : MonthlyBusiness) :
  In row (aggregate_by_month campaign_df (Some business_df)) ->
  mo_business row = Some b ->
  PyFloat.isna (TACOS b) = false /\
  (PyFloat.isna (m_Spend (mo_metrics row)) = false ->
   (m_Spend (mo_metrics row) =? 0)%float = false ->
   (Total_Sales b =? 0)%float = true ->
   is_infinity (TACOS b) = true).
Proof.
  intros Hin Hb.
  destruct (aggregate_by_month_business _ _ _ _ Hin Hb) as [-> _].
  split; [apply fillna0_not_nan |].
  intros Hn Hz Ht. unfold is_infinity.
  now apply tacos_infinite_on_zero_sales.
Qed.

(** X3 on the month in which the store sold nothing: the spend is 5, the
    total sales are 0 and the TACOS is infinite. *)
Lemma monthly_tacos_never_nan_sample :
  In Sample.december
    (aggregate_by_month Sample.december_campaigns
       (Some Sample.december_business)) /\
  mo_business Sample.december = Some Sample.december_columns /\
  PyFloat.isna (TACOS Sample.december_columns) = false /\
  is_infinity (TACOS Sample.december_columns) = true.
Proof.
  assert (Hin : In Sample.december
                  (aggregate_by_month Sample.december_campaigns
                     (Some Sample.december_business)))
    by (vm_compute; left; reflexivity).
  assert (Hb : mo_business Sample.december = Some Sample.december_columns)
    by (vm_compute; reflexivity).
  destruct (monthly_tacos_never_nan _ _ _ _ Hin Hb) as [N I].
  split; [exact Hin |]. split; [exact Hb |]. split; [exact N |].
  apply I; vm_compute; reflexivity.
Defined.

(** ** Aggregation by portfolio *)

(** X6.  [aggregate_by_portfolio] has one row for each group of the
    campaign rows by portfolio type, with the metrics of the rows of the
    group; the groups hold every row of the frame once (no portfolio type
    is missing, as the classifier sets it on every row), none is empty,
    and an exact measure of the rows adds up over the groups to its total
    over the frame. *)
Theorem aggregate_by_portfolio_partition (df : list CampaignRow) :
  let groups := Pandas.groupby by_portfolio df in
  aggregate_by_portfolio df
  = map (fun g => (fst g, calc_metrics (snd g))) groups /\
  Permutation (List.concat (map snd groups)) df /\
  (forall g, In g groups ->
     snd g = filter (Pandas.has_key by_portfolio (fst g)) df /\ snd g <> []) /\
  (forall measure : CampaignRow -> Z,
     exact_total (fun g => exact_total measure (snd g)) groups
     = exact_total measure df).
Proof.
  cbv zeta.
  assert (P : Permutation
                (List.concat (map snd (Pandas.groupby by_portfolio df))) df).
  { eapply Permutation_trans; [apply groupby_partition |].
    unfold by_portfolio. clear. induction df as [|r df IH]; simpl.
    - constructor.
    - now constructor. }
  split; [reflexivity |]. split; [exact P |]. split.
  - intros g Hg. destruct (groupby_rows by_portfolio df g Hg) as [E Hin].
    split; [exact E |]. rewrite E. intros Hnil.
    apply in_map_iff in Hin. destruct Hin as (r & Hr & Hin).
    assert (Hf : In r (filter (Pandas.has_key by_portfolio (fst g)) df)).
    { apply filter_In. split; [exact Hin |]. unfold Pandas.has_key.
      rewrite Hr. apply String.eqb_refl. }
    rewrite Hnil in Hf. exact Hf.
  - intros measure. rewrite exact_total_groups. now apply exact_total_perm.
Qed.

Lemma segment_label_inj (a b : segment) :
  segment_label a = segment_label b -> a = b.
Proof. destruct a, b; simpl; intros H; try reflexivity; discriminate. Qed.

Lemma portfolio_type_label_inj (a b : portfolio_type) :
  portfolio_type_label a = portfolio_type_label b -> a = b.
Proof. destruct a, b; simpl; intros H; try reflexivity; discriminate. Qed.

(** X7.  The rows of [aggregate_by_segment] and of
    [aggregate_by_portfolio] come in the ascending order of their labels,
    each label once; the labels are among the three segments (the two
    portfolio types), so there are at most three (two) rows; and a
    category has a row exactly when some campaign row is of it: a
    category without campaigns has no row. *)
Theorem category_rows_labels (df : list CampaignRow) :
  let by_seg := map fst (aggregate_by_segment df) in
  let by_port := map fst (aggregate_by_portfolio df) in
  (StronglySorted key_lt by_seg /\ NoDup by_seg /\
   incl by_seg segments /\ List.length by_seg <= 3 /\
   forall s : segment,
     In (segment_label s) by_seg <-> exists r, In r df /\ Segment r = s) /\
  (StronglySorted key_lt by_port /\ NoDup by_port /\
   incl by_port portfolios /\ List.length by_port <= 2 /\
   forall p : portfolio_type,
     In (portfolio_type_label p) by_port <->
     exists r, In r df /\ Portfolio_Type r = p).
Proof.
  cbv zeta.
  assert (Es : map fst (aggregate_by_segment df)
               = Pandas.group_keys (map by_segment df)).
  { unfold aggregate_by_segment, apply_calc_metrics, Pandas.groupby.
    rewrite !map_map. simpl. apply map_id. }
  assert (Ep : map fst (aggregate_by_portfolio df)
               = Pandas.group_keys (map by_portfolio df)).
  { unfold aggregate_by_portfolio, apply_calc_metrics, Pandas.groupby.
    rewrite !map_map. simpl. apply map_id. }
  rewrite Es, Ep. split.
  - assert (I : incl (Pandas.group_keys (map by_segment df)) segments).
    { intros k Hk. apply group_keys_In, in_map_iff in Hk.
      destruct Hk as (r & Hr & _). unfold by_segment in Hr.
      injection Hr as <-. unfold segments.
      destruct (Segment r); simpl; auto. }
    split; [apply group_keys_sorted |]. split; [apply group_keys_NoDup |].
    split; [exact I |]. split.
    + apply (NoDup_incl_length (group_keys_NoDup _) I).
    + intros s. rewrite group_keys_In, in_map_iff. split.
      * intros (r & Hr & Hin). exists r. split; [exact Hin |].
        unfold by_segment in Hr. injection Hr as Hr.
        now apply segment_label_inj.
      * intros (r & Hin & <-). exists r. auto.
  - assert (I : incl (Pandas.group_keys (map by_portfolio df)) portfolios).
    { intros k Hk. apply group_keys_In, in_map_iff in Hk.
      destruct Hk as (r & Hr & _). unfold by_portfolio in Hr.
      injection Hr as <-. unfold portfolios.
      destruct (Portfolio_Type r); simpl; auto. }
    split; [apply group_keys_sorted |]. split; [apply group_keys_NoDup |].
    split; [exact I |]. split.
    + apply (NoDup_incl_length (group_keys_NoDup _) I).
    + intros p. rewrite group_keys_In, in_map_iff. split.
      * intros (r & Hr & Hin). exists r. split; [exact Hin |].
        unfold by_portfolio in Hr. injection Hr as Hr.
        now apply portfolio_type_label_inj.
      * intros (r & Hin & <-). exists r. auto.
Qed.

(** ** Cells of a category and a month *)

Section Keys.

Context {B : Type}.

Lemma flat_map_nil_all {A : Type} (f : A -> list B) (l : list A) :
  (forall x, In x l -> f x = []) -> flat_map f l = [].
Proof.
  induction l as [|x l IH]; simpl; intros H; [reflexivity |].
  rewrite (H x) by now left. apply IH. intros y Hy. apply H. now right.
Qed.

(** Over keys that are distinct, the one key [k] is selected. *)
Lemma flat_map_select_key (X : string -> list B) (keys : list string)
  (k : string) :
  NoDup keys ->
  flat_map (fun k' => if String.eqb k' k then X k' else []) keys
  = if existsb (String.eqb k) keys then X k else [].
Proof.
  induction 1 as [|a keys Ha Hnd IH]; simpl; [reflexivity |].
  rewrite (String.eqb_sym k a).
  destruct (String.eqb_spec a k) as [->|Hne]; simpl.
  - rewrite flat_map_nil_all; [apply app_nil_r |].
    intros x Hx. destruct (String.eqb_spec x k) as [->|]; [contradiction |].
    reflexivity.
  - exact IH.
Qed.

Lemma filter_flat_map {A : Type} (p : B -> bool) (f : A -> list B)
  (l : list A) :
  filter p (flat_map f l) = flat_map (fun x => filter p (f x)) l.
Proof.
  induction l as [|x l IH]; simpl; [reflexivity |].
  now rewrite filter_app, IH.
Qed.

Lemma filter_map_flat {A : Type} (p : B -> bool) (f : A -> B) (l : list A) :
  filter p (map f l) = flat_map (fun x => if p (f x) then [f x] else []) l.
Proof.
  induction l as [|x l IH]; simpl; [reflexivity |].
  destruct (p (f x)); simpl; now rewrite IH.
Qed.

Lemma flat_map_map_keys {A C : Type} (g : A -> C) (f : C -> list B)
  (l : list A) :
  flat_map f (map g l) = flat_map (fun x => f (g x)) l.
Proof. induction l as [|x l IH]; simpl; [reflexivity | now rewrite IH]. Qed.

End Keys.

Section CategoryMonths.

Variable by2 : CampaignRow -> option string.
Variable df : list CampaignRow.

Lemma groupby2_select (c month : string) :
  filter (fun g : string * string * list CampaignRow =>
            String.eqb (snd (fst g)) c && String.eqb (fst (fst g)) month)
    (groupby2 Month_Label by2 df)
  = match month_category_rows by2 df c month with
    | [] => []
    | rows => [(month, c, rows)]
    end.
Proof.
  unfold groupby2, month_category_rows. rewrite filter_flat_map.
  unfold Pandas.groupby at 2. rewrite flat_map_map_keys. cbn [fst snd].
  rewrite (flat_map_ext _
    (fun k1 => if String.eqb k1 month
               then match filter (Pandas.has_key by2 c)
                            (filter (Pandas.has_key Month_Label k1) df) with
                    | [] => []
                    | rows => [(k1, c, rows)]
                    end
               else [])).
  - rewrite flat_map_select_key by apply group_keys_NoDup.
    destruct (existsb (String.eqb month)
                (Pandas.group_keys (map Month_Label df))) eqn:E;
      [reflexivity |].
    now rewrite (has_key_rows_nil _ _ _ E).
  - intros k1. set (R := filter (Pandas.has_key Month_Label k1) df).
    rewrite filter_map_flat. unfold Pandas.groupby.
    rewrite flat_map_map_keys. cbn [fst snd].
    destruct (String.eqb k1 month).
    + rewrite (flat_map_ext _
        (fun k2 => if String.eqb k2 c
                   then [(k1, k2, filter (Pandas.has_key by2 k2) R)]
                   else []))
        by (intros k2; now rewrite andb_true_r).
      rewrite flat_map_select_key by apply group_keys_NoDup.
      destruct (existsb (String.eqb c) (Pandas.group_keys (map by2 R)))
        eqn:E.
      * apply has_key_rows_cons in E.
        destruct (filter (Pandas.has_key by2 c) R); [congruence | reflexivity].
      * now rewrite (has_key_rows_nil _ _ _ E).
    + apply flat_map_nil_all. intros k2 _. now rewrite andb_false_r.
Qed.

(** The mask of a category and a month selects at most one row of the
    frame aggregated by month and category: the row of the group. *)
Lemma select_cell_groups (c month : string) :
  select_cell (apply_calc_metrics2 by2 df) c month
  = match month_category_rows by2 df c month with
    | [] => []
    | rows => [{| cm_Month_Label := month; cm_category := c;
                  cm_metrics := calc_metrics rows |}]
    end.
Proof.
  unfold select_cell, apply_calc_metrics2.
  rewrite filter_map_swap.
  cbn [cm_category cm_Month_Label].
  rewrite groupby2_select. destruct (month_category_rows by2 df c month);
    reflexivity.
Qed.

End CategoryMonths.

Section Cells.

Local Open Scope float_scope.

Lemma zero_add_number (x : float) :
  PyFloat.isna x = false -> (0 + x =? x) = true.
Proof.
  intros H. rewrite FloatAxioms.eqb_spec, zero_add_SF.
  revert H. unfold PyFloat.isna. rewrite is_nan_Prim2SF.
  destruct (Prim2SF x) as [[|]|[|]| |[|] m e]; intros H; try discriminate;
    try reflexivity;
    unfold SFeqb; rewrite SFcompare_refl; reflexivity.
Qed.

Lemma series_sum_single (x : float) :
  summed_value (Pandas.series_sum [x]) x.
Proof.
  unfold summed_value, Pandas.series_sum, Pandas.fill0.
  cbn [map List.length Pandas.pairwise_sum Nat.leb].
  unfold Pandas.block_sum.
  cbn [List.length Nat.div Nat.divmod Nat.sub fst Pandas.add_blocks
       firstn skipn app fold_left].
  destruct (PyFloat.isna x) eqn:E; [reflexivity |].
  rewrite FloatAxioms.eqb_spec, !zero_add_SF.
  revert E. unfold PyFloat.isna. rewrite is_nan_Prim2SF.
  destruct (Prim2SF x) as [[|]|[|]| |[|] m e]; intros H; try discriminate;
    try reflexivity;
    unfold SFeqb; rewrite SFcompare_refl; reflexivity.
Qed.

Lemma cells_of_groups (by2 : CampaignRow -> option string)
  (df : list CampaignRow) (c month : string) :
  cells_of_rows (apply_calc_metrics2 by2 df) c month
    (month_category_rows by2 df c month).
Proof.
  unfold cells_of_rows, cell_sum, cell_roas.
  rewrite select_cell_groups.
  destruct (month_category_rows by2 df c month) as [|r rows].
  - repeat split; reflexivity.
  - cbn [map cm_metrics]. repeat split; try apply series_sum_single.
Qed.

Lemma fold_zeros {A : Type} (l : list A) :
  fold_left (fun total val => total + val) (map (fun _ => 0) l) 0 = 0.
Proof. induction l as [|x l IH]; simpl; [reflexivity | exact IH]. Qed.

Lemma rows_without_nil (by2 : CampaignRow -> option string)
  (df : list CampaignRow) (c month : string) :
  rows_without by2 df c -> month_category_rows by2 df c month = [].
Proof.
  intros H. unfold month_category_rows.
  destruct (filter _ _) as [|r rows] eqn:E; [reflexivity |].
  assert (Hr : In r (r :: rows)) by now left.
  rewrite <- E in Hr. apply filter_In in Hr. destruct Hr as [Hr Hk].
  apply filter_In in Hr. destruct Hr as [Hr _].
  unfold Pandas.has_key in Hk. specialize (H r Hr).
  destruct (by2 r) as [k|]; [| discriminate].
  apply String.eqb_eq in Hk. subst k. congruence.
Qed.

Lemma empty_category_cells (by2 : CampaignRow -> option string)
  (df : list CampaignRow) (c : string) (months : list string) :
  rows_without by2 df c ->
  map (fun month => cell_sum m_Spend (apply_calc_metrics2 by2 df) c month)
    months = map (fun _ => 0) months /\
  map (fun month => cell_sum m_Sales (apply_calc_metrics2 by2 df) c month)
    months = map (fun _ => 0) months /\
  map (fun month => cell_roas (apply_calc_metrics2 by2 df) c month)
    months = map (fun _ => 0) months.
Proof.
  intros H.
  assert (C : forall month,
            cell_sum m_Spend (apply_calc_metrics2 by2 df) c month = 0 /\
            cell_sum m_Sales (apply_calc_metrics2 by2 df) c month = 0 /\
            cell_roas (apply_calc_metrics2 by2 df) c month = 0).
  { intros month. pose proof (cells_of_groups by2 df c month) as G.
    rewrite (rows_without_nil _ _ _ _ H) in G. exact G. }
  repeat split; apply map_ext; intros month; apply C.
Qed.

End Cells.

(** X8.  A cell of the segment sheet and of the portfolio sheet, for a
    category and a month, is computed from the campaign rows of that
    month and that category alone: with no such row the spend, the sales
    and the ROAS cells are 0; otherwise the ROAS cell is the ROAS of
    these rows, and the spend and sales cells are their spend and their
    sales (0 in place of NaN, and a float that compares equal
    otherwise). *)
Theorem category_month_cells (df : list CampaignRow) (c month : string) :
  cells_of_rows (aggregate_by_segment_and_month df) c month
    (month_category_rows by_segment df c month) /\
  cells_of_rows (aggregate_by_portfolio_and_month df) c month
    (month_category_rows by_portfolio df c month).
Proof. split; apply cells_of_groups. Qed.

(** ** The loaders and [main] *)

Section Loaders.

Variable py_float : string -> option float.
Variable parse_datetime : string -> option date.

Lemma to_datetime_none (col : list TextCell) :
  to_datetime parse_datetime col = None
  <-> unreadable_date parse_datetime col.
Proof.
  pose proof (to_datetime_spec parse_datetime col) as H.
  destruct (to_datetime parse_datetime col) as [dates|].
  - split; [discriminate |]. intros (s & Hin & Hs). exfalso.
    induction H as [|c d col ds Hd Hrest IH]; [contradiction |].
    destruct Hin as [-> | Hin]; [| now apply IH].
    simpl in Hd. rewrite Hs in Hd. discriminate.
  - split; [intros _; exact H | reflexivity].
Qed.

Lemma combine_read_business_dates (csv : list BusinessCsvRow)
  (dates : list Timestamp) :
  Forall2 (fun c d => read_date parse_datetime c = Some d)
    (map bcsv_Date csv) dates ->
  map (fun rd => business_row py_float (fst rd) (snd rd)) (combine csv dates)
  = map (fun r =>
           business_row py_float r
             (match read_date parse_datetime (bcsv_Date r) with
              | Some d => d
              | None => NaT
              end)) csv.
Proof.
  revert dates. induction csv as [|r csv IH]; intros dates H; simpl.
  - reflexivity.
  - inversion H as [|c d col ds Hd Hrest]; subst. simpl.
    rewrite Hd. f_equal. apply IH. exact Hrest.
Qed.


Lemma load_business_data_none (csv : list BusinessCsvRow) :
  load_business_data py_float parse_datetime csv = None
  <-> unreadable_date parse_datetime (map bcsv_Date csv).
Proof.
  rewrite <- to_datetime_none. unfold load_business_data.
  destruct (to_datetime parse_datetime (map bcsv_Date csv));
    split; intros H; try discriminate; reflexivity.
Qed.

(** The rows loaded from a file: the labels of a row are those of its
    date, and the rows with a date are as many as the rows of the file
    whose date cell is written. *)
Lemma load_campaign_data_labels (csv : list CampaignCsvRow)
  (df : list CampaignRow) :
  load_campaign_data py_float parse_datetime csv = Some df ->
  Forall (fun r => Month_Label r = option_map Calendar.strftime_b_Y (Date r)
                   /\ Week r = option_map Calendar.strftime_Y_W_U (Date r))
    df /\
  List.length (filter has_date df) = List.length (filter written_date csv).
Proof.
  unfold load_campaign_data.
  pose proof (to_datetime_spec parse_datetime (map csv_Date csv)) as H.
  destruct (to_datetime parse_datetime (map csv_Date csv)) as [dates|];
    [| discriminate].
  intros E. injection E as <-. split.
  - rewrite Forall_map. apply Forall_forall. intros rd _. split; reflexivity.
  - revert dates H. induction csv as [|r csv IH]; intros dates H; simpl;
      [reflexivity |].
    inversion H as [|c d col ds Hd Hrest]; subst. simpl.
    unfold has_date at 1, written_date at 1. cbn [Date campaign_row].
    unfold read_date in Hd. destruct (csv_Date r) as [s|].
    + destruct (parse_datetime s) as [d'|]; [| discriminate].
      simpl in Hd. injection Hd as <-. simpl. f_equal. now apply IH.
    + injection Hd as <-. now apply IH.
Qed.

(** X9.  In a frame loaded from a file, the rows of the monthly sheet
    and of the weekly sheet are the groups of the rows by month label and
    by week label; these groups hold every row that has a date once and
    no row without a date, the rows with a date being as many as the
    rows of the file whose date cell is written; the groups by segment
    and by portfolio type hold every row, dated or not.  So a campaign
    row with an empty date cell counts in the segment and portfolio
    figures and in no month and no week. *)
Theorem time_buckets_hold_dated_rows (csv : list CampaignCsvRow)
  (df : list CampaignRow) :
  load_campaign_data py_float parse_datetime csv = Some df ->
  let months := Pandas.groupby Month_Label df in
  let weeks := Pandas.groupby Week df in
  (forall business_df,
     Permutation
       (map (fun row => (mo_Month_Label row, mo_metrics row))
          (aggregate_by_month df business_df))
       (map (fun g => (fst g, calc_metrics (snd g))) months)) /\
  Permutation (aggregate_by_week df)
    (map (fun g => (fst g, calc_metrics (snd g))) weeks) /\
  Permutation (List.concat (map snd months)) (filter has_date df) /\
  Permutation (List.concat (map snd weeks)) (filter has_date df) /\
  List.length (filter has_date df) = List.length (filter written_date csv) /\
  Permutation (List.concat (map snd (Pandas.groupby by_segment df))) df /\
  Permutation (List.concat (map snd (Pandas.groupby by_portfolio df))) df.
Proof.
  intros L. cbv zeta.
  destruct (load_campaign_data_labels csv df L) as [D Hlen].
  rewrite Forall_forall in D.
  assert (Em : filter (fun r => match Month_Label r with
                                | Some _ => true | None => false end) df
               = filter has_date df).
  { apply filter_ext_in. intros r Hr. destruct (D r Hr) as [-> _].
    unfold has_date. destruct (Date r); reflexivity. }
  assert (Ew : filter (fun r => match Week r with
                                | Some _ => true | None => false end) df
               = filter has_date df).
  { apply filter_ext_in. intros r Hr. destruct (D r Hr) as [_ ->].
    unfold has_date. destruct (Date r); reflexivity. }
  assert (All : forall by_ : CampaignRow -> option string,
            (forall r, by_ r <> None) ->
            Permutation (List.concat (map snd (Pandas.groupby by_ df))) df).
  { intros by_ T. eapply Permutation_trans; [apply groupby_partition |].
    clear - T. induction df as [|r l IH]; simpl; [constructor |].
    specialize (T r). destruct (by_ r); [now constructor | congruence]. }
  split; [| split; [| split; [| split; [| split; [| split]]]]].
  - intros business_df.
    assert (N : map (fun row => (mo_Month_Label row, mo_metrics row))
                  (aggregate_by_month df business_df)
                = map (fun row => (mo_Month_Label row, mo_metrics row))
                    (aggregate_by_month df None)).
    { destruct business_df as [biz|]; [| reflexivity].
      rewrite aggregate_by_month_joined, map_map. reflexivity. }
    rewrite N. unfold aggregate_by_month. rewrite map_map. cbn [mo_Month_Label mo_metrics].
    rewrite (map_ext _ (fun row : string * Metrics => row))
      by (intros [k m]; reflexivity).
    rewrite map_id. apply sort_values_perm.
  - unfold aggregate_by_week. apply sort_values_perm.
  - rewrite <- Em. apply groupby_partition.
  - rewrite <- Ew. apply groupby_partition.
  - exact Hlen.
  - apply All. intros r. unfold by_segment. discriminate.
  - apply All. intros r. unfold by_portfolio. discriminate.
Qed.

(** X10.  [load_business_data] ends with the error of [pd.to_datetime]
    exactly when a written date of the business file cannot be read;
    otherwise it returns one row for each row of the file, in the order
    of the file, with the date read (no date for an empty cell) and the
    month label of that date. *)
Theorem load_business_data_raises_on_bad_date (csv : list BusinessCsvRow) :
  match load_business_data py_float parse_datetime csv with
  | None => unreadable_date parse_datetime (map bcsv_Date csv)
  | Some df =>
      ~ unreadable_date parse_datetime (map bcsv_Date csv) /\
      df = map (fun r =>
                  business_row py_float r
                    (match read_date parse_datetime (bcsv_Date r) with
                     | Some d => d
                     | None => NaT
                     end)) csv /\
      Forall (fun r => biz_Month_Label r
                       = option_map Calendar.strftime_b_Y (biz_Date r)) df
  end.
Proof.
  pose proof (load_business_data_none csv) as N.
  unfold load_business_data in *.
  pose proof (to_datetime_spec parse_datetime (map bcsv_Date csv)) as H.
  destruct (to_datetime parse_datetime (map bcsv_Date csv)) as [dates|].
  - split; [| split].
    + intros U. apply N in U. discriminate.
    + now apply combine_read_business_dates.
    + rewrite Forall_map. apply Forall_forall. intros rd _. reflexivity.
  - now apply N.
Qed.


End Loaders.


(** X9 on a file of two rows, the second with an empty date cell: both
    rows are loaded, one has a date, the only week is the week of the
    first row, and the groups by segment hold both rows. *)
Lemma time_buckets_hold_dated_rows_sample :
  load_campaign_data Plain.float_of_integer_literal Plain.iso_date undated_csv
  = Some undated_frame /\
  List.length undated_frame = 2 /\
  List.length (filter has_date undated_frame) = 1 /\
  Permutation (aggregate_by_week undated_frame)
    (map (fun g => (fst g, calc_metrics (snd g)))
       (Pandas.groupby Week undated_frame)) /\
  map fst (aggregate_by_week undated_frame) = ["2024-W44"%string] /\
  Permutation
    (List.concat (map snd (Pandas.groupby by_segment undated_frame)))
    undated_frame.
Proof.
  assert (L : load_campaign_data Plain.float_of_integer_literal
                Plain.iso_date undated_csv = Some undated_frame)
    by (vm_compute; reflexivity).
  destruct (time_buckets_hold_dated_rows Plain.float_of_integer_literal
              Plain.iso_date undated_csv undated_frame L)
    as (_ & W & _ & _ & N & S & _).
  split; [exact L |]. split; [vm_compute; reflexivity |].
  split; [rewrite N; vm_compute; reflexivity |].
  split; [exact W |]. split; [vm_compute; reflexivity | exact S].
Defined.

(** ** Cleaning of the cells *)

Section Cleaning.

Local Open Scope string_scope.

Lemma remove_char_app (c : ascii) (a b : string) :
  PyStr.remove_char c (a ++ b)
  = PyStr.remove_char c a ++ PyStr.remove_char c b.
Proof.
  induction a as [|x a IH]; simpl; [reflexivity |].
  destruct (Ascii.eqb x c); simpl; now rewrite IH.
Qed.

Lemma cleaned_currency_skips (c : ascii) (a b : string) :
  c = "$"%char \/ c = ","%char \/ c = PyStr.double_quote ->
  cleaned_currency (a ++ String c b) = cleaned_currency (a ++ b).
Proof.
  intros H. unfold cleaned_currency. f_equal.
  rewrite !(remove_char_app "$"), !(remove_char_app ","),
    !(remove_char_app PyStr.double_quote).
  f_equal. destruct H as [-> | [-> | ->]]; simpl; try reflexivity.
Qed.

Lemma cleaned_percent_skips (c : ascii) (a b : string) :
  c = "%"%char \/ c = PyStr.double_quote ->
  cleaned_percent (a ++ String c b) = cleaned_percent (a ++ b).
Proof.
  intros H. unfold cleaned_percent. f_equal.
  rewrite !(remove_char_app "%"), !(remove_char_app PyStr.double_quote).
  f_equal. destruct H as [-> | ->]; simpl; reflexivity.
Qed.

Variable py_float : string -> option float.

(** X12.  A dollar sign, a comma or a double quote written anywhere in a
    text cell does not change what [parse_currency] returns, and a
    percent sign or a double quote written anywhere does not change what
    [parse_percent] returns; on a cell that holds a float the two
    functions agree. *)
Theorem parse_currency_skips_symbols (a b : string) :
  (forall c : ascii,
     c = "$"%char \/ c = ","%char \/ c = PyStr.double_quote ->
     parse_currency py_float (Str (a ++ String c b))
     = parse_currency py_float (Str (a ++ b))) /\
  (forall c : ascii,
     c = "%"%char \/ c = PyStr.double_quote ->
     parse_percent py_float (Str (a ++ String c b))
     = parse_percent py_float (Str (a ++ b))) /\
  (forall x : float,
     parse_percent py_float (Float x) = parse_currency py_float (Float x)).
Proof.
  split; [| split].
  - intros c H. unfold parse_currency. cbn [isna].
    fold (cleaned_currency (a ++ String c b)).
    fold (cleaned_currency (a ++ b)).
    now rewrite cleaned_currency_skips.
  - intros c H. unfold parse_percent. cbn [isna].
    fold (cleaned_percent (a ++ String c b)).
    fold (cleaned_percent (a ++ b)).
    now rewrite cleaned_percent_skips.
  - reflexivity.
Qed.

End Cleaning.

(** X13.  [classify_portfolio] gives Non-JN to a missing name, and JN to
    a name exactly when "jn" occurs in it whatever the case of its
    letters; two names that differ at most by the case of their letters
    get the same portfolio type and the same segment. *)
Theorem classify_portfolio_rule :
  classify_portfolio None = Non_JN /\
  (forall name : string,
     (occurs_ignoring_case "jn" name ->
      classify_portfolio (Some name) = JN) /\
     (~ occurs_ignoring_case "jn" name ->
      classify_portfolio (Some name) = Non_JN)) /\
  (forall a b : string,
     same_text a b = true ->
     classify_portfolio (Some a) = classify_portfolio (Some b) /\
     classify_segment (Some a) = classify_segment (Some b)).
Proof.
  split; [reflexivity |]. split.
  - intros name. rewrite <- contains_lower_spec by reflexivity.
    unfold classify_portfolio.
    destruct (PyStr.contains "jn" (PyStr.lower name)); split;
      intros H; try reflexivity; congruence.
  - intros a b H. apply same_text_lower_eq in H.
    unfold classify_portfolio, classify_segment.
    rewrite H. split; reflexivity.
Qed.

(** X13 on names written in capitals and in small letters: "JN" occurs
    in "Acme JN Main", which is JN, as is the same name in small
    letters; "jn" does not occur in "J-N Brands", which is Non-JN. *)
Lemma classify_portfolio_rule_sample :
  occurs_ignoring_case "jn" "Acme JN Main" /\
  classify_portfolio (Some "Acme JN Main"%string) = JN /\
  same_text "Acme JN Main" "acme jn main" = true /\
  classify_portfolio (Some "acme jn main"%string) = JN /\
  classify_segment (Some "Acme - PAT - x"%string)
  = classify_segment (Some "ACME - pat - X"%string) /\
  ~ occurs_ignoring_case "jn" "J-N Brands" /\
  classify_portfolio (Some "J-N Brands"%string) = Non_JN.
Proof.
  assert (J : occurs_ignoring_case "jn" "Acme JN Main").
  { exists "Acme "%string, "JN"%string, " Main"%string. split; reflexivity. }
  assert (N : ~ occurs_ignoring_case "jn" "J-N Brands").
  { intros H. apply contains_lower_spec in H; [| reflexivity].
    vm_compute in H. discriminate. }
  destruct classify_portfolio_rule as (_ & R & S).
  destruct (R "Acme JN Main"%string) as [R1 _].
  destruct (R "J-N Brands"%string) as [_ R2].
  destruct (S "Acme JN Main"%string "acme jn main"%string eq_refl)
    as [S1 _].
  destruct (S "Acme - PAT - x"%string "ACME - pat - X"%string eq_refl)
    as [_ S2].
  split; [exact J |]. split; [exact (R1 J) |]. split; [reflexivity |].
  split; [rewrite <- S1; exact (R1 J) |]. split; [exact S2 |].
  split; [exact N | exact (R2 N)].
Defined.

(** ** The segment sheet and the portfolio sheet *)

Lemma category_table_labels cell frame categories months :
  map fst (category_table cell frame categories months) = categories.
Proof.
  unfold category_table. rewrite map_map. simpl. apply map_id.
Qed.

Lemma month_order_NoDup (df : list CampaignRow) : NoDup (month_order df).
Proof.
  apply (Permutation_NoDup (Permutation_sym (month_order_perm df))).
  apply group_keys_NoDup.
Qed.

(** X14.  The segment sheet and the portfolio sheet have the same
    columns of months: the months of the monthly sheet, each once, a
    month never later than the months after it, and a month is a column
    exactly when some campaign row has its label.  Their tables have one
    row for each of the three segments (the two portfolio types), in the
    fixed order, whatever the data; a category that no campaign row is of
    has rows of zeros, with a total of 0. *)
Theorem pivot_sheets_layout (df : list CampaignRow) :
  let s := create_segment_sheet df in
  let p := create_portfolio_sheet df in
  let months := seg_months s in
  (port_months p = months /\
   NoDup months /\
   StronglySorted (not_later df Month_Label) months /\
   (forall biz,
      Permutation months (map mo_Month_Label (aggregate_by_month df biz))) /\
   (forall month,
      In month months <-> exists r, In r df /\ Month_Label r = Some month)) /\
  (map fst (seg_spend s) = segments /\
   map fst (seg_sales s) = segments /\
   map fst (seg_roas s) = segments /\
   map (fun row => fst (fst row)) (port_spend p) = portfolios /\
   map (fun row => fst (fst row)) (port_sales p) = portfolios /\
   map fst (port_roas p) = portfolios) /\
  (forall c, In c segments -> rows_without by_segment df c ->
     let zeros := map (fun _ => 0%float) months in
     In (c, zeros) (seg_spend s) /\ In (c, zeros) (seg_sales s) /\
     In (c, zeros) (seg_roas s)) /\
  (forall c, In c portfolios -> rows_without by_portfolio df c ->
     let zeros := map (fun _ => 0%float) months in
     In (c, zeros, 0%float) (port_spend p) /\
     In (c, zeros, 0%float) (port_sales p) /\
     In (c, zeros) (port_roas p)).
Proof.
  cbv zeta. unfold create_segment_sheet, create_portfolio_sheet.
  cbn [seg_months seg_spend seg_sales seg_roas
       port_months port_spend port_sales port_roas].
  split; [| split; [| split]].
  - split; [reflexivity |]. split; [apply month_order_NoDup |].
    split; [apply month_order_sorted |]. split.
    + intros biz. rewrite monthly_labels_joined.
      eapply Permutation_trans; [apply month_order_perm |].
      apply Permutation_sym, monthly_labels_perm.
    + intros month. split.
      * intros H. apply (Permutation_in _ (month_order_perm df)) in H.
        apply group_keys_In, in_map_iff in H.
        destruct H as (r & Hr & Hin). exists r. auto.
      * intros (r & Hin & Hr).
        apply (Permutation_in _ (Permutation_sym (month_order_perm df))).
        apply group_keys_In. rewrite <- Hr. now apply in_map.
  - rewrite !category_table_labels, !map_map.
    unfold with_total. cbn [fst].
    change (fun x : string * list float => fst x) with (@fst string (list float)).
    rewrite !category_table_labels. repeat split; reflexivity.
  - intros c Hc Hno.
    destruct (empty_category_cells by_segment df c (month_order df) Hno)
      as (E1 & E2 & E3).
    unfold category_table, aggregate_by_segment_and_month.
    split; [| split]; apply in_map_iff; exists c; split; try exact Hc.
    + now rewrite E1.
    + now rewrite E2.
    + now rewrite E3.
  - intros c Hc Hno.
    destruct (empty_category_cells by_portfolio df c (month_order df) Hno)
      as (E1 & E2 & E3).
    unfold category_table, aggregate_by_portfolio_and_month.
    rewrite !map_map. unfold with_total. cbn [fst snd].
    split; [| split].
    + apply in_map_iff. exists c. split; [| exact Hc].
      rewrite E1, fold_zeros. reflexivity.
    + apply in_map_iff. exists c. split; [| exact Hc].
      rewrite E2, fold_zeros. reflexivity.
    + apply in_map_iff. exists c. split; [| exact Hc]. now rewrite E3.
Qed.

(** ** Groups by month and category *)

Section TwoKeys.

Context {A : Type}.
Variables by1 by2 : A -> option string.

Lemma groupby2_rows (df : list A) :
  List.concat (map snd (groupby2 by1 by2 df))
  = flat_map (fun g1 => List.concat (map snd (Pandas.groupby by2 (snd g1))))
      (Pandas.groupby by1 df).
Proof.
  unfold groupby2. induction (Pandas.groupby by1 df) as [|g gs IH]; simpl;
    [reflexivity |].
  rewrite map_app, concat_app, IH, map_map. reflexivity.
Qed.

Lemma filter_all (p : A -> bool) (l : list A) :
  (forall x, In x l -> p x = true) -> filter p l = l.
Proof.
  induction l as [|x l IH]; simpl; intros H; [reflexivity |].
  rewrite (H x) by now left. f_equal. apply IH. intros y Hy. apply H.
  now right.
Qed.

Lemma groupby2_partition (df : list A) :
  (forall r, by2 r <> None) ->
  Permutation (List.concat (map snd (groupby2 by1 by2 df)))
    (filter (fun r => match by1 r with Some _ => true | None => false end) df).
Proof.
  intros T. rewrite groupby2_rows.
  eapply Permutation_trans; [| apply (groupby_partition by1)].
  induction (Pandas.groupby by1 df) as [|g gs IH]; simpl; [constructor |].
  apply Permutation_app; [| exact IH].
  eapply Permutation_trans; [apply groupby_partition |].
  rewrite filter_all; [apply Permutation_refl |].
  intros r _. specialize (T r). destruct (by2 r); congruence.
Qed.

Lemma groupby2_groups (df : list A) (g : string * string * list A) :
  In g (groupby2 by1 by2 df) ->
  snd g = filter (Pandas.has_key by2 (snd (fst g)))
            (filter (Pandas.has_key by1 (fst (fst g))) df) /\
  snd g <> [].
Proof.
  unfold groupby2. intros H. apply in_flat_map in H.
  destruct H as (g1 & H1 & H). apply in_map_iff in H.
  destruct H as (g2 & <- & H2). cbn [fst snd].
  destruct (groupby_rows by1 df g1 H1) as [E1 _].
  destruct (groupby_rows by2 (snd g1) g2 H2) as [E2 Hin].
  rewrite <- E1. split; [exact E2 |]. rewrite E2. intros Hnil.
  apply in_map_iff in Hin. destruct Hin as (r & Hr & Hin).
  assert (Hf : In r (filter (Pandas.has_key by2 (fst g2)) (snd g1))).
  { apply filter_In. split; [exact Hin |]. unfold Pandas.has_key.
    rewrite Hr. apply String.eqb_refl. }
  rewrite Hnil in Hf. exact Hf.
Qed.

End TwoKeys.

(** X15.  [aggregate_by_segment_and_month] and
    [aggregate_by_portfolio_and_month] have one row for each group of
    the campaign rows by month and category, with the metrics of the
    rows of the group.  Either way the groups hold every row that has a
    month label once, each group is the rows of its month and its
    category and is not empty, and an exact measure of the rows adds up
    over the groups to its total over the rows with a month label: the
    segment tables and the portfolio tables split the same total. *)
Theorem category_month_groups_partition (df : list CampaignRow) :
  let by_seg := groupby2 Month_Label by_segment df in
  let by_port := groupby2 Month_Label by_portfolio df in
  (aggregate_by_segment_and_month df
   = map (fun g => {| cm_Month_Label := fst (fst g);
                      cm_category := snd (fst g);
                      cm_metrics := calc_metrics (snd g) |}) by_seg /\
   aggregate_by_portfolio_and_month df
   = map (fun g => {| cm_Month_Label := fst (fst g);
                      cm_category := snd (fst g);
                      cm_metrics := calc_metrics (snd g) |}) by_port) /\
  Permutation (List.concat (map snd by_seg)) (filter has_month df) /\
  Permutation (List.concat (map snd by_port)) (filter has_month df) /\
  (forall g, In g by_seg ->
     snd g = month_category_rows by_segment df (snd (fst g)) (fst (fst g)) /\
     snd g <> []) /\
  (forall g, In g by_port ->
     snd g = month_category_rows by_portfolio df (snd (fst g)) (fst (fst g)) /\
     snd g <> []) /\
  (forall measure : CampaignRow -> Z,
     exact_total (fun g => exact_total measure (snd g)) by_seg
     = exact_total measure (filter has_month df) /\
     exact_total (fun g => exact_total measure (snd g)) by_port
     = exact_total measure (filter has_month df)).
Proof.
  cbv zeta.
  assert (Ps : Permutation
                 (List.concat (map snd (groupby2 Month_Label by_segment df)))
                 (filter has_month df)).
  { apply groupby2_partition. intros r. unfold by_segment. discriminate. }
  assert (Pp : Permutation
                 (List.concat (map snd (groupby2 Month_Label by_portfolio df)))
                 (filter has_month df)).
  { apply groupby2_partition. intros r. unfold by_portfolio. discriminate. }
  split; [split; reflexivity |]. split; [exact Ps |]. split; [exact Pp |].
  split; [intros g Hg; now apply groupby2_groups |].
  split; [intros g Hg; now apply groupby2_groups |].
  intros measure. rewrite !exact_total_groups.
  split; now apply exact_total_perm.
Qed.

(** ** Rows of the monthly and weekly sheets *)

Section Index.

Context {A : Type}.

Lemma combine_seq_snd (l : list A) (s : nat) :
  map snd (combine (seq s (List.length l)) l) = l.
Proof.
  revert s. induction l as [|x l IH]; intros s; simpl; [reflexivity |].
  now rewrite IH.
Qed.

Lemma combine_seq_fst (l : list A) (s : nat) :
  map fst (combine (seq s (List.length l)) l) = seq s (List.length l).
Proof.
  revert s. induction l as [|x l IH]; intros s; simpl; [reflexivity |].
  now rewrite IH.
Qed.

Lemma combine_seq_In (l : list A) (s i : nat) (x : A) :
  In (i, x) (combine (seq s (List.length l)) l) ->
  s <= i /\ nth_error l (i - s) = Some x.
Proof.
  revert s. induction l as [|y l IH]; intros s; simpl; [contradiction |].
  intros [E | H].
  - injection E as <- <-. rewrite Nat.sub_diag. split; [lia | reflexivity].
  - apply IH in H. destruct H as [Hle Hn]. split; [lia |].
    replace (i - s) with (S (i - S s)) by lia. exact Hn.
Qed.

Lemma reset_index_rows (l : list A) : map snd (reset_index l) = l.
Proof. apply combine_seq_snd. Qed.

Lemma reset_index_labels (l : list A) :
  map fst (reset_index l) = seq 0 (List.length l).
Proof. apply combine_seq_fst. Qed.

Lemma seq_add (k s n : nat) : map (fun i => i + k) (seq s n) = seq (s + k) n.
Proof.
  revert s. induction n as [|n IH]; intros s; simpl; [reflexivity |].
  f_equal. apply (IH (S s)).
Qed.

End Index.

Section SortMaps.

Context {A B K : Type}.
Variable le : K -> K -> bool.
Variable by_ : B -> K.
Variable f : A -> B.

Lemma insert_sorted_map (x : A) (l : list A) :
  map f (Pandas.insert_sorted le (fun a => by_ (f a)) x l)
  = Pandas.insert_sorted le by_ (f x) (map f l).
Proof.
  induction l as [|y l IH]; simpl; [reflexivity |].
  destruct (le (by_ (f x)) (by_ (f y))); simpl; [reflexivity |].
  now rewrite IH.
Qed.

Lemma sort_values_map (l : list A) :
  map f (Pandas.sort_values le (fun a => by_ (f a)) l)
  = Pandas.sort_values le by_ (map f l).
Proof.
  induction l as [|x l IH]; simpl; [reflexivity |].
  now rewrite insert_sorted_map, IH.
Qed.

End SortMaps.

Section SortedAlready.

Context {A K : Type}.
Variable le : K -> K -> bool.
Variable by_ : A -> K.

Lemma sort_values_sorted_id (l : list A) :
  StronglySorted (key_le le by_) l -> Pandas.sort_values le by_ l = l.
Proof.
  induction 1 as [|x l Hs IH Hall]; simpl; [reflexivity |].
  rewrite IH. destruct l as [|y l']; simpl; [reflexivity |].
  inversion Hall as [|? ? Hxy _]; subst. unfold key_le in Hxy.
  now rewrite Hxy.
Qed.

End SortedAlready.

Lemma key_lt_leb (a b : string) : key_lt a b -> String.leb a b = true.
Proof. unfold key_lt, String.leb. now intros ->. Qed.

Lemma apply_calc_metrics_keys (by_ : CampaignRow -> option string)
  (df : list CampaignRow) :
  map fst (apply_calc_metrics by_ df) = Pandas.group_keys (map by_ df).
Proof.
  unfold apply_calc_metrics, Pandas.groupby. rewrite !map_map. simpl.
  apply map_id.
Qed.

Lemma StronglySorted_of_map {A B : Type} (R : B -> B -> Prop) (f : A -> B)
  (l : list A) :
  StronglySorted R (map f l) -> StronglySorted (fun a b => R (f a) (f b)) l.
Proof.
  induction l as [|x l IH]; simpl; intros H; [constructor |].
  inversion H as [|? ? Hs Hall]; subst. constructor; [now apply IH |].
  now rewrite Forall_map in Hall.
Qed.

Lemma weekly_groups_sorted (df : list CampaignRow) :
  StronglySorted (key_le PyStr.le fst) (apply_calc_metrics Week df).
Proof.
  pose proof (group_keys_sorted (map Week df)) as S.
  rewrite <- apply_calc_metrics_keys in S. apply StronglySorted_of_map in S.
  induction S as [|a l _ IH Hall]; constructor; [exact IH |].
  eapply Forall_impl; [| exact Hall]. intros b Hb. unfold key_le, PyStr.le.
  now apply key_lt_leb.
Qed.

Lemma aggregate_by_week_sorted_already (df : list CampaignRow) :
  aggregate_by_week df = apply_calc_metrics Week df.
Proof.
  unfold aggregate_by_week. apply sort_values_sorted_id, weekly_groups_sorted.
Qed.

Lemma aggregate_by_week_index_labels (df : list CampaignRow) :
  aggregate_by_week_index df = reset_index (aggregate_by_week df).
Proof.
  rewrite aggregate_by_week_sorted_already. unfold aggregate_by_week_index.
  apply sort_values_sorted_id.
  apply (StronglySorted_of_map (key_le PyStr.le fst) snd).
  rewrite reset_index_rows. apply weekly_groups_sorted.
Qed.

Lemma sorted_months_rows (campaign_df : list CampaignRow)
  (sort_order : string -> option nat) :
  map snd
    (Pandas.sort_values (Pandas.na_last_le Nat.leb)
       (fun row : nat * (string * Metrics) => sort_order (fst (snd row)))
       (reset_index (apply_calc_metrics Month_Label campaign_df)))
  = Pandas.sort_values (Pandas.na_last_le Nat.leb)
      (fun row => sort_order (fst row))
      (apply_calc_metrics Month_Label campaign_df).
Proof.
  rewrite (sort_values_map (Pandas.na_last_le Nat.leb)
             (fun row : string * Metrics => sort_order (fst row)) snd).
  now rewrite reset_index_rows.
Qed.

Lemma aggregate_by_month_index_joined (campaign_df : list CampaignRow)
  (business_df : list BusinessRow) :
  aggregate_by_month_index campaign_df (Some business_df)
  = reset_index (aggregate_by_month campaign_df (Some business_df)).
Proof.
  unfold aggregate_by_month_index, aggregate_by_month.
  now rewrite sorted_months_rows.
Qed.

Lemma aggregate_by_month_index_rows (campaign_df : list CampaignRow)
  (business_df : option (list BusinessRow)) :
  map snd (aggregate_by_month_index campaign_df business_df)
  = aggregate_by_month campaign_df business_df.
Proof.
  destruct business_df as [biz|].
  - now rewrite aggregate_by_month_index_joined, reset_index_rows.
  - unfold aggregate_by_month_index, aggregate_by_month.
    rewrite map_map. cbn [snd]. rewrite <- sorted_months_rows, map_map.
    reflexivity.
Qed.

Lemma aggregate_by_month_index_labels (campaign_df : list CampaignRow)
  (business_df : option (list BusinessRow)) :
  Permutation (map fst (aggregate_by_month_index campaign_df business_df))
    (seq 0 (List.length (aggregate_by_month campaign_df business_df))).
Proof.
  destruct business_df as [biz|].
  - rewrite aggregate_by_month_index_joined, reset_index_labels.
    apply Permutation_refl.
  - assert (L : List.length (aggregate_by_month campaign_df None)
                = List.length (apply_calc_metrics Month_Label campaign_df)).
    { unfold aggregate_by_month. rewrite length_map.
      apply Permutation_length, sort_values_perm. }
    rewrite L, <- reset_index_labels.
    unfold aggregate_by_month_index. rewrite map_map. cbn [fst].
    apply Permutation_map, sort_values_perm.
Qed.

Lemma sheet_rows_combine {A : Type} (l : list A) (s : nat) :
  map (fun row : nat * A => (fst row + 4, snd row))
    (combine (seq s (List.length l)) l)
  = combine (seq (s + 4) (List.length l)) l.
Proof.
  revert s. induction l as [|x l IH]; intros s; simpl; [reflexivity |].
  f_equal. apply (IH (S s)).
Qed.

Lemma sheet_rows_reset_index {A : Type} (l : list A) :
  sheet_rows (reset_index l) = combine (seq 4 (List.length l)) l.
Proof. apply (sheet_rows_combine l 0). Qed.

(** X16.  The monthly sheet and the weekly sheet write the row of the
    frame with the index label [idx] in the row [idx + 4].  Every row of
    the frame of the months is written once, in the rows from 4 on.  With
    a business frame the merge numbers the rows anew, so the sheet has
    the months in the order of the frame.  The sort of
    [aggregate_by_week] changes nothing, the groups being in the order
    of their labels already, so the weekly sheet has the weeks in the
    order of the frame. *)
Theorem sheet_rows_follow_index (campaign_df : list CampaignRow) :
  (forall business_df,
     map snd (sheet_rows (aggregate_by_month_index campaign_df business_df))
     = aggregate_by_month campaign_df business_df /\
     Permutation
       (map fst (sheet_rows (aggregate_by_month_index campaign_df business_df)))
       (seq 4 (List.length (aggregate_by_month campaign_df business_df)))) /\
  (forall business_df : list BusinessRow,
     sheet_rows (aggregate_by_month_index campaign_df (Some business_df))
     = combine
         (seq 4 (List.length
                   (aggregate_by_month campaign_df (Some business_df))))
         (aggregate_by_month campaign_df (Some business_df))) /\
  aggregate_by_week campaign_df = apply_calc_metrics Week campaign_df /\
  sheet_rows (aggregate_by_week_index campaign_df)
  = combine (seq 4 (List.length (aggregate_by_week campaign_df)))
      (aggregate_by_week campaign_df).
Proof.
  split; [| split; [| split]].
  - intros business_df. unfold sheet_rows. rewrite !map_map. cbn [fst snd].
    split.
    + rewrite <- aggregate_by_month_index_rows. reflexivity.
    + rewrite <- (seq_add 4 0).
      rewrite <- (map_map fst (fun i => i + 4)).
      apply Permutation_map, aggregate_by_month_index_labels.
  - intros business_df.
    now rewrite aggregate_by_month_index_joined, sheet_rows_reset_index.
  - apply aggregate_by_week_sorted_already.
  - now rewrite aggregate_by_week_index_labels, sheet_rows_reset_index.
Qed.

Lemma key_lt_irrefl (a : string) : ~ key_lt a a.
Proof. unfold key_lt. rewrite key_compare_refl. discriminate. Qed.

(** X17.  Without a business frame the rows of the frame of the months
    keep the index labels that they had before they were sorted by date,
    so the monthly sheet has the months in the ascending order of their
    labels, not in the order of the frame: a month written in the row
    [r] is the month of rank [r - 4] among the labels, and of two months
    the one whose label is smaller is written above. *)
Theorem monthly_sheet_rows_by_label (campaign_df : list CampaignRow)
  (r1 r2 : nat) (m1 m2 : string) :
  let column :=
    monthly_sheet_labels (aggregate_by_month_index campaign_df None) in
  In (r1, m1) column -> In (r2, m2) column ->
  4 <= r1 /\
  nth_error (Pandas.group_keys (map Month_Label campaign_df)) (r1 - 4)
  = Some m1 /\
  (r1 < r2 <-> key_lt m1 m2).
Proof.
  cbv zeta.
  assert (P : forall r m,
            In (r, m)
              (monthly_sheet_labels
                 (aggregate_by_month_index campaign_df None)) ->
            4 <= r /\
            nth_error (Pandas.group_keys (map Month_Label campaign_df)) (r - 4)
            = Some m).
  { intros r m H. unfold monthly_sheet_labels, sheet_rows in H.
    rewrite map_map in H. cbn [fst snd] in H.
    unfold aggregate_by_month_index in H. rewrite map_map in H.
    cbn [fst snd mo_Month_Label] in H.
    apply in_map_iff in H. destruct H as ([i [k m']] & E & H).
    cbn [fst snd] in E. injection E as <- <-.
    apply (Permutation_in _ (sort_values_perm _ _ _)) in H.
    apply combine_seq_In in H. destruct H as [_ H].
    rewrite Nat.sub_0_r in H. split; [lia |].
    replace (i + 4 - 4) with i by lia.
    rewrite <- apply_calc_metrics_keys.
    rewrite nth_error_map, H. reflexivity. }
  intros H1 H2. destruct (P _ _ H1) as [L1 N1]. destruct (P _ _ H2) as [L2 N2].
  split; [exact L1 |]. split; [exact N1 |].
  pose proof (group_keys_sorted (map Month_Label campaign_df)) as S.
  split.
  - intros Hlt. apply (StronglySorted_nth _ _ S (r1 - 4) (r2 - 4)); auto.
    lia.
  - intros Hk. destruct (Nat.lt_trichotomy r1 r2) as [Hlt | [Heq | Hgt]];
      [exact Hlt | |].
    + subst r2. rewrite N1 in N2. injection N2 as <-.
      now apply key_lt_irrefl in Hk.
    + assert (Hk' : key_lt m2 m1).
      { apply (StronglySorted_nth _ _ S (r2 - 4) (r1 - 4)); auto. lia. }
      exfalso. apply (key_lt_irrefl m1). eapply key_lt_trans; eauto.
Qed.

(** X17 on the sample of three months: the frame has November, December
    and January in this order, and the sheet has December in row 4,
    January in row 5 and November in row 6. *)
Lemma monthly_sheet_rows_by_label_sample :
  map mo_Month_Label (aggregate_by_month Sample.three_months None)
  = ["Nov 2024"; "Dec 2024"; "Jan 2025"]%string /\
  monthly_sheet_labels (aggregate_by_month_index Sample.three_months None)
  = [(6, "Nov 2024"); (4, "Dec 2024"); (5, "Jan 2025")]%string /\
  nth_error (Pandas.group_keys (map Month_Label Sample.three_months)) (4 - 4)
  = Some "Dec 2024"%string /\
  (4 < 6 <-> key_lt "Dec 2024" "Nov 2024").
Proof.
  assert (E : monthly_sheet_labels
                (aggregate_by_month_index Sample.three_months None)
              = [(6, "Nov 2024"); (4, "Dec 2024"); (5, "Jan 2025")]%string)
    by (vm_compute; reflexivity).
  assert (H1 : In (4, "Dec 2024"%string)
                 (monthly_sheet_labels
                    (aggregate_by_month_index Sample.three_months None)))
    by (rewrite E; simpl; auto).
  assert (H2 : In (6, "Nov 2024"%string)
                 (monthly_sheet_labels
                    (aggregate_by_month_index Sample.three_months None)))
    by (rewrite E; simpl; auto).
  destruct (monthly_sheet_rows_by_label Sample.three_months 4 6
              "Dec 2024" "Nov 2024" H1 H2) as (_ & N & O).
  split; [vm_compute; reflexivity |]. split; [exact E |].
  split; [exact N | exact O].
Defined.

(** ** The summary sheet *)

Section Grid.

Context {A : Type}.

Lemma row_after (s row : nat) :
  row = (if s =? 0 then 6 else 6 + 2 * ((s - 1) / 3)) ->
  (if (0 <? s) && (s mod 3 =? 0) then row + 2 else row) = 6 + 2 * (s / 3).
Proof.
  intros ->.
  pose proof (Nat.div_mod_eq s 3) as E.
  pose proof (Nat.mod_upper_bound s 3 ltac:(lia)) as U.
  pose proof (Nat.div_mod_eq (s - 1) 3) as E1.
  pose proof (Nat.mod_upper_bound (s - 1) 3 ltac:(lia)) as U1.
  destruct (Nat.eqb_spec s 0) as [-> | Hs]; [reflexivity |].
  destruct (Nat.ltb_spec 0 s) as [_ | ?]; [| lia].
  destruct (Nat.eqb_spec (s mod 3) 0) as [Hz | Hz]; cbn [andb]; lia.
Qed.

Lemma write_metrics_from (l : list (A * A)) (s row : nat)
  (out : list (nat * nat * A)) :
  row = (if s =? 0 then 6 else 6 + 2 * ((s - 1) / 3)) ->
  snd (fold_left
         (fun (st : nat * list (nat * nat * A)) (im : nat * (A * A)) =>
            let i := fst im in
            let col := (i mod 3) * 2 + 1 in
            let row :=
              if (0 <? i) && (i mod 3 =? 0) then fst st + 2 else fst st in
            (row,
             snd st ++ [(row, col, fst (snd im));
                        (row + 1, col, snd (snd im))]))
         (combine (seq s (List.length l)) l) (row, out))
  = out ++ flat_map metric_cells (combine (seq s (List.length l)) l).
Proof.
  revert s row out. induction l as [|x l IH]; intros s row out Hrow.
  - simpl. now rewrite app_nil_r.
  - cbn [List.length seq combine fold_left flat_map fst snd].
    cbv zeta. rewrite (row_after s row Hrow).
    rewrite IH.
    + rewrite <- app_assoc. f_equal. unfold metric_cells at 2.
      cbn [fst snd app].
      replace (s mod 3 * 2 + 1) with (2 * (s mod 3) + 1) by lia.
      replace (6 + 2 * (s / 3) + 1) with (7 + 2 * (s / 3)) by lia.
      reflexivity.
    + simpl. now rewrite Nat.sub_0_r.
Qed.

Lemma write_metrics_cells (metrics : list (A * A)) :
  write_metrics metrics
  = flat_map metric_cells (combine (seq 0 (List.length metrics)) metrics).
Proof.
  unfold write_metrics. now rewrite write_metrics_from.
Qed.

Lemma metric_cells_ranks (im : nat * (A * A)) :
  map (fun w => cell_rank (fst w)) (metric_cells im)
  = [2 * fst im; 2 * fst im + 1].
Proof.
  unfold metric_cells, cell_rank. cbn [map fst snd].
  set (i := fst im).
  pose proof (Nat.div_mod_eq i 3) as E.
  replace (6 + 2 * (i / 3) - 6) with ((i / 3) * 2) by lia.
  replace (7 + 2 * (i / 3) - 6) with (1 + (i / 3) * 2) by lia.
  replace (2 * (i mod 3) + 1 - 1) with ((i mod 3) * 2) by lia.
  rewrite Nat.Div0.mod_mul, !Nat.div_mul by lia.
  rewrite Nat.Div0.mod_add, Nat.div_add by lia. simpl (1 mod 2).
  simpl (1 / 2). f_equal; [lia | f_equal; lia].
Qed.

Lemma metric_cells_ranks_from (l : list (A * A)) (s : nat) :
  map (fun w => cell_rank (fst w))
    (flat_map metric_cells (combine (seq s (List.length l)) l))
  = seq (2 * s) (2 * List.length l).
Proof.
  revert s. induction l as [|x l IH]; intros s; [reflexivity |].
  cbn [List.length seq combine flat_map]. rewrite map_app, IH.
  rewrite metric_cells_ranks.
  replace (2 * S (List.length l)) with (S (S (2 * List.length l))) by lia.
  replace (2 * fst (s, x) + 1) with (S (2 * s)) by (cbn [fst]; lia).
  replace (2 * S s) with (S (S (2 * s))) by lia.
  reflexivity.
Qed.

End Grid.

(** X18.  The loop over the metrics of the summary sheet writes the label
    of the metric of index [i] in the row [6 + 2 * (i / 3)] and the
    column [2 * (i mod 3) + 1], and its value in the row below: two
    cells for each metric, no cell written twice, in the columns 1, 3
    and 5 and in the rows from 6 to [7 + 2 * ((n - 1) / 3)] for [n]
    metrics (row 11 for the nine metrics of the sheet). *)
Theorem summary_metrics_grid {A : Type} (metrics : list (A * A)) :
  write_metrics metrics
  = flat_map metric_cells (combine (seq 0 (List.length metrics)) metrics) /\
  List.length (write_metrics metrics) = 2 * List.length metrics /\
  NoDup (map fst (write_metrics metrics)) /\
  Forall (fun w => 6 <= fst (fst w) /\
                   fst (fst w) <= 7 + 2 * ((List.length metrics - 1) / 3) /\
                   (snd (fst w) = 1 \/ snd (fst w) = 3 \/ snd (fst w) = 5))
    (write_metrics metrics).
Proof.
  rewrite write_metrics_cells.
  assert (R : map (fun w : nat * nat * A => cell_rank (fst w))
                (flat_map metric_cells
                   (combine (seq 0 (List.length metrics)) metrics))
              = seq 0 (2 * List.length metrics)).
  { apply (metric_cells_ranks_from metrics 0). }
  split; [reflexivity |]. split; [| split].
  - rewrite <- (length_map (fun w : nat * nat * A => cell_rank (fst w))), R.
    apply length_seq.
  - apply (NoDup_map_inv cell_rank). rewrite map_map, R. apply seq_NoDup.
  - apply Forall_forall. intros w H. apply in_flat_map in H.
    destruct H as ([i [label value]] & Hin & Hw).
    apply in_combine_l, in_seq in Hin.
    pose proof (Nat.mod_upper_bound i 3 ltac:(lia)) as U.
    assert (D : i / 3 <= (List.length metrics - 1) / 3).
    { apply Nat.Div0.div_le_mono. lia. }
    unfold metric_cells in Hw. cbn [fst snd] in Hw.
    destruct Hw as [<- | [<- | []]]; cbn [fst snd];
      (split; [lia |]; split; [lia |]);
      destruct (i mod 3) as [|[|[|k]]]; simpl; lia.
Qed.

Section Extremes.

Variable pick : Timestamp -> Timestamp -> Timestamp.
Variable R : date -> date -> Prop.

Hypothesis pick_none_l : forall b, pick None b = b.
Hypothesis pick_none_r : forall x, pick (Some x) None = Some x.
Hypothesis pick_some :
  forall x y, (pick (Some x) (Some y) = Some x /\ R x y) \/
              (pick (Some x) (Some y) = Some y /\ R y x).
Hypothesis R_refl : forall x, R x x.
Hypothesis R_trans : forall x y z, R x y -> R y z -> R x z.

Lemma fold_pick_spec (col : list Timestamp) (acc : Timestamp) :
  match fold_left pick col acc with
  | None => acc = None /\ Forall (fun t => t = None) col
  | Some m =>
      (acc = Some m \/ In (Some m) col) /\
      (forall d, acc = Some d \/ In (Some d) col -> R m d)
  end.
Proof.
  revert acc. induction col as [|c col IH]; intros acc; simpl.
  - destruct acc as [a|]; [| auto]. split; [auto |].
    intros d [E | []]. injection E as <-. apply R_refl.
  - specialize (IH (pick acc c)).
    destruct (fold_left pick col (pick acc c)) as [m|].
    + destruct IH as [Hin Hle]. destruct acc as [x|], c as [y|];
        rewrite ?pick_none_l, ?pick_none_r in *.
      * destruct (pick_some x y) as [[E Hxy] | [E Hyx]]; rewrite E in *.
        -- split; [tauto |]. intros d [Hd | [Hd | Hd]]; auto.
           injection Hd as <-. apply (R_trans _ x); auto.
        -- split; [tauto |]. intros d [Hd | [Hd | Hd]]; auto.
           injection Hd as <-. apply (R_trans _ y); auto.
      * split; [tauto |]. intros d [Hd | [Hd | Hd]]; auto. discriminate.
      * split; [tauto |]. intros d [Hd | [Hd | Hd]]; auto. discriminate.
      * split; [tauto |]. intros d [Hd | [Hd | Hd]]; auto; discriminate.
    + destruct IH as [E F]. destruct acc as [x|], c as [y|];
        rewrite ?pick_none_l, ?pick_none_r in *; try discriminate.
      * destruct (pick_some x y) as [[E' _] | [E' _]]; congruence.
      * auto.
Qed.

End Extremes.

Lemma series_min_spec (col : list Timestamp) :
  match Pandas.series_min col with
  | None => Forall (fun t => t = None) col
  | Some m =>
      In (Some m) col /\
      forall d, In (Some d) col -> Calendar.leb m d = true
  end.
Proof.
  unfold Pandas.series_min, NaT.
  pose proof (fold_pick_spec Pandas.ts_min
                (fun a b => Calendar.leb a b = true)) as H.
  specialize (H (fun b => eq_refl)).
  assert (Hr : forall x, Pandas.ts_min (Some x) None = Some x)
    by reflexivity.
  specialize (H Hr).
  assert (Hs : forall x y,
            (Pandas.ts_min (Some x) (Some y) = Some x /\
             Calendar.leb x y = true) \/
            (Pandas.ts_min (Some x) (Some y) = Some y /\
             Calendar.leb y x = true)).
  { intros x y. simpl. destruct (Calendar.leb x y) eqn:E; [auto |].
    right. split; [reflexivity |].
    destruct (calendar_leb_total x y); congruence. }
  specialize (H Hs calendar_leb_refl calendar_leb_trans col None).
  destruct (fold_left Pandas.ts_min col None) as [m|].
  - destruct H as [[E | Hin] Hle]; [discriminate |]. split; auto.
  - tauto.
Qed.

Lemma series_max_spec (col : list Timestamp) :
  match series_max col with
  | None => Forall (fun t => t = None) col
  | Some m =>
      In (Some m) col /\
      forall d, In (Some d) col -> Calendar.leb d m = true
  end.
Proof.
  unfold series_max, NaT.
  pose proof (fold_pick_spec ts_max
                (fun a b => Calendar.leb b a = true)) as H.
  specialize (H (fun b => eq_refl)).
  assert (Hr : forall x, ts_max (Some x) None = Some x) by reflexivity.
  specialize (H Hr).
  assert (Hs : forall x y,
            (ts_max (Some x) (Some y) = Some x /\
             Calendar.leb y x = true) \/
            (ts_max (Some x) (Some y) = Some y /\
             Calendar.leb x y = true)).
  { intros x y. simpl. destruct (Calendar.leb x y) eqn:E; [auto |].
    left. split; [reflexivity |].
    destruct (calendar_leb_total x y); congruence. }
  specialize (H Hs calendar_leb_refl
                (fun x y z Hxy Hyz => calendar_leb_trans z y x Hyz Hxy)
                col None).
  destruct (fold_left ts_max col None) as [m|].
  - destruct H as [[E | Hin] Hle]; [discriminate |]. split; auto.
  - tauto.
Qed.

(** X19.  The line of the date range of the summary sheet cannot be
    written when no campaign row has a date ([strftime] on [NaT] ends the
    run); otherwise it gives the earliest and the latest date of the
    frame, both dates of rows, and no date of a row is outside them. *)
Theorem summary_date_range_needs_a_date (campaign_df : list CampaignRow) :
  match summary_date_range campaign_df with
  | None => Forall (fun r => Date r = NaT) campaign_df
  | Some line =>
      exists date_min date_max,
        line = ("Date Range: " ++ strftime_b_d_Y date_min ++ " - "
                ++ strftime_b_d_Y date_max)%string /\
        In (Some date_min) (map Date campaign_df) /\
        In (Some date_max) (map Date campaign_df) /\
        forall r d, In r campaign_df -> Date r = Some d ->
                    Calendar.leb date_min d = true /\
                    Calendar.leb d date_max = true
  end.
Proof.
  unfold summary_date_range.
  pose proof (series_min_spec (map Date campaign_df)) as Hmin.
  pose proof (series_max_spec (map Date campaign_df)) as Hmax.
  destruct (Pandas.series_min (map Date campaign_df)) as [a|].
  - destruct (series_max (map Date campaign_df)) as [b|].
    + destruct Hmin as [Ia La], Hmax as [Ib Lb].
      exists a, b. split; [reflexivity |]. split; [exact Ia |].
      split; [exact Ib |]. intros r d Hr Hd.
      assert (Hin : In (Some d) (map Date campaign_df)).
      { rewrite <- Hd. now apply in_map. }
      auto.
    + now rewrite Forall_map in Hmax.
  - now rewrite Forall_map in Hmin.
Qed.

(** ** The pairwise sum *)

(** The length of the list bounds the number of splits of numpy's
    pairwise sum: a greater bound gives the same sum. *)
Lemma pairwise_sum_depth (d : nat) (a : list float) :
  List.length a <= 128 + d ->
  Pandas.pairwise_sum (S d) a = Pandas.pairwise_sum d a.
Proof.
  revert a. induction d as [|d IH]; intros a H.
  - cbn [Pandas.pairwise_sum].
    destruct (Nat.leb_spec (List.length a) 128); [reflexivity | lia].
  - change (Pandas.pairwise_sum (S (S d)) a)
      with (let n := List.length a in
            if Nat.leb n 128 then Pandas.block_sum a
            else
              let n2 := n / 2 - (n / 2) mod 8 in
              (Pandas.pairwise_sum (S d) (firstn n2 a)
               + Pandas.pairwise_sum (S d) (skipn n2 a))%float).
    change (Pandas.pairwise_sum (S d) a)
      with (let n := List.length a in
            if Nat.leb n 128 then Pandas.block_sum a
            else
              let n2 := n / 2 - (n / 2) mod 8 in
              (Pandas.pairwise_sum d (firstn n2 a)
               + Pandas.pairwise_sum d (skipn n2 a))%float).
    cbv zeta.
    destruct (Nat.leb_spec (List.length a) 128) as [|Hn]; [reflexivity |].
    set (n := List.length a) in *.
    pose proof (Nat.div_mod_eq n 2) as E2.
    pose proof (Nat.mod_upper_bound n 2 ltac:(lia)) as U2.
    pose proof (Nat.mod_upper_bound (n / 2) 8 ltac:(lia)) as U8.
    set (n2 := n / 2 - (n / 2) mod 8) in *.
    assert (L1 : 57 <= n2 <= n / 2) by (unfold n2; lia).
    rewrite !IH; [reflexivity | |].
    + rewrite length_skipn. fold n. lia.
    + rewrite length_firstn. fold n. lia.
Qed.

Lemma pairwise_sum_depth_le (d d' : nat) (a : list float) :
  List.length a <= 128 + d -> d <= d' ->
  Pandas.pairwise_sum d' a = Pandas.pairwise_sum d a.
Proof.
  intros H Hd. induction Hd as [|d' Hd IH]; [reflexivity |].
  rewrite pairwise_sum_depth by lia. exact IH.
Qed.
